(** * TropicHouse assistant: dialog state machine, cart and escalation gate

    A shallow embedding of the Python sources

    - [chat_context.py]  ([DialogState], [ChatContext] and its cart methods),
    - [bot_agent.py]     ([classify_intent], [extract_pot_size],
                          [generate_pot_link],
                          [is_working_hours_and_managers_available],
                          [run_unified_agent]; [extract_plant_diameter],
                          [check_and_send_pot_suggestion] and the tools
                          [add_to_cart], [show_cart], [checkout_cart],
                          [remove_from_cart], [order], [preorder]),
    - [main.py]          ([send_message], [handle_client_message],
                          [handle_client_image], [process_messages],
                          [process_user_messages], [on_message],
                          [cleanup_expired_contexts]),
    - [telegrambot.py]   ([choose_manager]),

    followed by the properties of the dialog core.

    Conventions.  A Python [str] is the list of its code points
    ([pystr]); literals are written as UTF-8 text and decoded by [py].
    A Python [dict] used as a map is a [gmap]; a Python list is a [list].
    Code that mutates a [ChatContext] is a computation in the state and
    exception monad [M], whose state also carries the log of calls made to
    the outside world ([notify_seller], the CRM message endpoint).  The
    language model, the clock and the CRM staff query are Section
    parameters. *)

From Stdlib Require Import ZArith NArith Ascii String.
From stdpp Require Import gmap strings list fin_maps.

Open Scope Z_scope.

(* ===================================================================== *)
(** ** Python strings *)
(* ===================================================================== *)

Module PyStr.

(** Code points. *)
Abbreviation pystr := (list N) (only parsing).

(** UTF-8 decoding of a literal: [acc] holds the bits of the code point
    being read and [k] the number of continuation bytes still expected. *)
Fixpoint utf8_decode (s : string) (acc : N) (k : nat) : pystr :=
  match s with
  | EmptyString => []
  | String a s' =>
      let b := N_of_ascii a in
      match k with
      | O => if (b <? 128)%N then b :: utf8_decode s' 0%N O
             else if (b <? 224)%N then utf8_decode s' (b - 192)%N 1%nat
             else if (b <? 240)%N then utf8_decode s' (b - 224)%N 2%nat
             else utf8_decode s' (b - 240)%N 3%nat
      | S O => (acc * 64 + (b - 128))%N :: utf8_decode s' 0%N O
      | S k' => utf8_decode s' (acc * 64 + (b - 128))%N k'
      end
  end.

Definition py (s : string) : pystr := utf8_decode s 0%N O.

(** ["\n"] *)
Definition nl : pystr := [10%N].

(** [str.isspace] on one code point: the characters removed by
    [str.strip()] and matched by [\s] in a [str] pattern. *)
Definition is_space (c : N) : bool :=
  ((9 <=? c) && (c <=? 13) || (28 <=? c) && (c <=? 32)
   || (c =? 133) || (c =? 160) || (c =? 5760)
   || (8192 <=? c) && (c <=? 8202)
   || (c =? 8232) || (c =? 8233) || (c =? 8239) || (c =? 8287)
   || (c =? 12288))%N.

Fixpoint lstrip (s : pystr) : pystr :=
  match s with
  | c :: s' => if is_space c then lstrip s' else s
  | [] => []
  end.

Definition rstrip (s : pystr) : pystr := rev (lstrip (rev s)).

(** [s.strip()] *)
Definition strip (s : pystr) : pystr := rstrip (lstrip s).

(** [bool(s)] for a string. *)
Definition truthy (s : pystr) : bool :=
  match s with [] => false | _ :: _ => true end.

(** [sep.join(parts)] *)
Fixpoint join (sep : pystr) (parts : list pystr) : pystr :=
  match parts with
  | [] => []
  | [p] => p
  | p :: rest => p ++ sep ++ join sep rest
  end.

(** [str(n)] for a natural number: decimal digits, most significant
    first.  [fuel] bounds the number of digits. *)
Fixpoint digits_of (fuel : nat) (n : N) (acc : pystr) : pystr :=
  match fuel with
  | O => acc
  | S fuel' =>
      let acc' := (48 + n mod 10)%N :: acc in
      if (n <? 10)%N then acc' else digits_of fuel' (n / 10)%N acc'
  end.

Definition str_of_N (n : N) : pystr := digits_of (S (N.to_nat (N.log2 n))) n [].

End PyStr.
Import PyStr.

(* ===================================================================== *)
(** ** chat_context.py *)
(* ===================================================================== *)

Inductive DialogState :=
| START | ASK_SIZE | ASK_LOCATION | PLANT_SEARCH | OUT_OF_STOCK | ORDERING
| CART_MANAGEMENT | CART_CHECKOUT | UPSELL | COMPLETED | MANAGER_CALLED.

#[global] Instance DialogState_eq_dec : EqDecision DialogState.
Proof. solve_decision. Defined.

(** A catalog entry is a dict from column names to values. *)
Abbreviation Plant := (gmap (list N) (list N)) (only parsing).

(** The key ["Название"]: the display name of a catalog entry. *)
Definition key_name : pystr := py "Название".

(** One cart row: [{"plant": ..., "quantity": ..., "type": ...}]. *)
Record CartItem := mkCartItem {
  plant : Plant;
  quantity : Z;
  type : pystr
}.

#[global] Instance CartItem_eq_dec : EqDecision CartItem.
Proof. solve_decision. Defined.

(** The ["content"] entry of a history message: the key can be missing,
    hold [None], or hold text. *)
Inductive Content := ContentMissing | ContentNone | ContentStr (s : pystr).

Record Message := mkMessage {
  role : pystr;
  content : Content;
  tool_calls : list pystr;
  tool_call_id : option pystr;
  name : option pystr
}.

Record ChatContext := mkChatContext {
  chat_id : Z;
  dialog_id : option Z;
  created_at : Z;
  messages : list Message;
  state : DialogState;
  desired_size : option pystr;
  desired_location : option pystr;
  selected_plants : option (list Plant);
  cart : list CartItem;
  order_details : option pystr;
  potential_groups : option pystr;
  channel_info : option (Z * pystr);
  user_info : option (Z * pystr);
  out_of_stock_plant : option Plant;
  out_of_stock_plants : option (list Plant);
  preorder_info : option pystr;
  last_search_query : option pystr;
  (** [subject] is not set by [__init__]; [run_unified_agent] assigns it
      before notifying a human. *)
  subject : option pystr
}.

(** [ChatContext(chat_id)] created at time [now]. *)
Definition new_context (now : Z) (chat_id : Z) : ChatContext :=
  {| chat_id := chat_id; dialog_id := None; created_at := now;
     messages := []; state := START;
     desired_size := None; desired_location := None;
     selected_plants := None; cart := [];
     order_details := None; potential_groups := None;
     channel_info := None; user_info := None;
     out_of_stock_plant := None; out_of_stock_plants := None;
     preorder_info := None; last_search_query := None;
     subject := None |}.

(** Attribute assignments. *)
Definition set_state (s : DialogState) (c : ChatContext) : ChatContext :=
  {| chat_id := chat_id c; dialog_id := dialog_id c; created_at := created_at c;
     messages := messages c; state := s;
     desired_size := desired_size c; desired_location := desired_location c;
     selected_plants := selected_plants c; cart := cart c;
     order_details := order_details c; potential_groups := potential_groups c;
     channel_info := channel_info c; user_info := user_info c;
     out_of_stock_plant := out_of_stock_plant c;
     out_of_stock_plants := out_of_stock_plants c;
     preorder_info := preorder_info c;
     last_search_query := last_search_query c; subject := subject c |}.

Definition set_cart (k : list CartItem) (c : ChatContext) : ChatContext :=
  {| chat_id := chat_id c; dialog_id := dialog_id c; created_at := created_at c;
     messages := messages c; state := state c;
     desired_size := desired_size c; desired_location := desired_location c;
     selected_plants := selected_plants c; cart := k;
     order_details := order_details c; potential_groups := potential_groups c;
     channel_info := channel_info c; user_info := user_info c;
     out_of_stock_plant := out_of_stock_plant c;
     out_of_stock_plants := out_of_stock_plants c;
     preorder_info := preorder_info c;
     last_search_query := last_search_query c; subject := subject c |}.

Definition set_messages (ms : list Message) (c : ChatContext) : ChatContext :=
  {| chat_id := chat_id c; dialog_id := dialog_id c; created_at := created_at c;
     messages := ms; state := state c;
     desired_size := desired_size c; desired_location := desired_location c;
     selected_plants := selected_plants c; cart := cart c;
     order_details := order_details c; potential_groups := potential_groups c;
     channel_info := channel_info c; user_info := user_info c;
     out_of_stock_plant := out_of_stock_plant c;
     out_of_stock_plants := out_of_stock_plants c;
     preorder_info := preorder_info c;
     last_search_query := last_search_query c; subject := subject c |}.

Definition set_subject (s : pystr) (c : ChatContext) : ChatContext :=
  {| chat_id := chat_id c; dialog_id := dialog_id c; created_at := created_at c;
     messages := messages c; state := state c;
     desired_size := desired_size c; desired_location := desired_location c;
     selected_plants := selected_plants c; cart := cart c;
     order_details := order_details c; potential_groups := potential_groups c;
     channel_info := channel_info c; user_info := user_info c;
     out_of_stock_plant := out_of_stock_plant c;
     out_of_stock_plants := out_of_stock_plants c;
     preorder_info := preorder_info c;
     last_search_query := last_search_query c; subject := Some s |}.

(** Length of [timedelta(days=days)] in microseconds, the resolution of
    [datetime]. *)
Definition timedelta_days (days : Z) : Z := days * 86400 * 1000000.

(** [is_expired(days=7)], with [now] the value of [datetime.now()]. *)
Definition is_expired (now : Z) (c : ChatContext) : bool :=
  let expiry_date := created_at c + timedelta_days 7 in
  bool_decide (now > expiry_date).

(** [add_message(role, text, tool_calls, tool_call_id, name)]. *)
Definition role_tool : pystr := py "tool".
Definition role_assistant : pystr := py "assistant".
Definition role_user : pystr := py "user".

Definition add_message_full (rl : pystr) (text : option pystr)
    (tcs : list pystr) (tcid : option pystr) (nm : option pystr)
    (c : ChatContext) : ChatContext :=
  let content0 := match text with Some t => ContentStr t | None => ContentNone end in
  let content1 := match tcs with [] => content0 | _ :: _ => ContentNone end in
  let tcid' := match tcid with Some t => if truthy t then Some t else None | None => None end in
  let nm' := match nm with Some t => if truthy t then Some t else None | None => None end in
  let content2 :=
    if bool_decide (rl = role_tool) && bool_decide (text = None) then ContentStr []
    else match content1 with
         | ContentNone => if bool_decide (rl ≠ role_assistant) then ContentMissing else ContentNone
         | other => other
         end in
  set_messages (messages c ++ [mkMessage rl content2 tcs tcid' nm']) c.

Definition add_message (rl : pystr) (text : option pystr) : ChatContext → ChatContext :=
  add_message_full rl text [] None None.

(** [get_last_n_messages(n)] for [n >= 1]: [messages[-n:]] when at least
    [n] are stored, else all of them. *)
Definition get_last_n_messages (n : nat) (c : ChatContext) : list Message :=
  if bool_decide (n ≤ length (messages c))%nat
  then drop (length (messages c) - n) (messages c)
  else messages c.

Definition reset_out_of_stock_state (c : ChatContext) : ChatContext :=
  {| chat_id := chat_id c; dialog_id := dialog_id c; created_at := created_at c;
     messages := messages c; state := state c;
     desired_size := desired_size c; desired_location := desired_location c;
     selected_plants := selected_plants c; cart := cart c;
     order_details := order_details c; potential_groups := potential_groups c;
     channel_info := channel_info c; user_info := user_info c;
     out_of_stock_plant := None;
     out_of_stock_plants := None;
     preorder_info := None;
     last_search_query := last_search_query c; subject := subject c |}.

Definition reset_preferences (c : ChatContext) : ChatContext :=
  {| chat_id := chat_id c; dialog_id := dialog_id c; created_at := created_at c;
     messages := messages c; state := state c;
     desired_size := None; desired_location := None;
     selected_plants := selected_plants c; cart := cart c;
     order_details := order_details c; potential_groups := potential_groups c;
     channel_info := channel_info c; user_info := user_info c;
     out_of_stock_plant := out_of_stock_plant c;
     out_of_stock_plants := out_of_stock_plants c;
     preorder_info := preorder_info c;
     last_search_query := last_search_query c; subject := subject c |}.

Definition clear_cart (c : ChatContext) : ChatContext := set_cart [] c.

(** [change_state(new_state)]: the three guarded resets read [self.state],
    the state being left, and run in the order of the source; the
    assignment of the new state comes last. *)
Definition change_state (new_state : DialogState) (c : ChatContext) : ChatContext :=
  let old_state := state c in
  let c1 :=
    if bool_decide (old_state = OUT_OF_STOCK) && bool_decide (new_state ≠ OUT_OF_STOCK)
    then reset_out_of_stock_state c else c in
  let c2 :=
    if bool_decide (new_state = COMPLETED) then clear_cart c1 else c1 in
  let c3 :=
    if bool_decide (new_state ∈ [START; PLANT_SEARCH])
       && bool_decide (old_state ∉ [START; PLANT_SEARCH; CART_MANAGEMENT])
    then reset_preferences c2 else c2 in
  set_state new_state c3.

(** [plant.get("Название")] *)
Definition plant_name (p : Plant) : option pystr := p !! key_name.

(** The loop of [add_to_cart]: the first row whose plant has the same
    ["Название"] gets [quantity] added and the method returns; [None]
    when the loop ends without a match. *)
Fixpoint add_to_cart_loop (rows : list CartItem) (plant_data : Plant)
    (qty : Z) : option (list CartItem) :=
  match rows with
  | [] => None
  | item :: rest =>
      if bool_decide (plant_name (plant item) = plant_name plant_data)
      then Some (mkCartItem (plant item) (quantity item + qty) (type item) :: rest)
      else (item ::.) <$> add_to_cart_loop rest plant_data qty
  end.

Definition add_to_cart (plant_data : Plant) (qty : Z) (order_type : pystr)
    (c : ChatContext) : ChatContext :=
  match add_to_cart_loop (cart c) plant_data qty with
  | Some rows => set_cart rows c
  | None => set_cart (cart c ++ [mkCartItem plant_data qty order_type]) c
  end.

(** [remove_from_cart(plant_name)]: keeps the rows whose name differs. *)
Definition remove_from_cart (nm : pystr) (c : ChatContext) : ChatContext :=
  set_cart (filter (λ item, plant_name (plant item) ≠ Some nm) (cart c)) c.

(** Rows of a cart whose plant carries the given name. *)
Definition rows_named (nm : option pystr) (rows : list CartItem) : list CartItem :=
  filter (λ item, plant_name (plant item) = nm) rows.

(* ===================================================================== *)
(** ** Effects: exceptions, the outside world, the monad *)
(* ===================================================================== *)

(** Python exceptions that the modelled code can raise.  All of them are
    subclasses of [Exception], so an [except Exception] clause catches
    each one. *)
Inductive exn :=
| NameError (name : string)
| TypeError (what : string)
| KeyError (key : pystr)
| ExternalError (what : string).

Inductive Outcome (A : Type) :=
| Ok (a : A)
| Raise (e : exn).
Arguments Ok {A} a.
Arguments Raise {A} e.

(** Calls that leave the process. *)
Inductive Event :=
(** [telegrambot.notify_seller(details, is_preorder, context)]; the third
    component is [context.subject] at the time of the call. *)
| Notified (details : pystr) (is_preorder : bool) (subj : option pystr)
(** The POST to the CRM [/messages] endpoint made by [send_message]. *)
| Posted (chat : Z) (text : pystr).

#[global] Instance Event_eq_dec : EqDecision Event.
Proof. solve_decision. Defined.

Definition is_posted (e : Event) : bool :=
  match e with Posted _ _ => true | Notified _ _ _ => false end.

Definition is_notified (e : Event) : bool :=
  match e with Notified _ _ _ => true | Posted _ _ => false end.

(** Messages posted to the user, and humans notified, in a log. *)
Definition replies (log : list Event) : list Event := filter (λ e, is_posted e = true) log.
Definition notifications (log : list Event) : list Event := filter (λ e, is_notified e = true) log.

(** What a turn of the agent can touch: the session object it was handed
    and the log of outside calls. *)
Record World := mkWorld {
  ctx : ChatContext;
  log : list Event
}.

(** State and exception monad.  A raised exception keeps the state reached
    so far: mutations made before the [raise] are not rolled back. *)
Definition M (A : Type) : Type := World → Outcome A * World.

#[global] Instance M_ret : MRet M := λ A a w, (Ok a, w).

#[global] Instance M_bind : MBind M := λ A B f m w,
  match m w with
  | (Ok a, w') => f a w'
  | (Raise e, w') => (Raise e, w')
  end.

Definition raise {A} (e : exn) : M A := λ w, (Raise e, w).

Definition get_ctx : M ChatContext := λ w, (Ok (ctx w), w).

Definition modify_ctx (f : ChatContext → ChatContext) : M unit :=
  λ w, (Ok tt, mkWorld (f (ctx w)) (log w)).

Definition emit (e : Event) : M unit :=
  λ w, (Ok tt, mkWorld (ctx w) (log w ++ [e])).

Definition lift_outcome {A} (o : Outcome A) : M A := λ w, (o, w).

(** [d[key]] on a dict: [KeyError] when the key is missing. *)
Definition getitem (d : gmap (list N) (list N)) (key : pystr) : M pystr :=
  match d !! key with
  | Some v => mret v
  | None => raise (KeyError key)
  end.

(* ===================================================================== *)
(** ** main.py: send_message *)
(* ===================================================================== *)

Definition technical_error_text : pystr :=
  py "Извините, произошла техническая ошибка. Пожалуйста, повторите запрос или напишите /start для перезапуска диалога.".

(** [send_message(chat_id, message)] as a function on the log: [None] is
    replaced by a fixed text, an empty or all-whitespace message returns
    before any request is built, anything else is posted.  Failures of
    the request itself are caught and logged inside [send_message]. *)
Definition send_message_log (chat : Z) (message : option pystr) (l : list Event) : list Event :=
  let message := match message with None => technical_error_text | Some m => m end in
  if negb (truthy message) || negb (truthy (strip message)) then l
  else l ++ [Posted chat message].

Definition send_message (chat : Z) (message : option pystr) : M unit :=
  λ w, (Ok tt, mkWorld (ctx w) (send_message_log chat message (log w))).

(* ===================================================================== *)
(** ** bot_agent.py: tables *)
(* ===================================================================== *)

Definition CATEGORY_REPLIES : gmap (list N) (list N) :=
  list_to_map [
    (py "live_photo", py "Сейчас я спрошу у коллеги, чтобы он сделал для вас свеженькое фото растения 📸 Немного подождите, хорошо?");
    (py "multiple_plants", py "Для вашего большого заказа я уже зову нашего менеджера 🤗 Пожалуйста, подождите немного!");
    (py "order_question", py "Сейчас уточню детали вашего заказа и скоро вернусь с ответом 📦");
    (py "call_request", py "Понял, сейчас попрошу менеджера связаться с вами по телефону 📞");
    (py "reclamation", py "Я передам ваш вопрос нашему менеджеру по рекламациям 🙏 Подождите, пожалуйста.");
    (py "ask_human", py "Конечно, я позову менеджера, который поможет лично 🤝 Подождите чуть-чуть!");
    (py "office_plant", py "Зову нашего эксперта по озеленению офисов 🌿 Он скоро свяжется с вами.")
  ].

Definition DETAILS_PREFIX : gmap (list N) (list N) :=
  list_to_map [
    (py "live_photo", py "Пользователь запрашивает живое фото растения");
    (py "multiple_plants", py "Пользователь спрашивает про заказ нескольких растений");
    (py "order_question", py "Вопрос по текущему заказу");
    (py "call_request", py "Пользователь просит позвонить");
    (py "reclamation", py "Рекламация");
    (py "ask_human", py "Пользователь просит связать с менеджером");
    (py "office_plant", py "Пользователь интересуется растениями для офиса")
  ].

(** [PLANT_POT_SIZE_MAPPING], in the order the dict literal lists its
    keys (iteration order is insertion order). *)
Definition PLANT_POT_SIZE_MAPPING : list (N * (N * N)) :=
  [ (9, (10, 12)); (10, (10, 12)); (11, (12, 15)); (12, (12, 15));
    (13, (15, 18)); (14, (15, 18)); (15, (15, 18)); (16, (19, 21));
    (17, (19, 21)); (18, (19, 21)); (19, (21, 25)); (20, (21, 25));
    (21, (21, 25)); (22, (21, 25)); (23, (26, 29)); (24, (28, 30));
    (25, (30, 35)); (26, (30, 35)); (27, (30, 35)); (28, (30, 35));
    (29, (35, 40)); (30, (35, 40)); (31, (35, 40)); (32, (35, 40));
    (33, (40, 45)); (34, (40, 45)); (35, (40, 45)); (36, (43, 50));
    (37, (50, 59)); (38, (50, 59)); (39, (50, 59)); (40, (50, 59));
    (41, (50, 59)); (42, (50, 59)); (43, (50, 59)); (44, (50, 59));
    (45, (50, 59)); (46, (60, 70)); (47, (60, 70)); (48, (60, 70));
    (49, (60, 70)); (50, (60, 70)); (51, (60, 70)); (52, (60, 70));
    (53, (60, 70)) ]%N.

Fixpoint assoc (k : N) (d : list (N * (N * N))) : option (N * N) :=
  match d with
  | [] => None
  | (k', v) :: d' => if (k =? k')%N then Some v else assoc k d'
  end.

(** [min(xs, key=key)] continued from a current best: the first element
    with the least key wins. *)
Fixpoint min_by (key : N → Z) (best : N) (xs : list N) : N :=
  match xs with
  | [] => best
  | x :: xs' => min_by key (if key x <? key best then x else best) xs'
  end.

(** [generate_pot_link(plant_diameter)]. *)
Definition pot_range (plant_diameter : N) : N * N :=
  match assoc plant_diameter PLANT_POT_SIZE_MAPPING with
  | None =>
      let closest_diameter :=
        min_by (λ x, Z.abs (Z.of_N x - Z.of_N plant_diameter)) 9%N
               (tail (map fst PLANT_POT_SIZE_MAPPING)) in
      default (0, 0)%N (assoc closest_diameter PLANT_POT_SIZE_MAPPING)
  | Some r => r
  end.

Definition base_url : pystr := py "https://tropichouse.ru/catalog/gorshki_i_kashpo/filter".

Definition generate_pot_link (plant_diameter : N) : pystr :=
  let '(min_diameter, max_diameter) := pot_range plant_diameter in
  base_url ++ py "/diameter-from-" ++ str_of_N min_diameter
           ++ py "-to-" ++ str_of_N max_diameter ++ py "/apply/".

(* ===================================================================== *)
(** ** bot_agent.py: the patterns of extract_pot_size *)
(* ===================================================================== *)

(** The four patterns only use literal characters, [\s*] and one group
    [(\d+)]. *)
Inductive atom :=
| Lit (c : N)
| Spaces
| DigitsGroup.

Definition lits (s : pystr) : list atom := map Lit s.

Section Regex.

(** [decimal_value c] is the value of [c] when [c] is a decimal digit of
    some script (the characters matched by [\d] in a [str] pattern and
    accepted by [int]), and [None] otherwise. *)
Variable decimal_value : N → option N.

Definition is_digit (c : N) : bool :=
  match decimal_value c with Some _ => true | None => false end.

(** Greedy [\s*] followed by the continuation [k], with backtracking. *)
Fixpoint star_spaces {R} (k : pystr → option R) (s : pystr) : option R :=
  match s with
  | c :: s' =>
      if is_space c
      then match star_spaces k s' with
           | Some r => Some r
           | None => k s
           end
      else k s
  | [] => k s
  end.

(** Greedy [(\d+)] followed by [k], which receives the captured text. *)
Fixpoint plus_digits {R} (k : pystr → pystr → option R) (acc : pystr) (s : pystr) : option R :=
  match s with
  | c :: s' =>
      if is_digit c
      then match plus_digits k (acc ++ [c]) s' with
           | Some r => Some r
           | None => k (acc ++ [c]) s'
           end
      else None
  | [] => None
  end.

(** Match the pattern at the start of [s]; the result is [group(1)]. *)
Fixpoint match_here (p : list atom) (grp : pystr) (s : pystr) : option pystr :=
  match p with
  | [] => Some grp
  | Lit c :: p' =>
      match s with
      | c' :: s' => if (c =? c')%N then match_here p' grp s' else None
      | [] => None
      end
  | Spaces :: p' => star_spaces (match_here p' grp) s
  | DigitsGroup :: p' => plus_digits (λ g rest, match_here p' g rest) [] s
  end.

(** [re.search(p, s)]: the match at the leftmost position that has one. *)
Fixpoint search (p : list atom) (s : pystr) : option pystr :=
  match match_here p [] s with
  | Some g => Some g
  | None => match s with
            | [] => None
            | _ :: s' => search p s'
            end
  end.

(** [int(g)] for a run of decimal digits. *)
Definition int_of_digits (g : pystr) : N :=
  foldl (λ acc c, acc * 10 + default 0 (decimal_value c))%N 0%N g.

Definition pot_patterns : list (list atom) :=
  [ [DigitsGroup; Spaces] ++ lits (py "см");
    lits (py "d") ++ [DigitsGroup];
    lits (py "диаметр") ++ [Spaces; DigitsGroup];
    lits (py "размер") ++ [Spaces; DigitsGroup] ].

(** The loop over the patterns: a pattern whose first match is out of
    range is given up and the next pattern is tried. *)
Fixpoint extract_loop (patterns : list (list atom)) (lowered : pystr) : option N :=
  match patterns with
  | [] => None
  | pattern :: rest =>
      match search pattern lowered with
      | Some g =>
          let size := int_of_digits g in
          if ((10 <=? size) && (size <=? 70))%N then Some size
          else extract_loop rest lowered
      | None => extract_loop rest lowered
      end
  end.

End Regex.

(* ===================================================================== *)
(** ** bot_agent.py: classification and the turn *)
(* ===================================================================== *)

Definition review_request_text : pystr :=
  py "Ваш заказ доставлен 🏡" ++ nl ++
  py "Благодарим за покупку в TropicHouse! 🌿" ++ nl ++ nl ++
  py "Ваш выбор — лучшая награда для нашей команды. Мы постоянно совершенствуем сервис и хотим, чтобы вам было приятно возвращаться🌴" ++ nl ++ nl ++
  py "Пожалуйста, оцените наш сервис по 5-балльной шкале:" ++ nl ++
  py "5 — 😍 всё отлично" ++ nl ++
  py "3 — 😐 есть, что улучшить" ++ nl ++
  py "1 — 😞 остались недовольны".

Definition review_replies : list pystr :=
  [ py "1"; py "3"; py "5"; py "1 - 3"; py "5 - отлично"; py "5 — всё отлично";
    py "3 — есть, что улучшить"; py "1 — остались недовольны" ].

Definition review_ignore : pystr := py "review_ignore".
Definition none : pystr := py "none".
Definition pot_request : pystr := py "pot_request".
Definition office_plant : pystr := py "office_plant".
Definition order_question : pystr := py "order_question".
Definition call_request : pystr := py "call_request".

Definition after_hours_message : pystr := py "Запрос принят, свяжемся с Вами в рабочее время ⏰".

Definition generic_pot_reply : pystr :=
  py "🪴 Вот наш каталог кашпо и горшков:" ++ nl ++
  py "https://tropichouse.ru/catalog/gorshki_i_kashpo/".

Definition sized_pot_reply (pot_size : N) (pot_link : pystr) : pystr :=
  py "🪴 Вот подходящие кашпо диаметром " ++ str_of_N pot_size ++ py " см:" ++ nl ++ pot_link.

Definition accessories_message : pystr :=
  py "🌿 Отлично! Ваш заказ оформлен! " ++ nl ++ nl ++
  py "А чтобы ваше растение чувствовало себя максимально комфортно, предлагаю полезные аксессуары:" ++ nl ++ nl ++
  py "🚿 **Лейки и опрыскиватели**" ++ nl ++
  py "https://tropichouse.ru/catalog/aksessuary/leyki_i_opryskivateli/" ++ nl ++ nl ++
  py "🌱 **Удобрения** " ++ nl ++
  py "https://tropichouse.ru/catalog/udobreniya/udobreniya_1/" ++ nl ++ nl ++
  py "💡 **Фитолампы**" ++ nl ++
  py "https://tropichouse.ru/catalog/aksessuary/fitolampy/" ++ nl ++ nl ++
  py "🔧 **Приборы для ухода**" ++ nl ++
  py "https://tropichouse.ru/catalog/aksessuary/pribory_dlya_rasteniy/" ++ nl ++ nl ++
  py "Нужна консультация по аксессуарам? Обращайтесь! 😊".

(** [config.MANAGER_B2B["id"]] and [config.MANAGER_B2C["id"]]. *)
Definition MANAGER_B2B_id : Z := 71.
Definition MANAGER_B2C_id : Z := 2.

Section Bot.

#[local] Set Default Proof Using "Type".

(** [str.lower] on Unicode text. *)
Variable lower : pystr → pystr.

(** Decimal digits of all scripts, as in [Regex]. *)
Variable decimal_value : N → option N.

(** The classification request to the language model:
    [response.choices[0].message.content] for the user text, or the
    exception raised by the client. *)
Variable classifier_completion : pystr → Outcome pystr.

(** The quantity request of [extract_plant_quantity] together with the
    [int(...)] applied to its reply: the number, or the exception raised
    by either. *)
Variable quantity_completion : pystr → Outcome Z.

(** [telegrambot.get_online_managers(group_id)]: the online managers of a
    group, or an exception. *)
Variable get_online_managers : Z → Outcome (list Z).

(** [datetime.now().hour] during the turn. *)
Variable current_hour : Z.

(** [Runner.run(agent, messages, context=context)]: the tool-calling
    model turn.  It reads the session for its instructions, may mutate it
    and call out through its tools, and yields [result.final_output]. *)
Variable Runner_run : list Message → M (option pystr).

(** Lines 227-230 of [classify_intent]: the reply of the model is
    stripped and lowered, and anything that is not a key of
    [CATEGORY_REPLIES] becomes ["none"]. *)
Definition category_of_response (content : pystr) : pystr :=
  let category := lower (strip content) in
  if bool_decide (CATEGORY_REPLIES !! category = None) then none else category.

(** The category the language model assigns to a text: its reply as line
    227 reads it, stripped and lowered, when the request succeeds. *)
Definition model_category (text : pystr) : option pystr :=
  match classifier_completion text with
  | Ok content => Some (lower (strip content))
  | Raise _ => None
  end.

(** [classify_intent(ctx, text)].  The parameter [ctx] is never read.

    Line 184 reads [context.get_last_message()]; [context] is neither a
    parameter nor a local of [classify_intent] (its parameters are [ctx]
    and [text]) nor a module-level name of [bot_agent.py], so evaluating
    it raises [NameError].  The code after it is kept as written. *)
Definition classify_intent (text : pystr) : M pystr :=
  if bool_decide (strip text = strip review_request_text) then mret review_ignore
  else
    last_message ← (raise (NameError "context") : M (option (gmap (list N) (list N))));
    if match last_message with
       | Some d =>
           bool_decide (d ≠ ∅)
           && bool_decide (strip (default [] (d !! py "text")) = strip review_request_text)
       | None => false
       end
       && bool_decide (strip text ∈ review_replies)
    then mret review_ignore
    else
      content ← lift_outcome (classifier_completion text);
      mret (category_of_response content).

(** The call [classify_intent(text=text, context=context)] of line 571,
    once its arguments are evaluated: [classify_intent] has no parameter
    named [context], so binding the keywords raises [TypeError]. *)
Definition classify_intent_keywords (text : pystr) : M pystr :=
  raise (TypeError "classify_intent() got an unexpected keyword argument 'context'").

Definition extract_pot_size (text : pystr) : option N :=
  extract_loop decimal_value pot_patterns (lower text).

(** [extract_plant_quantity]: any exception gives 1. *)
Definition extract_plant_quantity (text : pystr) : Z :=
  match quantity_completion text with
  | Ok q => q
  | Raise _ => 1
  end.

Definition manager_categories : list pystr :=
  [ py "office_plant"; py "multiple_plants"; py "live_photo"; py "ask_human";
    py "reclamation"; py "order_question"; py "call_request" ].

(** [is_working_hours_and_managers_available(category)]. *)
Definition is_working_hours_and_managers_available (category : pystr) : bool * bool :=
  let is_working_hours := bool_decide (current_hour < 19) in
  let has_online_managers :=
    if bool_decide (category ∈ manager_categories) then
      let is_b2b := bool_decide (category = office_plant) in
      let manager_group_id := if is_b2b then MANAGER_B2B_id else MANAGER_B2C_id in
      match get_online_managers manager_group_id with
      | Ok online_managers => bool_decide (0 < length online_managers)%nat
      | Raise _ => false
      end
    else false in
  (is_working_hours, has_online_managers).

(** [telegrambot.notify_seller(details, is_preorder=False, context=context)]:
    the whole body is inside [try]/[except Exception], so the call
    returns a status dict in every case; callers in [run_unified_agent]
    drop it. *)
Definition notify_seller (details : pystr) (is_preorder : bool) : M unit :=
  c ← get_ctx;
  emit (Notified details is_preorder (subject c)).

Definition send_accessories_message (chat : Z) : M unit :=
  send_message chat (Some accessories_message).

(** Lines 592-596: an ["office_plant"] request for at most one plant is
    handled as ["none"]. *)
Definition refine_office_plant (user_message category : pystr) : pystr :=
  if bool_decide (category = office_plant) then
    let qty := extract_plant_quantity user_message in
    if bool_decide (qty ≤ 1) then none else category
  else category.

(** Lines 599-610. *)
Definition answer_pot_request (user_message : pystr) : M (option pystr) :=
  let pot_size := extract_pot_size user_message in
  let response :=
    match pot_size with
    | Some size =>
        if (size =? 0)%N then generic_pot_reply
        else sized_pot_reply size (generate_pot_link size)
    | None => generic_pot_reply
    end in
  modify_ctx (add_message role_assistant (Some response));;
  mret (Some response).

(** Lines 614-620. *)
Definition escalate_silently (user_message category : pystr) : M (option pystr) :=
  prefix ← getitem DETAILS_PREFIX category;
  let details := prefix ++ py ": " ++ user_message in
  prefix' ← getitem DETAILS_PREFIX category;
  modify_ctx (set_subject prefix');;
  notify_seller details false;;
  modify_ctx (change_state MANAGER_CALLED);;
  mret (Some []).

(** Lines 622-649. *)
Definition escalate (user_message category : pystr) : M (option pystr) :=
  let '(is_working_hours, has_online_managers) :=
    is_working_hours_and_managers_available category in
  if negb is_working_hours && negb has_online_managers then
    modify_ctx (add_message role_assistant (Some after_hours_message));;
    prefix ← getitem DETAILS_PREFIX category;
    let details := prefix ++ py ": " ++ user_message in
    prefix' ← getitem DETAILS_PREFIX category;
    modify_ctx (set_subject prefix');;
    notify_seller details false;;
    mret (Some after_hours_message)
  else
    prefix ← getitem DETAILS_PREFIX category;
    let details := prefix ++ py ": " ++ user_message in
    prefix' ← getitem DETAILS_PREFIX category;
    modify_ctx (set_subject prefix');;
    notify_seller details false;;
    reply ← getitem CATEGORY_REPLIES category;
    modify_ctx (add_message role_assistant (Some reply));;
    modify_ctx (change_state MANAGER_CALLED);;
    mret (Some reply).

(** Lines 651-667: the ordinary turn of the assistant. *)
Definition run_agent_turn : M (option pystr) :=
  c ← get_ctx;
  let history := get_last_n_messages 20 c in
  final_output ← Runner_run history;
  c' ← get_ctx;
  if bool_decide (state c' = UPSELL) then
    send_accessories_message (chat_id c');;
    modify_ctx (change_state COMPLETED);;
    mret (Some [])
  else
    match final_output with
    | Some out => modify_ctx (add_message role_assistant (Some out));; mret (Some out)
    | None => mret None
    end.

(** Lines 598-667: what the turn does once [category] is known. *)
Definition route_category (user_message category : pystr) : M (option pystr) :=
  if bool_decide (category = pot_request) then answer_pot_request user_message
  else if bool_decide (category ≠ none) then
    if bool_decide (category ∈ [order_question; call_request])
    then escalate_silently user_message category
    else escalate user_message category
  else run_agent_turn.

(** Lines 577-667: from the point where the user message is stored. *)
Definition continue_turn (user_message : pystr) : M (option pystr) :=
  modify_ctx (add_message role_user (Some user_message));;
  c ← get_ctx;
  if bool_decide (state c = MANAGER_CALLED)
     && negb (bool_decide (lower (strip user_message) ∈ [py "/start"]))
  then mret (Some [])
  else
    category ← classify_intent user_message;
    let category := refine_office_plant user_message category in
    route_category user_message category.

(** [run_unified_agent(context, user_message, openai_client)].

    Line 571 is [intent = await classify_intent(text=text, context=context)].
    [text] is not a parameter or local of [run_unified_agent] (these are
    [context], [user_message] and [openai_client]) and not a module-level
    name, so the evaluation of the first argument raises [NameError]
    before [classify_intent] is entered. *)
Definition run_unified_agent (user_message : pystr) : M (option pystr) :=
  text ← (raise (NameError "text") : M pystr);
  intent ← classify_intent_keywords text;
  if bool_decide (intent = review_ignore) then mret (Some [])
  else continue_turn user_message.

(* ===================================================================== *)
(** ** main.py: sessions and handlers *)
(* ===================================================================== *)

(** [datetime.now()] during the turn, in microseconds. *)
Variable now : Z.

(** What the handlers touch: the module-level dict [chat_contexts] and
    the requests made to the outside. *)
Record Core := mkCore {
  chat_contexts : gmap Z ChatContext;
  outbox : list Event
}.

Definition empty_message_text : pystr :=
  py "Извините, я получил пустое сообщение. Пожалуйста, повторите ваш запрос.".

Definition processing_error_text : pystr :=
  py "Извините, произошла ошибка при обработке вашего запроса. Пожалуйста, повторите или введите /start для перезапуска диалога.".

(** [bool(message_text)] for an optional string. *)
Definition truthy_opt (s : option pystr) : bool :=
  match s with Some t => truthy t | None => false end.

(** Lines 130-133: the condition of the reset command. *)
Definition is_reset_command (message_text : option pystr) : bool :=
  match message_text with
  | Some t => truthy t && bool_decide (lower (strip t) ∈ [py "/start"])
  | None => false
  end.

(** Lines 137-144 (and 175-182): fetch the session, creating it when the
    chat is unknown and replacing it when it has expired. *)
Definition fetch_or_create (chat : Z) (cs : gmap Z ChatContext) : gmap Z ChatContext :=
  match cs !! chat with
  | None => <[chat := new_context now chat]> cs
  | Some c => if is_expired now c then <[chat := new_context now chat]> cs else cs
  end.

(** [handle_client_message(chat_id, message_text)].  The session handed
    to [run_unified_agent] is the object stored in [chat_contexts], so
    what the turn did to it is visible in the dict afterwards, also when
    the turn raised. *)
Definition handle_client_message (chat : Z) (message_text : option pystr) (k : Core) : Core :=
  let cs1 :=
    if is_reset_command message_text
    then <[chat := new_context now chat]> (chat_contexts k)
    else chat_contexts k in
  let cs2 := fetch_or_create chat cs1 in
  match cs2 !! chat, message_text with
  | Some context, Some text =>
      if negb (truthy text) then
        mkCore cs2 (send_message_log chat (Some empty_message_text) (outbox k))
      else
        match run_unified_agent text (mkWorld context (outbox k)) with
        | (Ok bot_reply, w) =>
            mkCore (<[chat := ctx w]> cs2)
                   (if truthy_opt bot_reply
                    then send_message_log chat bot_reply (log w)
                    else log w)
        | (Raise _, w) =>
            mkCore (<[chat := ctx w]> cs2)
                   (send_message_log chat (Some processing_error_text) (log w))
        end
  | _, _ => mkCore cs2 (send_message_log chat (Some empty_message_text) (outbox k))
  end.

(** Outcome of lines 186-234 of [handle_client_image] for an image URL:
    one of the early replies, the internal message built from the
    analysis, or an exception. *)
Inductive ImageResult :=
| EarlyReply (text : pystr)
| Analysed (internal_message : pystr)
| ImageFailed.

Variable image_analysis : pystr → ImageResult.

Definition photo_agent_none_text : pystr :=
  py "Извините, произошла техническая ошибка после анализа фото. Пожалуйста, повторите запрос.".
Definition photo_agent_error_text : pystr :=
  py "Извините, произошла ошибка при обработке вашего фото. Пожалуйста, попробуйте еще раз.".
Definition photo_error_text : pystr :=
  py "Прошу прощения, возникли технические сложности при обработке фото. Попробуйте отправить его ещё раз.".
Definition photo_missing_text : pystr :=
  py "Извините, не удалось получить изображение. Попробуйте отправить его снова.".

(** [handle_client_image(chat_id, image_url)]. *)
Definition handle_client_image (chat : Z) (image_url : pystr) (k : Core) : Core :=
  let cs := fetch_or_create chat (chat_contexts k) in
  match cs !! chat with
  | None => mkCore cs (outbox k)
  | Some context =>
      if negb (truthy image_url) then
        mkCore cs (send_message_log chat (Some photo_missing_text) (outbox k))
      else
        match image_analysis image_url with
        | EarlyReply text => mkCore cs (send_message_log chat (Some text) (outbox k))
        | ImageFailed => mkCore cs (send_message_log chat (Some photo_error_text) (outbox k))
        | Analysed internal_message =>
            match run_unified_agent internal_message (mkWorld context (outbox k)) with
            | (Ok bot_reply, w) =>
                let bot_reply := match bot_reply with
                                 | None => photo_agent_none_text
                                 | Some r => r
                                 end in
                mkCore (<[chat := ctx w]> cs) (send_message_log chat (Some bot_reply) (log w))
            | (Raise _, w) =>
                mkCore (<[chat := ctx w]> cs)
                       (send_message_log chat (Some photo_agent_error_text) (log w))
            end
        end
  end.

(* ===================================================================== *)
(** ** main.py: the debounce queue *)
(* ===================================================================== *)

(** Items of [message_queue]: [(chat_id, text)] for a text and
    [(chat_id, None, image_url)] for an image. *)
Inductive QueueItem :=
| TextItem (chat : Z) (text : pystr)
| ImageItem (chat : Z) (image_url : pystr).

Definition item_chat (item : QueueItem) : Z :=
  match item with TextItem c _ => c | ImageItem c _ => c end.

(** Lines 696-703: the split of the pending entries. *)
Definition image_messages (entries : list (option (list N) * option (list N))) : list pystr :=
  omap (λ e, match e with
             | (_, Some image_url) => if truthy image_url then Some image_url else None
             | (_, None) => None
             end) entries.

Definition text_messages (entries : list (option (list N) * option (list N))) : list pystr :=
  omap (λ e, match e with
             | (text, image_url) =>
                 if truthy_opt image_url then None
                 else match text with
                      | Some t => if truthy t then Some t else None
                      | None => None
                      end
             end) entries.

(** The handler calls made when a window fires, in order. *)
Inductive Call :=
| CallImage (chat : Z) (image_url : pystr)
| CallMessage (chat : Z) (text : pystr).

Definition calls_of (chat : Z) (entries : list (option (list N) * option (list N))) : list Call :=
  map (CallImage chat) (image_messages entries)
  ++ match text_messages entries with
     | [] => []
     | texts => [CallMessage chat (join nl texts)]
     end.

Definition run_call (c : Call) (k : Core) : Core :=
  match c with
  | CallImage chat image_url => handle_client_image chat image_url k
  | CallMessage chat text => handle_client_message chat (Some text) k
  end.

(** The point that a task [process_user_messages(chat_id)] has reached.
    A coroutine gives way to the others only where it awaits; the task
    awaits at the sleep of line 682 and in each handler call of lines 708
    and 714 (every handler call awaits an HTTP request).  [Sleeping] is
    the task before the end of its sleep; [Dispatching calls] is the task
    past line 703, with the handler calls that have not returned yet, the
    first of which is being awaited. *)
Inductive Stage :=
| Sleeping
| Dispatching (calls : list Call).

(** The process: the handlers' state, the pending list of every chat
    ([user_messages], entries are [(text, image_url)]) and the timer task
    of every chat that has one ([user_timers]). *)
Record Server := mkServer {
  core : Core;
  user_messages : gmap Z (list (option (list N) * option (list N)));
  user_timers : gmap Z Stage
}.

(** One iteration of the loop of [process_messages] (lines 731-757): no
    await lies between taking the item and the end of the iteration. *)
Definition process_messages (item : QueueItem) (sv : Server) : Server :=
  let chat := item_chat item in
  let um := match user_messages sv !! chat with
            | None => <[chat := []]> (user_messages sv)
            | Some _ => user_messages sv
            end in
  let entry := match item with
               | TextItem _ text => (Some text, None)
               | ImageItem _ image_url => (None, Some image_url)
               end in
  let um := <[chat := default [] (um !! chat) ++ [entry]]> um in
  let timers := match user_timers sv !! chat with
                | Some _ => user_timers sv
                | None => <[chat := Sleeping]> (user_timers sv)
                end in
  mkServer (core sv) um timers.

(** [process_user_messages(chat_id)] when its sleep ends: lines 685-703
    run without giving way.  The pending entries are read and the list is
    emptied (line 693); the task then awaits its first handler call.
    When nothing is pending (line 688), or no entry gives a call, the
    [finally] clause (lines 718-722) follows at once. *)
Definition process_user_messages_fire (chat : Z) (sv : Server) : Server :=
  match user_timers sv !! chat with
  | Some Sleeping =>
      match default [] (user_messages sv !! chat) with
      | [] => mkServer (core sv) (user_messages sv) (delete chat (user_timers sv))
      | entries =>
          let um := <[chat := []]> (user_messages sv) in
          match calls_of chat entries with
          | [] => mkServer (core sv) um (delete chat (user_timers sv))
          | calls => mkServer (core sv) um (<[chat := Dispatching calls]> (user_timers sv))
          end
      end
  | _ => sv
  end.

(** [process_user_messages(chat_id)] when the handler call it awaits
    returns (line 708 or 714): the handler has done its work, and the
    task awaits the next call; after the last call the [finally] clause
    (lines 718-722) deletes the timer without giving way.  Neither
    handler raises, so the [except] clause is not entered.  What the
    loop of [process_messages] did while the handler was awaited comes
    before this step: it touches [user_messages] and [user_timers] only,
    the handler [chat_contexts] and the outside only. *)
Definition process_user_messages_return (chat : Z) (sv : Server) : Server :=
  match user_timers sv !! chat with
  | Some (Dispatching (c :: rest)) =>
      let k := run_call c (core sv) in
      match rest with
      | [] => mkServer k (user_messages sv) (delete chat (user_timers sv))
      | _ :: _ => mkServer k (user_messages sv) (<[chat := Dispatching rest]> (user_timers sv))
      end
  | _ => sv
  end.

(** What the event loop runs next: an iteration of [process_messages]
    for an item of the queue, a task whose sleep has ended, or a task
    whose handler call has returned. *)
Inductive Tick :=
| Arrive (item : QueueItem)
| Fire (chat : Z)
| Return (chat : Z).

Definition tick (t : Tick) (sv : Server) : Server :=
  match t with
  | Arrive item => process_messages item sv
  | Fire chat => process_user_messages_fire chat sv
  | Return chat => process_user_messages_return chat sv
  end.

(** A schedule of the event loop. *)
Definition run (ticks : list Tick) (sv : Server) : Server :=
  foldl (λ sv t, tick t sv) sv ticks.

(* ===================================================================== *)
(** ** Sample data and sample collaborators *)
(* ===================================================================== *)

(** ASCII-only stand-ins for the Unicode tables. *)
Definition ascii_lower (s : pystr) : pystr :=
  map (λ c, if ((65 <=? c) && (c <=? 90))%N then (c + 32)%N else c) s.

Definition ascii_decimal_value (c : N) : option N :=
  if ((48 <=? c) && (c <=? 57))%N then Some (c - 48)%N else None.

Definition llm_offline : pystr → Outcome pystr := λ _, Raise (ExternalError "offline").
Definition llm_says (answer : pystr) : pystr → Outcome pystr := λ _, Ok answer.
Definition quantity_offline : pystr → Outcome Z := λ _, Raise (ExternalError "offline").
Definition nobody_online : Z → Outcome (list Z) := λ _, Ok [].
Definition staff_query_fails : Z → Outcome (list Z) := λ _, Raise (ExternalError "timeout").
Definition silent_runner : list Message → M (option pystr) := λ _, mret None.
Definition no_image_analysis : pystr → ImageResult := λ _, ImageFailed.

Definition ficus : Plant := {[ key_name := py "Фикус Лирата 21/110 см" ]}.
Definition monstera : Plant := {[ key_name := py "Монстера 17/60 см" ]}.

Definition order_type_order : pystr := py "order".

(** A session created at time 0 for chat 42. *)
Definition fresh_session : ChatContext := new_context 0 42.

(** The same session with five ficus plants in the cart. *)
Definition session_with_ficus : ChatContext :=
  set_cart [mkCartItem ficus 5 order_type_order] fresh_session.

(** The same session after a human took over. *)
Definition escalated_session : ChatContext := set_state MANAGER_CALLED fresh_session.

(** A session in [ORDERING] whose preference fields are filled in. *)
Definition session_with_preferences : ChatContext :=
  {| chat_id := 42; dialog_id := None; created_at := 0;
     messages := []; state := ORDERING;
     desired_size := Some (py "floor"); desired_location := Some (py "office");
     selected_plants := None; cart := [mkCartItem ficus 1 order_type_order];
     order_details := None; potential_groups := None;
     channel_info := None; user_info := None;
     out_of_stock_plant := None; out_of_stock_plants := None;
     preorder_info := None; last_search_query := None;
     subject := None |}.

(** Handler state holding the escalated session of chat 42, and a server
    with nothing pending. *)
Definition escalated_core : Core := mkCore {[ 42 := escalated_session ]} [].
Definition idle_server : Server := mkServer (mkCore ∅ []) ∅ ∅.

Definition fresh_world : World := mkWorld fresh_session [].
Definition fresh_core : Core := mkCore {[ 42 := fresh_session ]} [].

Definition greeting : pystr := py "Здравствуйте".
Definition broken_plant_complaint : pystr := py "Растение пришло сломанным".
Definition call_me : pystr := py "Перезвоните мне, пожалуйста".
Definition pot_question : pystr := py "Какие у вас есть кашпо 20 см?".

Definition three_texts : list QueueItem :=
  [ TextItem 42 (py "Добрый день"); TextItem 42 (py "нужен фикус");
    TextItem 42 (py "в офис") ].

(** Two calls of [add_to_cart] for the same catalog entry. *)
Definition add_twice (item : Plant) (q1 q2 : Z) (t1 t2 : pystr) (c : ChatContext) : ChatContext :=
  add_to_cart item q2 t2 (add_to_cart item q1 t1 c).

(** Texts and image URLs of a batch of queue items, in arrival order. *)
Definition item_entry (item : QueueItem) : option (list N) * option (list N) :=
  match item with
  | TextItem _ text => (Some text, None)
  | ImageItem _ image_url => (None, Some image_url)
  end.

Definition batch_texts (items : list QueueItem) : list pystr :=
  omap (λ i, match i with TextItem _ t => Some t | ImageItem _ _ => None end) items.

Definition batch_images (items : list QueueItem) : list pystr :=
  omap (λ i, match i with ImageItem _ u => Some u | TextItem _ _ => None end) items.

(** The events of one chat among the items taken from the queue. *)
Definition batch_of (chat : Z) (items : list QueueItem) : list QueueItem :=
  filter (λ i, item_chat i = chat) items.

(** Items as [on_message] enqueues them: a text is enqueued only when it
    is not blank and an image only when its URL is not empty. *)
Definition well_formed_item (item : QueueItem) : Prop :=
  match item with
  | TextItem _ text => truthy (strip text) = true
  | ImageItem _ image_url => truthy image_url = true
  end.

(** The items that a schedule takes from the queue, in order. *)
Definition arrivals (ticks : list Tick) : list QueueItem :=
  omap (λ t, match t with Arrive item => Some item | _ => None end) ticks.

Definition is_return (chat : Z) (t : Tick) : bool :=
  match t with Return c => bool_decide (c = chat) | _ => false end.

(** The number of handler calls of a chat's task that return during a
    schedule. *)
Definition returns_of (chat : Z) (ticks : list Tick) : nat :=
  length (filter (λ t, is_return chat t = true) ticks).

(** What the loop runs while the task of [chat] awaits its handler
    calls and no other task is due: items arrive, for any chat, and the
    calls of the task return. *)
Definition during_dispatch (chat : Z) (t : Tick) : Prop :=
  match t with
  | Arrive _ => True
  | Fire _ => False
  | Return c => c = chat
  end.

(** The handler calls that the task of a chat has still to finish. *)
Definition remaining (chat : Z) (sv : Server) : list Call :=
  match user_timers sv !! chat with
  | Some (Dispatching calls) => calls
  | _ => []
  end.

Definition call_chat (c : Call) : Z :=
  match c with CallImage chat _ => chat | CallMessage chat _ => chat end.

(** Every task calls the handlers for its own chat. *)
Definition own_calls (sv : Server) : Prop :=
  ∀ chat calls, user_timers sv !! chat = Some (Dispatching calls) →
                Forall (λ c, call_chat c = chat) calls.

Definition two_texts : list QueueItem :=
  [ TextItem 42 (py "Добрый день"); TextItem 42 (py "нужен фикус") ].

(** A text that arrives while the handler call of the window is awaited. *)
Definition late_text : QueueItem := TextItem 42 (py "в офис").

(** The categories that escalate with a reply to the user: the keys of
    [CATEGORY_REPLIES] other than the two silent ones. *)
Definition deflected_categories : list pystr :=
  [ py "live_photo"; py "multiple_plants"; py "reclamation"; py "ask_human";
    py "office_plant" ].

(** The manager group asked about for a category. *)
Definition manager_group_of (category : pystr) : Z :=
  if bool_decide (category = office_plant) then MANAGER_B2B_id else MANAGER_B2C_id.

(** The key of [PLANT_POT_SIZE_MAPPING] used for a pot size between 10
    and 70: the size itself up to 53, the last key beyond. *)
Definition pot_range_key (size : N) : N := if (size <=? 53)%N then size else 53%N.

(** Whether a pattern contains the group [(\d+)]. *)
Definition has_group (p : list atom) : bool :=
  existsb (λ a, match a with DigitsGroup => true | _ => false end) p.

(** A non-empty run of decimal digits occurring in [s]. *)
Definition number_in (dv : N → option N) (g s : pystr) : Prop :=
  g ≠ [] ∧ Forall (λ c, is_digit dv c = true) g ∧ ∃ a b, s = a ++ g ++ b.

(** The keys of [CATEGORY_REPLIES]. *)
Definition category_keys : list pystr :=
  [ py "live_photo"; py "multiple_plants"; py "order_question"; py "call_request";
    py "reclamation"; py "ask_human"; py "office_plant" ].

Definition delivery : pystr := py "delivery".

(** The value a computation returned, if it returned. *)
Definition returned {A} (r : Outcome A * World) : option A :=
  match r with (Ok a, _) => Some a | (Raise _, _) => None end.

(* ===================================================================== *)
(** ** More of chat_context.py *)
(* ===================================================================== *)

(** [str(n)] for an integer. *)
Definition str_of_Z (z : Z) : pystr :=
  if z <? 0 then py "-" ++ str_of_N (Z.to_N (- z)) else str_of_N (Z.to_N z).

Definition type_preorder : pystr := py "preorder".

(** [sum(item["quantity"] for item in self.cart)]. *)
Definition cart_total (rows : list CartItem) : Z :=
  foldl (λ acc item, acc + quantity item) 0 rows.

(** One line of [get_cart_summary]. *)
Definition cart_line (item : CartItem) : pystr :=
  let name := default (py "Неизвестное растение") (plant_name (plant item)) in
  let order_type := if bool_decide (type item = type_preorder)
                    then py " (предзаказ)" else [] in
  py "• " ++ name ++ py " - " ++ str_of_Z (quantity item) ++ py " шт." ++ order_type.

(** [get_cart_summary()]. *)
Definition get_cart_summary (c : ChatContext) : pystr :=
  match cart c with
  | [] => py "Корзина пуста"
  | rows =>
      py "🛒 В корзине (" ++ str_of_Z (cart_total rows) ++ py " растений):" ++ nl
      ++ join nl (map cart_line rows)
  end.

(** The names carried by the rows of a cart, in order. *)
Definition cart_names (rows : list CartItem) : list (option (list N)) :=
  map (λ item, plant_name (plant item)) rows.

(** The methods of [ChatContext] that a turn applies to a session. *)
Inductive SessionOp :=
| OpAddToCart (plant_data : Plant) (qty : Z) (order_type : pystr)
| OpRemoveFromCart (nm : pystr)
| OpClearCart
| OpChangeState (new_state : DialogState)
| OpAddMessage (rl : pystr) (text : option pystr).

Definition apply_op (op : SessionOp) (c : ChatContext) : ChatContext :=
  match op with
  | OpAddToCart plant_data qty order_type => add_to_cart plant_data qty order_type c
  | OpRemoveFromCart nm => remove_from_cart nm c
  | OpClearCart => clear_cart c
  | OpChangeState new_state => change_state new_state c
  | OpAddMessage rl text => add_message rl text c
  end.

Definition apply_ops (ops : list SessionOp) (c : ChatContext) : ChatContext :=
  foldl (λ c op, apply_op op c) c ops.

(* ===================================================================== *)
(** ** More of bot_agent.py: pot suggestions *)
(* ===================================================================== *)

(** [s.startswith(p)] *)
Fixpoint is_prefix (p s : pystr) : bool :=
  match p, s with
  | [], _ => true
  | a :: p', b :: s' => (a =? b)%N && is_prefix p' s'
  | _ :: _, [] => false
  end.

(** [needle in hay] for strings. *)
Fixpoint contains (needle hay : pystr) : bool :=
  is_prefix needle hay
  || match hay with
     | [] => false
     | _ :: hay' => contains needle hay'
     end.

(** A literal inside a pattern, followed by the continuation [k]. *)
Definition match_literal {R} (l : pystr) (k : pystr → option R) (s : pystr) : option R :=
  if is_prefix l s then k (drop (length l) s) else None.

(** The pattern [(\d+)/\d+\s*см] at the start of [s]: the second run of
    digits is not captured. *)
Definition match_slash_size (s : pystr) : option pystr :=
  plus_digits decimal_value
    (λ g rest,
       match_literal (py "/")
         (λ rest1,
            plus_digits decimal_value
              (λ _ rest2, star_spaces (match_literal (py "см") (λ _, Some g)) rest2)
              [] rest1)
         rest)
    [] s.

(** [re.search] for a matcher given as a function. *)
Fixpoint search_with (m : pystr → option (list N)) (s : pystr) : option pystr :=
  match m s with
  | Some g => Some g
  | None => match s with
            | [] => None
            | _ :: s' => search_with m s'
            end
  end.

(** The three patterns of [extract_plant_diameter], in order:
    [(\d+)/\d+\s*см], [d(\d+)\s*см], [(\d+)\s*см]. *)
Definition plant_patterns : list (pystr → option (list N)) :=
  [ match_slash_size;
    match_here decimal_value (lits (py "d") ++ [DigitsGroup; Spaces] ++ lits (py "см")) [];
    match_here decimal_value ([DigitsGroup; Spaces] ++ lits (py "см")) [] ].

Fixpoint plant_diameter_loop
    (patterns : list (pystr → option (list N))) (name : pystr) : option N :=
  match patterns with
  | [] => None
  | pattern :: rest =>
      match search_with pattern name with
      | Some g =>
          let diameter := int_of_digits decimal_value g in
          if ((5 <=? diameter) && (diameter <=? 60))%N then Some diameter
          else plant_diameter_loop rest name
      | None => plant_diameter_loop rest name
      end
  end.

(** [extract_plant_diameter(plant_name)]; the name is not lowered. *)
Definition extract_plant_diameter (name : pystr) : option N :=
  plant_diameter_loop plant_patterns name.

Definition key_pot : pystr := py "Кашпо/Горшок".

(** The double quote character. *)
Definition dq : pystr := [34%N].

Definition pot_suggestion_head (name : pystr) : pystr :=
  py "🪴 Кстати! Ваше растение " ++ dq ++ name ++ dq
  ++ py " поставляется в техническом горшке. " ++ nl ++ nl.

Definition pot_suggestion_tail : pystr :=
  nl ++ nl ++ py "Это не только украсит интерьер, но и обеспечит растению лучшие условия! 🌿✨".

(** The message built for one plant by [check_and_send_pot_suggestion]. *)
Definition pot_suggestion_text (p : Plant) : pystr :=
  let name := default (py "растение") (p !! key_name) in
  match extract_plant_diameter name with
  | Some diameter =>
      if (diameter =? 0)%N
      then pot_suggestion_head name
           ++ py "Рекомендуем дополнить заказ красивым кашпо:" ++ nl
           ++ py "https://tropichouse.ru/catalog/gorshki_i_kashpo/" ++ pot_suggestion_tail
      else pot_suggestion_head name
           ++ py "Рекомендуем дополнить заказ красивым кашпо подходящего размера:" ++ nl
           ++ generate_pot_link diameter ++ pot_suggestion_tail
  | None =>
      pot_suggestion_head name
      ++ py "Рекомендуем дополнить заказ красивым кашпо:" ++ nl
      ++ py "https://tropichouse.ru/catalog/gorshki_i_kashpo/" ++ pot_suggestion_tail
  end.

(** ["в техническом горшке" in plant.get("Кашпо/Горшок", "")] *)
Definition in_technical_pot (p : Plant) : bool :=
  contains (py "в техническом горшке") (default [] (p !! key_pot)).

(** A [for] loop whose body is a computation. *)
Fixpoint for_each {A} (body : A → M unit) (xs : list A) : M unit :=
  match xs with
  | [] => mret tt
  | x :: xs' => body x;; for_each body xs'
  end.

(** [check_and_send_pot_suggestion(chat_id, selected_plants)]. *)
Definition check_and_send_pot_suggestion (chat : Z)
    (selected_plants : list Plant) : M unit :=
  let tech_pot_plants := filter (λ p, in_technical_pot p = true) selected_plants in
  for_each (λ p, send_message chat (Some (pot_suggestion_text p))) tech_pot_plants.

(* ===================================================================== *)
(** ** More of bot_agent.py: the tools of the agent *)
(* ===================================================================== *)

(** The tools take the catalog search [plant_utils.search_plants_by_name]
    as the parameter [search]: it returns the list of matching catalog
    entries and does not raise for a string query. *)

(** The tool [add_to_cart(ctx, plant, quantity, order_type)]. *)
Definition tool_add_to_cart (search : pystr → list Plant)
    (plant_query : pystr) (qty : Z) (order_type : pystr) : M pystr :=
  match search plant_query with
  | [] => mret (py "Растение не найдено в каталоге")
  | selected_plant :: _ =>
      modify_ctx (add_to_cart selected_plant qty order_type);;
      modify_ctx (change_state CART_MANAGEMENT);;
      let name := default plant_query (selected_plant !! key_name) in
      mret (py "✅ Растение '" ++ name ++ py "' добавлено в корзину (количество: "
            ++ str_of_Z qty ++ py ")")
  end.

(** The tool [show_cart(ctx)]. *)
Definition tool_show_cart : M pystr :=
  c ← get_ctx;
  let cart_summary := get_cart_summary c in
  match cart c with
  | _ :: _ =>
      modify_ctx (change_state CART_MANAGEMENT);;
      mret (cart_summary ++ nl ++ nl
            ++ py "Вы можете добавить еще растения, удалить что-то из корзины или оформить заказ.")
  | [] => mret cart_summary
  end.

(** One line of the order details built by [checkout_cart]. *)
Definition checkout_line (item : CartItem) : pystr :=
  default (py "Неизвестное растение") (plant_name (plant item))
  ++ py " - " ++ str_of_Z (quantity item) ++ py " шт.".

(** The rows [checkout_cart] lists as preorders, and all the others,
    which it lists as orders. *)
Definition preorder_rows (rows : list CartItem) : list CartItem :=
  filter (λ item, type item = type_preorder) rows.
Definition order_rows (rows : list CartItem) : list CartItem :=
  filter (λ item, type item ≠ type_preorder) rows.

(** The text sent to the seller for one group of rows. *)
Definition checkout_details (title : pystr) (rows : list CartItem)
    (customer_info : option (list N)) : pystr :=
  title ++ nl ++ join nl (map checkout_line rows)
  ++ match customer_info with
     | Some info => if truthy info
                    then nl ++ nl ++ py "Контактная информация: " ++ info
                    else []
     | None => []
     end.

(** The plants whose rows have exactly the given type (lines 442 and 455). *)
Definition plants_of_type (t : pystr) (rows : list CartItem) : list Plant :=
  map plant (filter (λ item, type item = t) rows).

Definition checkout_success_json : pystr :=
  py "{" ++ dq ++ py "success" ++ dq ++ py ": true, " ++ dq ++ py "message" ++ dq
  ++ py ": " ++ dq ++ py "Заказ оформлен" ++ dq ++ py "}".

(** Lines 433-444 (orders) and 446-457 (preorders), which differ in the
    title, the flag and the type only: when the group of rows is not
    empty the seller is notified, then the plants of the cart whose type
    is exactly [t] are checked for technical pots. *)
Definition checkout_group (title : pystr) (is_preorder : bool) (t : pystr)
    (group rows : list CartItem) (customer_info : option (list N)) (chat : Z) : M unit :=
  match group with
  | [] => mret tt
  | _ :: _ =>
      notify_seller (checkout_details title group customer_info) is_preorder;;
      match plants_of_type t rows with
      | [] => mret tt
      | _ :: _ => check_and_send_pot_suggestion chat (plants_of_type t rows)
      end
  end.

(** The tool [checkout_cart(ctx, customer_info)]. *)
Definition tool_checkout_cart (customer_info : option (list N)) : M pystr :=
  c ← get_ctx;
  match cart c with
  | [] => mret (py "Корзина пуста, нечего заказывать")
  | _ :: _ =>
      checkout_group (py "ЗАКАЗ:") false order_type_order
                     (order_rows (cart c)) (cart c) customer_info (chat_id c);;
      checkout_group (py "ПРЕДЗАКАЗ:") true type_preorder
                     (preorder_rows (cart c)) (cart c) customer_info (chat_id c);;
      modify_ctx clear_cart;;
      modify_ctx (change_state UPSELL);;
      mret checkout_success_json
  end.

(** The tool [remove_from_cart(ctx, plant_name)]: the row is looked for
    by a case-insensitive substring test, and removed by
    [ChatContext.remove_from_cart], which compares names exactly. *)
Definition found_in_cart (nm : pystr) (rows : list CartItem) : bool :=
  existsb (λ item, contains (lower nm) (lower (default [] (plant_name (plant item))))) rows.

Definition tool_remove_from_cart (nm : pystr) : M pystr :=
  c ← get_ctx;
  if negb (found_in_cart nm (cart c))
  then mret (py "Растение '" ++ nm ++ py "' не найдено в корзине")
  else
    modify_ctx (remove_from_cart nm);;
    modify_ctx (change_state CART_MANAGEMENT);;
    mret (py "✅ Растение '" ++ nm ++ py "' удалено из корзины").

(** The dict returned by [telegrambot.notify_seller], as [json.dumps(...,
    ensure_ascii=False)] prints it: [delivered] tells whether the body of
    [notify_seller] ran to its end or entered its [except] clause. *)
Definition seller_result_json (delivered is_preorder : bool) : pystr :=
  if delivered then
    py "{" ++ dq ++ py "status" ++ dq ++ py ": " ++ dq ++ py "success" ++ dq ++ py ", "
    ++ dq ++ py "confirmation_message" ++ dq ++ py ": " ++ dq
    ++ (if is_preorder
        then py "Ура! Ваш предзаказ успешно оформлен! 🎉 Растение будет доступно в течение 7-10 дней. Я лично прослежу, чтобы с вами связались для подтверждения заказа и уточнения деталей доставки. Спасибо, что выбрали наш магазин! 💚"
        else py "Отлично! Ваш заказ успешно оформлен! 🎉 Я уже передала информацию нашему менеджеру, и с вами скоро свяжутся. Если возникнут вопросы, обращайтесь в любое время! Спасибо за выбор нашего магазина! 💚")
    ++ dq ++ py "}"
  else
    py "{" ++ dq ++ py "status" ++ dq ++ py ": " ++ dq ++ py "error" ++ dq ++ py ", "
    ++ dq ++ py "error_message" ++ dq ++ py ": " ++ dq
    ++ py "К сожалению, при оформлении заказа произошла ошибка. 😥 Пожалуйста, попробуйте еще раз или свяжитесь с нами напрямую."
    ++ dq ++ py "}".

(** The details text of [order] and [preorder]. *)
Definition order_details_text (title plant_query : pystr) (qty : Z)
    (customer_info : option (list N)) : pystr :=
  title ++ plant_query ++ nl ++ py "Количество: " ++ str_of_Z qty
  ++ match customer_info with
     | Some info => if truthy info
                    then nl ++ py "Контактная информация: " ++ info
                    else []
     | None => []
     end.

(** The common body of the tools [order] ([is_preorder = false]) and
    [preorder] ([is_preorder = true]). *)
Definition order_tool (search : pystr → list Plant) (delivered is_preorder : bool)
    (plant_query : pystr) (qty : Z) (customer_info : option (list N)) : M pystr :=
  let title := if is_preorder then py "ПРЕДЗАКАЗ: " else py "Заказ: " in
  notify_seller (order_details_text title plant_query qty customer_info) is_preorder;;
  c ← get_ctx;
  match search plant_query with
  | [] => mret tt
  | plant_data => check_and_send_pot_suggestion (chat_id c) plant_data
  end;;
  modify_ctx (change_state UPSELL);;
  mret (seller_result_json delivered is_preorder).

Definition tool_order (search : pystr → list Plant) (delivered : bool) :
    pystr → Z → option (list N) → M pystr :=
  order_tool search delivered false.

Definition tool_preorder (search : pystr → list Plant) (delivered : bool) :
    pystr → Z → option (list N) → M pystr :=
  order_tool search delivered true.

(* ===================================================================== *)
(** ** More of main.py: expiry sweep and the socket callback *)
(* ===================================================================== *)

(** [cleanup_expired_contexts()]: the ids of the expired sessions are
    collected first, then each is deleted. *)
Definition cleanup_expired_contexts (cs : gmap Z ChatContext) : gmap Z ChatContext :=
  let expired_chats :=
    (map_to_list cs) ≫= (λ kc, if is_expired now kc.2 then [kc.1] else []) in
  foldr delete cs expired_chats.

Definition set_dialog_id (d : option Z) (c : ChatContext) : ChatContext :=
  {| chat_id := chat_id c; dialog_id := d; created_at := created_at c;
     messages := messages c; state := state c;
     desired_size := desired_size c; desired_location := desired_location c;
     selected_plants := selected_plants c; cart := cart c;
     order_details := order_details c; potential_groups := potential_groups c;
     channel_info := channel_info c; user_info := user_info c;
     out_of_stock_plant := out_of_stock_plant c;
     out_of_stock_plants := out_of_stock_plants c;
     preorder_info := preorder_info c;
     last_search_query := last_search_query c; subject := subject c |}.

Definition set_channel_and_user (ch us : Z * list N) (c : ChatContext) : ChatContext :=
  {| chat_id := chat_id c; dialog_id := dialog_id c; created_at := created_at c;
     messages := messages c; state := state c;
     desired_size := desired_size c; desired_location := desired_location c;
     selected_plants := selected_plants c; cart := cart c;
     order_details := order_details c; potential_groups := potential_groups c;
     channel_info := Some ch; user_info := Some us;
     out_of_stock_plant := out_of_stock_plant c;
     out_of_stock_plants := out_of_stock_plants c;
     preorder_info := preorder_info c;
     last_search_query := last_search_query c; subject := subject c |}.

(** What [on_message] reads from the JSON of a websocket event, after the
    [.get] chains of lines 483-509: [channel_id] is the value of
    [int(channel_id)], or [None] when the id is missing, falsy or not a
    number; [text] is the [message_text] of line 545; [preview_url] is the
    [preview_url] of the first item when that item is an image. *)
Record Incoming := mkIncoming {
  event_type : pystr;
  in_chat_id : option Z;
  in_dialog_id : option Z;
  in_channel_id : option Z;
  in_channel_name : pystr;
  sender_type : pystr;
  sender_id : Z;
  sender_name : pystr;
  incoming_type : pystr;
  in_text : option (list N);
  in_preview_url : option (list N)
}.

(** Lines 517-523 and 566-573: the session of the chat, created when
    missing, gets the dialog id and moves to [MANAGER_CALLED]. *)
Definition hand_over (chat : Z) (d : option Z) (cs : gmap Z ChatContext) : gmap Z ChatContext :=
  let cs1 := match cs !! chat with
             | None => <[chat := new_context now chat]> cs
             | Some _ => cs
             end in
  match cs1 !! chat with
  | Some context => <[chat := change_state MANAGER_CALLED (set_dialog_id d context)]> cs1
  | None => cs1
  end.

(** [on_message(ws, message)] on a parsed event, while the server runs
    ([main_event_loop] is set): the sessions afterwards and the item put
    on [message_queue], if any.  [dialog_assigned] is the CRM query of
    lines 439-472, which answers [False] on any error. *)
Definition on_message (dialog_assigned : option Z → bool) (m : Incoming)
    (cs : gmap Z ChatContext) : gmap Z ChatContext * option QueueItem :=
  if negb (bool_decide (event_type m = py "message_new")) then (cs, None) else
  match in_chat_id m with
  | None => (cs, None)
  | Some chat =>
    if bool_decide (chat = 0) then (cs, None) else
    let is_target_channel :=
      match in_channel_id m with
      | Some ch => bool_decide (ch = 18) || bool_decide (ch = 13)
      | None => false
      end in
    if negb is_target_channel then (cs, None) else
    if bool_decide (sender_type m = py "customer") then
      if dialog_assigned (in_dialog_id m) then (hand_over chat (in_dialog_id m) cs, None)
      else
        let cs1 := match cs !! chat with
                   | None => <[chat := new_context now chat]> cs
                   | Some _ => cs
                   end in
        let cs2 :=
          match cs1 !! chat with
          | Some context =>
              <[chat := set_channel_and_user
                          (default 0 (in_channel_id m), lower (in_channel_name m))
                          (sender_id m, sender_name m)
                          (set_dialog_id (in_dialog_id m) context)]> cs1
          | None => cs1
          end in
        if bool_decide (incoming_type m = py "text") then
          match in_text m with
          | Some message_text =>
              if truthy message_text && truthy (strip message_text)
              then (cs2, Some (TextItem chat message_text))
              else (cs2, None)
          | None => (cs2, None)
          end
        else if bool_decide (incoming_type m = py "image") then
          match in_preview_url m with
          | Some img_url =>
              if truthy img_url then (cs2, Some (ImageItem chat img_url)) else (cs2, None)
          | None => (cs2, None)
          end
        else (cs2, None)
    else if bool_decide (sender_type m ∈ [py "manager"; py "user"]) then
      (hand_over chat (in_dialog_id m) cs, None)
    else (cs, None)
  end.

(* ===================================================================== *)
(** ** telegrambot.py: choose_manager *)
(* ===================================================================== *)

(** A manager as the CRM lists it: a dict with integer entries. *)
Abbreviation ManagerDict := (gmap (list N) Z) (only parsing).

(** [u.get("activeDialogs", 0)] *)
Definition active_dialogs (u : ManagerDict) : Z := default 0 (u !! py "activeDialogs").

(** [min(xs, key=key)] continued from a current best. *)
Fixpoint min_by_key {A} (key : A → Z) (best : A) (xs : list A) : A :=
  match xs with
  | [] => best
  | x :: xs' => min_by_key key (if key x <? key best then x else best) xs'
  end.

(** [choose_manager(managers)]. *)
Definition choose_manager (managers : list ManagerDict) : option (gmap (list N) Z) :=
  match managers with
  | [] => None
  | u :: rest => Some (min_by_key active_dialogs u rest)
  end.

(* ===================================================================== *)
(** ** More sample data *)
(* ===================================================================== *)

Definition ficus_in_technical_pot : Plant :=
  {[ key_name := py "Фикус Лирата 21/110 см"; key_pot := py "в техническом горшке" ]}.

Definition ficus_in_cachepot : Plant :=
  {[ key_name := py "Фикус Бенджамина 17/60 см"; key_pot := py "в кашпо" ]}.

Definition catalog_with_ficus : pystr → list Plant := λ _, [ficus_in_technical_pot].
Definition empty_catalog : pystr → list Plant := λ _, [].

(** A model turn that places an order through a tool and answers. *)
Definition ordering_runner : list Message → M (option (list N)) :=
  λ _, modify_ctx (change_state UPSELL);; mret (Some (py "Заказ принят")).

(** A model turn that only answers. *)
Definition answering_runner : list Message → M (option (list N)) :=
  λ _, mret (Some (py "Здравствуйте!")).

(** A model turn that fails. *)
Definition failing_runner : list Message → M (option (list N)) :=
  λ _, raise (ExternalError "model unavailable").

Definition session_with_two_rows : ChatContext :=
  set_cart [ mkCartItem ficus_in_technical_pot 2 order_type_order;
             mkCartItem monstera 1 type_preorder ] fresh_session.

Definition manager_event : Incoming :=
  {| event_type := py "message_new"; in_chat_id := Some 42; in_dialog_id := Some 7;
     in_channel_id := Some 18; in_channel_name := py "WhatsApp";
     sender_type := py "manager"; sender_id := 5; sender_name := py "Анна";
     incoming_type := py "text"; in_text := Some (py "Добрый день, я менеджер");
     in_preview_url := None |}.

Definition customer_event : Incoming :=
  {| event_type := py "message_new"; in_chat_id := Some 42; in_dialog_id := Some 7;
     in_channel_id := Some 13; in_channel_name := py "Telegram";
     sender_type := py "customer"; sender_id := 9; sender_name := py "Ольга";
     incoming_type := py "text"; in_text := Some (py "Есть ли у вас монстера?");
     in_preview_url := None |}.

Definition nobody_assigned : option Z → bool := λ _, false.

Definition busy_manager : gmap (list N) Z := {[ py "id" := 1; py "activeDialogs" := 4 ]}.
Definition free_manager : gmap (list N) Z := {[ py "id" := 2 ]}.
Definition other_free_manager : gmap (list N) Z := {[ py "id" := 3; py "activeDialogs" := 0 ]}.

(** The pot suggestions posted to a chat for a list of plants. *)
Definition pot_suggestions (chat : Z) (plants : list Plant) : list Event :=
  map (λ p, Posted chat (pot_suggestion_text p))
      (filter (λ p, in_technical_pot p = true) plants).

(** What one group of [checkout_cart] sends out. *)
Definition checkout_group_log (title : pystr) (is_preorder : bool) (t : pystr)
    (group rows : list CartItem) (customer_info : option (list N))
    (c : ChatContext) : list Event :=
  match group with
  | [] => []
  | _ :: _ =>
      Notified (checkout_details title group customer_info) is_preorder (subject c)
      :: pot_suggestions (chat_id c) (plants_of_type t rows)
  end.

(** A model turn that calls the tool [order] while the notification of
    the seller fails, and then answers. *)
Definition failed_order_runner : list Message → M (option (list N)) :=
  λ _, order_tool catalog_with_ficus false false (py "Фикус Лирата") 1 None;;
       mret (Some (py "Не получилось оформить заказ"))%list.

(** An image analysis that recognises a plant. *)
Definition plant_photo_analysis : list N → ImageResult :=
  λ _, Analysed (py "Пользователь прислал фото растения: Фикус. ").

Definition start_command : list N := py " /START ".

(** A session in [OUT_OF_STOCK] that remembers the plant asked for. *)
Definition session_out_of_stock : ChatContext :=
  {| chat_id := 42; dialog_id := None; created_at := 0;
     messages := []; state := OUT_OF_STOCK;
     desired_size := None; desired_location := None;
     selected_plants := None; cart := [];
     order_details := None; potential_groups := None;
     channel_info := None; user_info := None;
     out_of_stock_plant := Some monstera; out_of_stock_plants := None;
     preorder_info := Some (py "3-10 дней"); last_search_query := None;
     subject := None |}.

(** A session with three messages in its history. *)
Definition session_with_history : ChatContext :=
  apply_ops [ OpAddMessage role_user (Some greeting);
              OpAddMessage role_assistant (Some (py "Здравствуйте!"));
              OpAddMessage role_user (Some pot_question) ] fresh_session.

Definition photo_url : list N := py "https://example.org/ficus.jpg".

Definition ficus_name : list N := py "Фикус Лирата 21/110 см".

Definition assigned_everywhere : option Z → bool := λ _, true.

(* ===================================================================== *)
(** * Properties *)
(* ===================================================================== *)

(** Closed decidable facts (memberships of literals in tables, and the
    like) are settled by evaluation. *)
Ltac decide_closed := apply (bool_decide_unpack _); vm_compute; exact I.

(** Propositional reasoning that leaves the collaborators alone: [tauto]
    generalises over everything in the context it can. *)
Ltac ptauto :=
  try clear image_analysis; try clear now; try clear Runner_run;
  try clear current_hour; try clear get_online_managers;
  try clear quantity_completion; try clear classifier_completion;
  try clear decimal_value; try clear lower;
  tauto.

(** ** Cart *)

Lemma add_to_cart_loop_absent rows item q :
  rows_named (plant_name item) rows = [] →
  add_to_cart_loop rows item q = None.
Proof.
  induction rows as [|row rows IH]; [done|].
  unfold rows_named. cbn [add_to_cart_loop]. rewrite filter_cons.
  case_decide as Hn; [done|].
  intros Hrest. rewrite bool_decide_eq_false_2 by done.
  unfold rows_named in IH. by rewrite IH.
Qed.

Lemma add_to_cart_loop_present pre row post item q :
  rows_named (plant_name item) pre = [] →
  plant_name (plant row) = plant_name item →
  add_to_cart_loop (pre ++ row :: post) item q
  = Some (pre ++ mkCartItem (plant row) (quantity row + q) (type row) :: post).
Proof.
  intros Hpre Hrow. induction pre as [|r pre IH]; cbn [add_to_cart_loop app].
  - by rewrite bool_decide_eq_true_2.
  - unfold rows_named in Hpre. rewrite filter_cons in Hpre.
    case_decide as Hn; [done|].
    rewrite bool_decide_eq_false_2 by done.
    unfold rows_named in IH. by rewrite IH.
Qed.

Lemma rows_named_app nm xs ys :
  rows_named nm (xs ++ ys) = rows_named nm xs ++ rows_named nm ys.
Proof. apply filter_app. Qed.

(** Add-on-present: both quantities are summed into the first row with
    that name, whatever it held, and no row is appended. *)
Lemma add_twice_present c pre row post item q1 q2 t1 t2 :
  cart c = pre ++ row :: post →
  rows_named (plant_name item) pre = [] →
  plant_name (plant row) = plant_name item →
  cart (add_twice item q1 q2 t1 t2 c)
  = pre ++ mkCartItem (plant row) (quantity row + q1 + q2) (type row) :: post.
Proof.
  intros Hc Hpre Hrow. unfold add_twice, add_to_cart at 2.
  rewrite Hc, (add_to_cart_loop_present pre row post item q1 Hpre Hrow).
  unfold add_to_cart. cbn [cart set_cart].
  by rewrite (add_to_cart_loop_present pre (mkCartItem _ _ _) post item q2 Hpre Hrow).
Qed.

(** C2 (as amended).  On a cart that holds no row named like the item,
    [add(item, q1)] then [add(item, q2)] appends one row for the item,
    with quantity [q1 + q2] and the order type of the first call, and
    that is the only row with this name. *)
Theorem add_twice_absent c item q1 q2 t1 t2 :
  rows_named (plant_name item) (cart c) = [] →
  cart (add_twice item q1 q2 t1 t2 c) = cart c ++ [mkCartItem item (q1 + q2) t1]
  ∧ rows_named (plant_name item) (cart (add_twice item q1 q2 t1 t2 c))
    = [mkCartItem item (q1 + q2) t1].
Proof.
  intros Habs.
  assert (cart (add_twice item q1 q2 t1 t2 c) = cart c ++ [mkCartItem item (q1 + q2) t1]) as ->.
  { unfold add_twice, add_to_cart at 2.
    rewrite (add_to_cart_loop_absent _ _ _ Habs).
    unfold add_to_cart. cbn [cart set_cart].
    by rewrite (add_to_cart_loop_present (cart c) (mkCartItem item q1 t1) [] item q2 Habs). }
  split; [done|].
  rewrite rows_named_app, Habs. unfold rows_named.
  rewrite filter_cons. by case_decide.
Qed.

(** ** State machine *)

(** C3.  Whatever the session and its cart, a transition whose target is
    [COMPLETED] leaves the cart empty. *)
Theorem change_state_completed_clears_cart c :
  cart (change_state COMPLETED c) = [].
Proof.
  unfold change_state.
  rewrite (bool_decide_eq_true_2 (COMPLETED = COMPLETED)) by done.
  rewrite (bool_decide_eq_false_2 (COMPLETED ∈ [START; PLANT_SEARCH])).
  2: { rewrite !elem_of_cons, elem_of_nil. intros [?|[?|[]]]; done. }
  rewrite andb_false_l. by case_match.
Qed.

(** C4.  On a transition into [START] or [PLANT_SEARCH] the cart is left
    as it was, and the two preference fields are cleared exactly when the
    state being left is none of [START], [PLANT_SEARCH],
    [CART_MANAGEMENT]: they are reset from any other state and kept as
    they are from these three. *)
Theorem change_state_search_preferences c new_state :
  new_state = START ∨ new_state = PLANT_SEARCH →
  cart (change_state new_state c) = cart c
  ∧ (state c ∉ [START; PLANT_SEARCH; CART_MANAGEMENT] →
       desired_size (change_state new_state c) = None
       ∧ desired_location (change_state new_state c) = None)
  ∧ (state c ∈ [START; PLANT_SEARCH; CART_MANAGEMENT] →
       desired_size (change_state new_state c) = desired_size c
       ∧ desired_location (change_state new_state c) = desired_location c).
Proof.
  intros Hnew. unfold change_state.
  assert (new_state ≠ COMPLETED) as Hc by (destruct Hnew; by subst).
  assert (new_state ∈ [START; PLANT_SEARCH]) as Hin.
  { rewrite !elem_of_cons. ptauto. }
  rewrite (bool_decide_eq_false_2 _ Hc), (bool_decide_eq_true_2 _ Hin), andb_true_l.
  split; [|split]; intros.
  - by repeat case_match.
  - rewrite (bool_decide_eq_true_2 (state c ∉ _)) by done. by case_match.
  - rewrite (bool_decide_eq_false_2 (state c ∉ _)) by ptauto. by case_match.
Qed.

(** ** The monad *)

Lemma bind_ok {A B} (m : M A) (f : A → M B) w a w' :
  m w = (Ok a, w') → (m ≫= f) w = f a w'.
Proof. unfold mbind, M_bind. by intros ->. Qed.

Lemma bind_raise {A B} (m : M A) (f : A → M B) w e w' :
  m w = (Raise e, w') → (m ≫= f) w = (Raise e, w').
Proof. unfold mbind, M_bind. by intros ->. Qed.

Lemma getitem_some d key v w :
  d !! key = Some v → getitem d key w = (Ok v, w).
Proof. unfold getitem. by intros ->. Qed.

Lemma bind_ret {A B} (a : A) (f : A → M B) w : (mret a ≫= f) w = f a w.
Proof. reflexivity. Qed.

Lemma bind_get {B} (f : ChatContext → M B) w : (get_ctx ≫= f) w = f (ctx w) w.
Proof. reflexivity. Qed.

Lemma bind_modify {B} g (f : unit → M B) w :
  (modify_ctx g ≫= f) w = f tt (mkWorld (g (ctx w)) (log w)).
Proof. reflexivity. Qed.

Lemma bind_emit {B} e (f : unit → M B) w :
  (emit e ≫= f) w = f tt (mkWorld (ctx w) (log w ++ [e])).
Proof. reflexivity. Qed.

Lemma bind_notify_seller {B} details p (f : unit → M B) w :
  (notify_seller details p ≫= f) w
  = f tt (mkWorld (ctx w) (log w ++ [Notified details p (subject (ctx w))])).
Proof. reflexivity. Qed.

Lemma bind_getitem {B} d key v (f : pystr → M B) w :
  d !! key = Some v → (getitem d key ≫= f) w = f v w.
Proof. intros H. apply bind_ok. by apply getitem_some. Qed.

Lemma ret_run {A} (a : A) w : (mret a : M A) w = (Ok a, w).
Proof. reflexivity. Qed.

Create Rewrite HintDb turn.
#[local] Hint Rewrite @bind_ret @bind_get @bind_modify @bind_emit
  @bind_notify_seller @ret_run : turn.

(** ** send_message *)

(** An empty reply is never posted: this is how a turn stays silent. *)
Lemma send_message_log_empty chat l : send_message_log chat (Some []) l = l.
Proof. reflexivity. Qed.

Lemma send_message_log_text chat text l :
  truthy (strip text) = true →
  send_message_log chat (Some text) l = l ++ [Posted chat text].
Proof.
  intros Hs. unfold send_message_log.
  assert (truthy text = true) as ->.
  { destruct text; [done|done]. }
  by rewrite Hs.
Qed.

(** ** Escalation *)

Lemma details_prefix_keys category :
  category ∈ manager_categories → is_Some (DETAILS_PREFIX !! category).
Proof.
  unfold manager_categories. rewrite !elem_of_cons, elem_of_nil.
  intros [->|[->|[->|[->|[->|[->|[->|[]]]]]]]]; vm_compute; eauto.
Qed.

(** Lines 612-620, when they are reached with the category
    ["order_question"] or ["call_request"]: a human is notified once
    (with the category's prefix and the user's text), the session moves to
    [MANAGER_CALLED] and the empty string is returned; no message is
    posted, and [send_message] drops an empty text without posting it. *)
Lemma silent_escalation user_message category w :
  category ∈ [order_question; call_request] →
  ∃ prefix,
    DETAILS_PREFIX !! category = Some prefix
    ∧ route_category user_message category w
      = (Ok (Some []),
         mkWorld (change_state MANAGER_CALLED (set_subject prefix (ctx w)))
                 (log w ++ [Notified (prefix ++ py ": " ++ user_message) false (Some prefix)]))
    ∧ state (change_state MANAGER_CALLED (set_subject prefix (ctx w))) = MANAGER_CALLED
    ∧ truthy_opt (Some []) = false
    ∧ ∀ chat l, send_message_log chat (Some []) l = l.
Proof.
  intros Hcat.
  assert (category ∈ manager_categories) as Hm.
  { revert Hcat. unfold manager_categories. rewrite !elem_of_cons, !elem_of_nil.
    intros [->|[->|[]]]; ptauto. }
  destruct (details_prefix_keys _ Hm) as [prefix Hp].
  exists prefix. split; [done|]. split; [|by repeat split].
  unfold route_category.
  assert (category ≠ pot_request ∧ category ≠ none) as [Hpot Hnone].
  { revert Hcat. rewrite !elem_of_cons, elem_of_nil. intros [->|[->|[]]]; by vm_compute. }
  rewrite (bool_decide_eq_false_2 _ Hpot), (bool_decide_eq_true_2 _ Hnone),
    (bool_decide_eq_true_2 _ Hcat).
  unfold escalate_silently.
  rewrite (bind_getitem _ _ _ _ _ Hp), (bind_getitem _ _ _ _ _ Hp).
  by autorewrite with turn.
Qed.

Lemma category_replies_keys category :
  category ∈ deflected_categories →
  ∃ reply, CATEGORY_REPLIES !! category = Some reply ∧ truthy (strip reply) = true.
Proof.
  unfold deflected_categories. rewrite !elem_of_cons, elem_of_nil.
  intros [->|[->|[->|[->|[->|[]]]]]]; vm_compute; eauto.
Qed.

Lemma deflected_is_manager_category category :
  category ∈ deflected_categories → category ∈ manager_categories.
Proof.
  unfold deflected_categories, manager_categories.
  rewrite !elem_of_cons, !elem_of_nil.
  intros [->|[->|[->|[->|[->|[]]]]]]; ptauto.
Qed.

Lemma deflected_routes_to_escalate user_message category :
  category ∈ deflected_categories →
  route_category user_message category = escalate user_message category.
Proof.
  intros Hcat. unfold route_category.
  assert (category ≠ pot_request ∧ category ≠ none
          ∧ category ∉ [order_question; call_request]) as (Hpot & Hnone & Hsil).
  { revert Hcat. unfold deflected_categories.
    rewrite !elem_of_cons, !elem_of_nil.
    intros [->|[->|[->|[->|[->|[]]]]]]; repeat split; decide_closed. }
  by rewrite (bool_decide_eq_false_2 _ Hpot), (bool_decide_eq_true_2 _ Hnone),
    (bool_decide_eq_false_2 _ Hsil).
Qed.

(** The staff query as [is_working_hours_and_managers_available] reads it:
    a failed query counts as nobody online. *)
Lemma staff_online_spec category :
  category ∈ manager_categories →
  is_working_hours_and_managers_available category
  = (bool_decide (current_hour < 19),
     match get_online_managers (manager_group_of category) with
     | Ok online_managers => bool_decide (0 < length online_managers)%nat
     | Raise _ => false
     end).
Proof.
  intros Hm. unfold is_working_hours_and_managers_available, manager_group_of.
  by rewrite (bool_decide_eq_true_2 _ Hm).
Qed.

(** Lines 622-649, when they are reached with a category that escalates
    with a reply ([deflected_categories]): at or after 19:00 with nobody
    online, the answer is the fixed after-hours text, a human is notified
    and the state is left as it was; before 19:00 or with somebody online,
    the answer is the category's canned reply, a human is notified and the
    session moves to [MANAGER_CALLED].  In both cases [send_message] posts
    the answer once.  A staff query that raises counts as nobody online,
    and the routing returns normally in every case. *)
Lemma deflected_escalation user_message category w :
  category ∈ deflected_categories →
  ∃ prefix reply,
    DETAILS_PREFIX !! category = Some prefix
    ∧ CATEGORY_REPLIES !! category = Some reply
    ∧ (let details := prefix ++ py ": " ++ user_message in
       let staff_online := snd (is_working_hours_and_managers_available category) in
       (19 ≤ current_hour → staff_online = false →
          let c' := set_subject prefix
                      (add_message role_assistant (Some after_hours_message) (ctx w)) in
          route_category user_message category w
          = (Ok (Some after_hours_message),
             mkWorld c' (log w ++ [Notified details false (Some prefix)]))
          ∧ state c' = state (ctx w)
          ∧ ∀ chat l, send_message_log chat (Some after_hours_message) l
                      = l ++ [Posted chat after_hours_message])
       ∧ (current_hour < 19 ∨ staff_online = true →
          let c' := change_state MANAGER_CALLED
                      (add_message role_assistant (Some reply)
                         (set_subject prefix (ctx w))) in
          route_category user_message category w
          = (Ok (Some reply),
             mkWorld c' (log w ++ [Notified details false (Some prefix)]))
          ∧ state c' = MANAGER_CALLED
          ∧ ∀ chat l, send_message_log chat (Some reply) l = l ++ [Posted chat reply])
       ∧ (∀ e, get_online_managers (manager_group_of category) = Raise e →
               staff_online = false)
       ∧ (∀ online, get_online_managers (manager_group_of category) = Ok online →
               staff_online = bool_decide (0 < length online)%nat)).
Proof.
  intros Hcat.
  pose proof (deflected_is_manager_category _ Hcat) as Hm.
  destruct (details_prefix_keys _ Hm) as [prefix Hp].
  destruct (category_replies_keys _ Hcat) as (reply & Hr & Hreply).
  exists prefix, reply. split; [done|]. split; [done|].
  rewrite (deflected_routes_to_escalate _ _ Hcat), (staff_online_spec _ Hm).
  cbn [snd]. split; [|split; [|split]].
  - intros Hlate Hoff. split; [|split].
    + unfold escalate. rewrite (staff_online_spec _ Hm), Hoff.
      rewrite bool_decide_eq_false_2 by lia. cbn [negb andb].
      rewrite bind_modify, (bind_getitem _ _ _ _ _ Hp), (bind_getitem _ _ _ _ _ Hp).
      by autorewrite with turn.
    + reflexivity.
    + intros. by apply send_message_log_text.
  - intros Hopen. split; [|split].
    + unfold escalate. rewrite (staff_online_spec _ Hm).
      assert (negb (bool_decide (current_hour < 19))
              && negb (match get_online_managers (manager_group_of category) with
                       | Ok online_managers => bool_decide (0 < length online_managers)%nat
                       | Raise _ => false
                       end) = false) as ->.
      { destruct Hopen as [Hh| ->]; [|by rewrite andb_false_r].
        by rewrite (bool_decide_eq_true_2 _ Hh). }
      rewrite (bind_getitem _ _ _ _ _ Hp), (bind_getitem _ _ _ _ _ Hp).
      rewrite bind_modify, bind_notify_seller, (bind_getitem _ _ _ _ _ Hr).
      by autorewrite with turn.
    + reflexivity.
    + intros. by apply send_message_log_text.
  - by intros e ->.
  - by intros online ->.
Qed.

(** ** Pot requests *)

Lemma star_spaces_inv {R} (k : pystr → option R) s r :
  star_spaces k s = Some r → ∃ s1 s2, s = s1 ++ s2 ∧ k s2 = Some r.
Proof.
  induction s as [|c s IH]; cbn [star_spaces].
  - intros Hk. by exists [], [].
  - destruct (is_space c); [|intros Hk; by exists [], (c :: s)].
    destruct (star_spaces k s) as [r'|] eqn:Hs.
    + intros [= ->]. destruct (IH eq_refl) as (s1 & s2 & -> & Hk).
      by exists (c :: s1), s2.
    + intros Hk. by exists [], (c :: s).
Qed.

Lemma plus_digits_inv {R} dv (k : pystr → pystr → option R) acc s r :
  plus_digits dv k acc s = Some r →
  ∃ ds rest, s = ds ++ rest ∧ ds ≠ []
             ∧ Forall (λ c, is_digit dv c = true) ds
             ∧ k (acc ++ ds) rest = Some r.
Proof.
  revert acc. induction s as [|c s IH]; intros acc; cbn [plus_digits]; [done|].
  destruct (is_digit dv c) eqn:Hc; [|done].
  destruct (plus_digits dv k (acc ++ [c]) s) as [r'|] eqn:Hs.
  - intros [= ->]. destruct (IH _ Hs) as (ds & rest & -> & _ & Hds & Hk).
    exists (c :: ds), rest. rewrite <- app_assoc in Hk.
    repeat split; [done|by constructor|done].
  - intros Hk. exists [c], s. repeat split; [done|by repeat constructor|done].
Qed.

Lemma match_here_inv dv p grp s g :
  match_here dv p grp s = Some g →
  if has_group p then number_in dv g s else g = grp.
Proof.
  revert grp s. induction p as [|a p IH]; intros grp s; cbn [match_here].
  { by intros [= ->]. }
  assert (has_group (a :: p)
          = match a with DigitsGroup => true | _ => has_group p end) as ->
    by (by destruct a).
  destruct a.
  - destruct s as [|c' s]; [done|]. destruct (c =? c')%N; [|done].
    intros Hm. specialize (IH _ _ Hm).
    destruct (has_group p); [|done].
    destruct IH as (Hne & Hd & a & b & ->).
    repeat split; [done..|]. by exists (c' :: a), b.
  - intros Hm. destruct (star_spaces_inv _ _ _ Hm) as (s1 & s2 & -> & Hk).
    specialize (IH _ _ Hk).
    destruct (has_group p); [|done].
    destruct IH as (Hne & Hd & a & b & ->).
    repeat split; [done..|]. exists (s1 ++ a), b. by rewrite <- app_assoc.
  - intros Hm.
    destruct (plus_digits_inv _ _ _ _ _ Hm) as (ds & rest & -> & Hne & Hd & Hk).
    specialize (IH _ _ Hk). cbn [app] in IH.
    destruct (has_group p).
    + destruct IH as (Hne' & Hd' & a & b & ->).
      repeat split; [done..|]. exists (ds ++ a), b. by rewrite <- app_assoc.
    + subst g. repeat split; [done..|]. by exists [], rest.
Qed.

Lemma search_inv dv p s g :
  has_group p = true → search dv p s = Some g → number_in dv g s.
Proof.
  intros Hg. induction s as [|c s IH]; cbn [search].
  - destruct (match_here dv p [] []) eqn:Hm; [|done].
    intros [= ->]. pose proof (match_here_inv _ _ _ _ _ Hm) as H.
    by rewrite Hg in H.
  - destruct (match_here dv p [] (c :: s)) eqn:Hm.
    + intros [= ->]. pose proof (match_here_inv _ _ _ _ _ Hm) as H.
      by rewrite Hg in H.
    + intros Hs. destruct (IH Hs) as (Hne & Hd & a & b & ->).
      repeat split; [done..|]. by exists (c :: a), b.
Qed.

(** A size returned by the loop lies in 10..70 and is the value of the
    number captured by the first match of one of the patterns. *)
Lemma extract_loop_inv dv patterns lowered size :
  extract_loop dv patterns lowered = Some size →
  (10 ≤ size ≤ 70)%N
  ∧ ∃ pattern g, pattern ∈ patterns
                 ∧ search dv pattern lowered = Some g
                 ∧ int_of_digits dv g = size.
Proof.
  induction patterns as [|p ps IH]; cbn [extract_loop]; [done|].
  destruct (search dv p lowered) as [g|] eqn:Hs.
  - destruct ((10 <=? int_of_digits dv g)%N && (int_of_digits dv g <=? 70)%N) eqn:Hr.
    + intros [= <-]. apply andb_true_iff in Hr as [H1 H2].
      apply N.leb_le in H1, H2. split; [done|].
      exists p, g. split; [apply list_elem_of_here|done].
    + intros H. destruct (IH H) as (? & p' & g' & ? & ? & ?).
      split; [done|]. exists p', g'. split; [by apply list_elem_of_further|done].
  - intros H. destruct (IH H) as (? & p' & g' & ? & ? & ?).
    split; [done|]. exists p', g'. split; [by apply list_elem_of_further|done].
Qed.

Lemma pot_patterns_have_group pattern :
  pattern ∈ pot_patterns → has_group pattern = true.
Proof.
  unfold pot_patterns. rewrite !elem_of_cons, elem_of_nil.
  intros [->|[->|[->|[->|[]]]]]; by vm_compute.
Qed.

(** For a size in 10..70 the link carries the range stored in the table
    under the size itself, or under the nearest key 53 for larger sizes. *)
Lemma pot_range_from_table size :
  (10 ≤ size ≤ 70)%N →
  assoc (pot_range_key size) PLANT_POT_SIZE_MAPPING = Some (pot_range size).
Proof.
  intros Hr.
  assert (forallb (λ n, bool_decide
                          (assoc (pot_range_key (N.of_nat n)) PLANT_POT_SIZE_MAPPING
                           = Some (pot_range (N.of_nat n))))
                  (seq 10 61) = true) as Hall by (vm_compute; reflexivity).
  rewrite forallb_forall in Hall.
  specialize (Hall (N.to_nat size)). rewrite N2Nat.id in Hall.
  eapply bool_decide_eq_true_1, Hall, in_seq. lia.
Qed.

(** Lines 599-610, when they are reached with the category
    ["pot_request"]: a reply is returned and stored in the history;
    nobody is notified (the log of outside calls is as before) and the
    state is left as it was.  The reply is the link for the extracted size
    when [extract_pot_size] finds one, and the generic catalog link
    otherwise.  A size that is found lies in 10..70 and is the value of a
    number captured in the lowered text by the first match of one of the
    four patterns. *)
Lemma pot_request_reply user_message w :
  ∃ response,
    route_category user_message pot_request w
    = (Ok (Some response),
       mkWorld (add_message role_assistant (Some response) (ctx w)) (log w))
    ∧ state (add_message role_assistant (Some response) (ctx w)) = state (ctx w)
    ∧ match extract_pot_size user_message with
      | Some size =>
          response = sized_pot_reply size (generate_pot_link size)
          ∧ (10 ≤ size ≤ 70)%N
          ∧ ∃ pattern g,
              pattern ∈ pot_patterns
              ∧ search decimal_value pattern (lower user_message) = Some g
              ∧ number_in decimal_value g (lower user_message)
              ∧ int_of_digits decimal_value g = size
      | None => response = generic_pot_reply
      end.
Proof.
  unfold route_category. rewrite (bool_decide_eq_true_2 (pot_request = pot_request)) by done.
  unfold answer_pot_request.
  destruct (extract_pot_size user_message) as [size|] eqn:Hx.
  - unfold extract_pot_size in Hx.
    destruct (extract_loop_inv _ _ _ _ Hx) as (Hrange & pattern & g & Hin & Hs & Hv).
    assert ((size =? 0)%N = false) as -> by (apply N.eqb_neq; lia).
    eexists. split; [by autorewrite with turn|]. split; [done|].
    split; [done|]. split; [done|]. exists pattern, g.
    repeat split; try done.
    all: by eapply search_inv; [apply pot_patterns_have_group|].
  - eexists. split; [by autorewrite with turn|]. by split.
Qed.

(** ** Classification *)

Lemma category_replies_lookup category :
  CATEGORY_REPLIES !! category = None ↔ category ∉ category_keys.
Proof.
  split.
  - intros Hnone Hin. revert Hnone. revert Hin. unfold category_keys.
    rewrite !elem_of_cons, elem_of_nil.
    intros [->|[->|[->|[->|[->|[->|[->|[]]]]]]]]; by vm_compute.
  - intros Hnot. unfold CATEGORY_REPLIES. apply not_elem_of_list_to_map_1.
    intros Hin. apply Hnot. revert Hin. cbn [fmap list_fmap fst].
    by unfold category_keys.
Qed.

Lemma category_of_response_range content :
  category_of_response content ∈ category_keys ++ [none].
Proof.
  unfold category_of_response. case_bool_decide as Hk.
  - apply elem_of_app. right. apply list_elem_of_here.
  - apply elem_of_app. left.
    destruct (decide (lower (strip content) ∈ category_keys)) as [|Hn]; [done|].
    by apply category_replies_lookup in Hn.
Qed.

(** The exact-template check of [classify_intent] answers before the
    undefined name is reached. *)
Lemma classify_intent_template text w :
  strip text = strip review_request_text →
  classify_intent text w = (Ok review_ignore, w).
Proof.
  intros Ht. unfold classify_intent. by rewrite (bool_decide_eq_true_2 _ Ht).
Qed.

(** Every other text reaches line 184 and raises there: neither the
    reply-to-review check nor the request to the model is ever run. *)
Lemma classify_intent_other_raises text w :
  strip text ≠ strip review_request_text →
  classify_intent text w = (Raise (NameError "context"), w).
Proof.
  intros Ht. unfold classify_intent. by rewrite (bool_decide_eq_false_2 _ Ht).
Qed.

(** C10.  The mapping applied to the model's reply yields a key of
    [CATEGORY_REPLIES] or ["none"], and yields ["none"] for every reply
    that is not a key once stripped and lowered; whatever
    [classify_intent] returns is one of the seven keys, ["none"] or
    ["review_ignore"].  ["pot_request"] and ["delivery"] are not keys, so
    neither is ever returned, and the category handed to
    [route_category] after a classification is never ["pot_request"]. *)
Theorem classify_intent_range :
  (∀ content,
      category_of_response content ∈ category_keys ++ [none]
      ∧ (lower (strip content) ∉ category_keys → category_of_response content = none)
      ∧ (lower (strip content) ∈ category_keys →
           category_of_response content = lower (strip content)))
  ∧ CATEGORY_REPLIES !! pot_request = None
  ∧ CATEGORY_REPLIES !! delivery = None
  ∧ (∀ content, category_of_response content ≠ pot_request
                ∧ category_of_response content ≠ delivery)
  ∧ (∀ text w category,
       returned (classify_intent text w) = Some category →
       category ∈ category_keys ++ [none; review_ignore]
       ∧ category ≠ pot_request ∧ category ≠ delivery
       ∧ refine_office_plant text category ≠ pot_request).
Proof.
  assert (∀ v, v ∈ category_keys ++ [none; review_ignore] →
               v ≠ pot_request ∧ v ≠ delivery) as Hnot.
  { intros v. unfold category_keys. rewrite elem_of_app, !elem_of_cons, !elem_of_nil.
    intros [[->|[->|[->|[->|[->|[->|[->|[]]]]]]]]|[->|[->|[]]]]; by vm_compute. }
  assert (∀ v, v ∈ category_keys ++ [none] → v ∈ category_keys ++ [none; review_ignore]) as Hsub.
  { intros v. rewrite !elem_of_app, !elem_of_cons. ptauto. }
  split; [|split; [|split; [|split]]].
  - intros content. split; [apply category_of_response_range|]. split.
    + intros Hn. unfold category_of_response.
      by rewrite bool_decide_eq_true_2 by by apply category_replies_lookup.
    + intros Hin. unfold category_of_response.
      rewrite bool_decide_eq_false_2; [done|].
      rewrite category_replies_lookup. ptauto.
  - by vm_compute.
  - by vm_compute.
  - intros content. apply Hnot, Hsub, category_of_response_range.
  - intros text w category.
    destruct (decide (strip text = strip review_request_text)) as [Ht|Ht].
    + rewrite (classify_intent_template _ _ Ht). intros [= <-].
      assert (review_ignore ∈ category_keys ++ [none; review_ignore]) as Hin.
      { rewrite elem_of_app, !elem_of_cons. ptauto. }
      split; [done|]. destruct (Hnot _ Hin). repeat split; [done..|].
      unfold refine_office_plant.
      rewrite (bool_decide_eq_false_2 (review_ignore = office_plant)) by by vm_compute.
      done.
    + by rewrite (classify_intent_other_raises _ _ Ht).
Qed.

(** ** The turn as written *)

(** Every call of [run_unified_agent] stops at line 571: the session and
    the log are as they were and [NameError] is raised. *)
Lemma run_unified_agent_raises text w :
  run_unified_agent text w = (Raise (NameError "text"), w).
Proof. reflexivity. Qed.

(** What lines 583-586 do when they are reached: in [MANAGER_CALLED], any
    text but the reset command is stored in the history and answered with
    the empty string; the state stays and nothing leaves the process. *)
Lemma manager_called_guard text w :
  state (ctx w) = MANAGER_CALLED →
  lower (strip text) ∉ [py "/start"] →
  continue_turn text w
  = (Ok (Some []), mkWorld (add_message role_user (Some text) (ctx w)) (log w)).
Proof.
  intros Hs Hcmd. unfold continue_turn. autorewrite with turn. cbn [ctx].
  assert (state (add_message role_user (Some text) (ctx w)) = MANAGER_CALLED) as -> by done.
  rewrite bool_decide_eq_true_2 by done.
  by rewrite (bool_decide_eq_false_2 _ Hcmd).
Qed.

Lemma fetch_or_create_live chat cs c :
  cs !! chat = Some c → is_expired now c = false → fetch_or_create chat cs = cs.
Proof. intros Hc He. unfold fetch_or_create. by rewrite Hc, He. Qed.

Lemma fetch_or_create_lookup chat cs : is_Some (fetch_or_create chat cs !! chat).
Proof.
  unfold fetch_or_create. destruct (cs !! chat) as [c|] eqn:Hc.
  - destruct (is_expired now c); [rewrite lookup_insert_eq|rewrite Hc]; eauto.
  - rewrite lookup_insert_eq. eauto.
Qed.

Lemma processing_error_text_not_blank : truthy (strip processing_error_text) = true.
Proof. by vm_compute. Qed.

(** A non-empty text handed to [handle_client_message] is answered with
    the generic error text, and the turn leaves the fetched session
    untouched. *)
Lemma handle_client_message_error chat text k :
  truthy text = true →
  handle_client_message chat (Some text) k
  = mkCore (fetch_or_create chat
              (if is_reset_command (Some text)
               then <[chat := new_context now chat]> (chat_contexts k)
               else chat_contexts k))
           (outbox k ++ [Posted chat processing_error_text]).
Proof.
  intros Ht. unfold handle_client_message.
  set (cs2 := fetch_or_create chat _).
  destruct (fetch_or_create_lookup chat
              (if is_reset_command (Some text)
               then <[chat := new_context now chat]> (chat_contexts k)
               else chat_contexts k)) as [context Hc].
  fold cs2 in Hc. rewrite Hc, Ht. cbn [negb].
  rewrite run_unified_agent_raises. cbn [ctx log].
  rewrite (insert_id _ _ _ Hc).
  by rewrite (send_message_log_text _ _ _ processing_error_text_not_blank).
Qed.

(** The same for a live session and a text other than the reset command,
    in terms of what the user, the staff and the session see: the stored
    sessions are as before, nobody is notified, and the one message posted
    is the error text. *)
Lemma live_turn_posts_error chat text k c :
  chat_contexts k !! chat = Some c →
  is_expired now c = false →
  truthy text = true →
  lower (strip text) ∉ [py "/start"] →
  handle_client_message chat (Some text) k
  = mkCore (chat_contexts k) (outbox k ++ [Posted chat processing_error_text])
  ∧ state <$> (chat_contexts (handle_client_message chat (Some text) k) !! chat)
    = Some (state c)
  ∧ notifications (outbox (handle_client_message chat (Some text) k))
    = notifications (outbox k)
  ∧ replies (outbox (handle_client_message chat (Some text) k))
    = replies (outbox k) ++ [Posted chat processing_error_text].
Proof.
  intros Hc He Ht Hcmd.
  assert (handle_client_message chat (Some text) k
          = mkCore (chat_contexts k) (outbox k ++ [Posted chat processing_error_text])) as ->.
  { rewrite (handle_client_message_error _ _ _ Ht).
    unfold is_reset_command. rewrite Ht, (bool_decide_eq_false_2 _ Hcmd). cbn [andb].
    by rewrite (fetch_or_create_live _ _ _ Hc He). }
  split; [done|]. cbn [chat_contexts outbox]. split; [by rewrite Hc|].
  unfold notifications, replies. rewrite !filter_app. split.
  - by rewrite filter_cons_False, filter_nil, app_nil_r by done.
  - by rewrite filter_cons_True by done.
Qed.

(** C1 (what the code does).  For a live session in [MANAGER_CALLED] and
    a non-empty text other than the reset command, the handler leaves the
    stored sessions as they were, so the state is still [MANAGER_CALLED],
    but it posts one message to the user, the generic error text: line
    571 raises before the guard of lines 583-586 is reached, and the
    [except] clause of [handle_client_message] answers. *)
Theorem manager_called_turn_posts_error chat text k c :
  chat_contexts k !! chat = Some c →
  state c = MANAGER_CALLED →
  is_expired now c = false →
  truthy text = true →
  lower (strip text) ∉ [py "/start"] →
  handle_client_message chat (Some text) k
  = mkCore (chat_contexts k) (outbox k ++ [Posted chat processing_error_text])
  ∧ state <$> (chat_contexts (handle_client_message chat (Some text) k) !! chat)
    = Some MANAGER_CALLED
  ∧ replies (outbox (handle_client_message chat (Some text) k))
    = replies (outbox k) ++ [Posted chat processing_error_text].
Proof.
  intros Hc Hs He Ht Hcmd.
  destruct (live_turn_posts_error chat text k c Hc He Ht Hcmd) as (H1 & H2 & _ & H4).
  rewrite Hs in H2. by repeat split.
Qed.

(** C7 (what the code does).  A turn whose text is the review-request
    template posts one message to the user, the generic error text:
    [run_unified_agent] raises at line 571, before [classify_intent] is
    entered, and the [except] clause of [handle_client_message] answers. *)
Theorem review_request_turn_posts_error chat k :
  (∀ w, run_unified_agent review_request_text w = (Raise (NameError "text"), w))
  ∧ outbox (handle_client_message chat (Some review_request_text) k)
    = outbox k ++ [Posted chat processing_error_text]
  ∧ replies (outbox (handle_client_message chat (Some review_request_text) k))
    = replies (outbox k) ++ [Posted chat processing_error_text].
Proof.
  split; [apply run_unified_agent_raises|].
  rewrite handle_client_message_error by by vm_compute.
  cbn [outbox]. split; [done|]. unfold replies. by rewrite filter_app.
Qed.

(** C5 (what the code does).  A text that the language model labels
    ["order_question"] or ["call_request"], sent to a live session: nobody
    is notified, the session keeps its state, and the user is sent the
    generic error text.  The turn stops at line 571, before the
    classification and before lines 612-620. *)
Theorem silent_category_turn_posts_error chat text k c category :
  model_category text = Some category →
  category ∈ [order_question; call_request] →
  chat_contexts k !! chat = Some c →
  is_expired now c = false →
  truthy text = true →
  lower (strip text) ∉ [py "/start"] →
  state <$> (chat_contexts (handle_client_message chat (Some text) k) !! chat)
  = Some (state c)
  ∧ notifications (outbox (handle_client_message chat (Some text) k))
    = notifications (outbox k)
  ∧ replies (outbox (handle_client_message chat (Some text) k))
    = replies (outbox k) ++ [Posted chat processing_error_text].
Proof.
  intros _ _ Hc He Ht Hcmd.
  by destruct (live_turn_posts_error chat text k c Hc He Ht Hcmd) as (_ & ? & ? & ?).
Qed.

(** C6 (what the code does).  A text that the language model labels with
    one of the categories that escalate with a reply, sent to a live
    session, at any hour and whatever the staff query answers: nobody is
    notified, the session keeps its state, and the user is sent the
    generic error text instead of the after-hours text or the canned
    reply.  The staff query itself never makes
    [is_working_hours_and_managers_available] raise: a failure counts as
    nobody online. *)
Theorem deflected_category_turn_posts_error chat text k c category :
  model_category text = Some category →
  category ∈ deflected_categories →
  chat_contexts k !! chat = Some c →
  is_expired now c = false →
  truthy text = true →
  lower (strip text) ∉ [py "/start"] →
  (state <$> (chat_contexts (handle_client_message chat (Some text) k) !! chat)
   = Some (state c)
   ∧ notifications (outbox (handle_client_message chat (Some text) k))
     = notifications (outbox k)
   ∧ replies (outbox (handle_client_message chat (Some text) k))
     = replies (outbox k) ++ [Posted chat processing_error_text])
  ∧ (∀ e, get_online_managers (manager_group_of category) = Raise e →
          snd (is_working_hours_and_managers_available category) = false).
Proof.
  intros _ Hcat Hc He Ht Hcmd. split.
  - by destruct (live_turn_posts_error chat text k c Hc He Ht Hcmd) as (_ & ? & ? & ?).
  - intros e Hq.
    rewrite (staff_online_spec _ (deflected_is_manager_category _ Hcat)).
    cbn [snd]. by rewrite Hq.
Qed.

(** C8 (what the code does).  A text that the language model labels
    ["pot_request"], sent to a live session: the user is sent the generic
    error text, not a catalog link, and the session keeps its state; the
    turn stops at line 571.  Besides, ["pot_request"] is not a key of
    [CATEGORY_REPLIES], so lines 228-229 turn this label into ["none"]
    and the branch of lines 599-610 is not the one a classification
    leads to. *)
Theorem pot_request_turn_posts_error chat text k c content :
  classifier_completion text = Ok content →
  lower (strip content) = pot_request →
  chat_contexts k !! chat = Some c →
  is_expired now c = false →
  truthy text = true →
  lower (strip text) ∉ [py "/start"] →
  (state <$> (chat_contexts (handle_client_message chat (Some text) k) !! chat)
   = Some (state c)
   ∧ notifications (outbox (handle_client_message chat (Some text) k))
     = notifications (outbox k)
   ∧ replies (outbox (handle_client_message chat (Some text) k))
     = replies (outbox k) ++ [Posted chat processing_error_text])
  ∧ category_of_response content = none.
Proof.
  intros _ Hpot Hc He Ht Hcmd. split.
  - by destruct (live_turn_posts_error chat text k c Hc He Ht Hcmd) as (_ & ? & ? & ?).
  - unfold category_of_response. rewrite Hpot.
    by rewrite bool_decide_eq_true_2 by by vm_compute.
Qed.

(** ** Debounce *)

Lemma process_messages_step item sv :
  process_messages item sv
  = mkServer (core sv)
      (<[item_chat item := default [] (user_messages sv !! item_chat item) ++ [item_entry item]]>
         (user_messages sv))
      (match user_timers sv !! item_chat item with
       | Some _ => user_timers sv
       | None => <[item_chat item := Sleeping]> (user_timers sv)
       end).
Proof.
  unfold process_messages. f_equal.
  destruct (user_messages sv !! item_chat item) as [old|] eqn:Hold.
  - rewrite Hold. by destruct item.
  - rewrite lookup_insert_eq, insert_insert_eq. by destruct item.
Qed.

Lemma run_app ticks1 ticks2 sv : run (ticks1 ++ ticks2) sv = run ticks2 (run ticks1 sv).
Proof. apply foldl_app. Qed.

(** Taking items from the queue leaves the handlers' state alone and
    appends the entries of each chat's events to that chat's pending list
    in arrival order; a timer task that exists is left as it is, and a
    chat without one gets a sleeping task with its first event. *)
Lemma process_messages_fold chat items sv :
  core (run (map Arrive items) sv) = core sv
  ∧ default [] (user_messages (run (map Arrive items) sv) !! chat)
    = default [] (user_messages sv !! chat) ++ map item_entry (batch_of chat items)
  ∧ user_timers (run (map Arrive items) sv) !! chat
    = match user_timers sv !! chat with
      | Some stage => Some stage
      | None => match batch_of chat items with [] => None | _ :: _ => Some Sleeping end
      end.
Proof.
  revert sv. induction items as [|i items IH]; intros sv; cbn [map run foldl].
  { cbn [batch_of]. rewrite app_nil_r. split; [done|]. split; [done|].
    unfold batch_of. rewrite filter_nil. by destruct (user_timers sv !! chat). }
  fold (run (map Arrive items) (tick (Arrive i) sv)).
  destruct (IH (tick (Arrive i) sv)) as (Hcore & Hpend & Htimer).
  rewrite Hcore, Hpend, Htimer. cbn [tick]. rewrite process_messages_step.
  cbn [core user_messages user_timers]. unfold batch_of. rewrite filter_cons.
  fold (batch_of chat items).
  destruct (decide (item_chat i = chat)) as [->|Hne].
  - rewrite lookup_insert_eq. cbn [default id map].
    rewrite <- app_assoc. split; [done|]. split; [done|].
    destruct (user_timers sv !! chat) as [stage|] eqn:Hst.
    + by rewrite Hst.
    + by rewrite lookup_insert_eq.
  - rewrite lookup_insert_ne by done. split; [done|]. split; [done|].
    destruct (user_timers sv !! item_chat i); [done|].
    by rewrite lookup_insert_ne.
Qed.

Lemma well_formed_batch chat items :
  Forall well_formed_item items → Forall well_formed_item (batch_of chat items).
Proof.
  induction 1 as [|i items Hi _ IH]; [constructor|].
  unfold batch_of. rewrite filter_cons. case_decide; [by constructor|done].
Qed.

Lemma image_messages_batch items :
  Forall well_formed_item items →
  image_messages (map item_entry items) = batch_images items.
Proof.
  induction 1 as [|i items Hi _ IH]; [done|].
  destruct i as [c t|c u]; cbn in *; [done|].
  rewrite Hi. by f_equal.
Qed.

Lemma text_messages_batch items :
  Forall well_formed_item items →
  text_messages (map item_entry items) = batch_texts items.
Proof.
  induction 1 as [|i items Hi _ IH]; [done|].
  destruct i as [c t|c u]; cbn in *.
  - assert (truthy t = true) as -> by (by destruct t).
    by f_equal.
  - by rewrite Hi.
Qed.

(** The calls of a window whose pending list holds older entries followed
    by a batch of events. *)
Lemma calls_of_batch chat old batch :
  Forall well_formed_item batch →
  calls_of chat (old ++ map item_entry batch)
  = map (CallImage chat) (image_messages old ++ batch_images batch)
    ++ match text_messages old ++ batch_texts batch with
       | [] => []
       | texts => [CallMessage chat (join nl texts)]
       end.
Proof.
  intros Hwf. unfold calls_of, image_messages, text_messages. rewrite !omap_app.
  fold (image_messages old) (text_messages old).
  fold (image_messages (map item_entry batch)) (text_messages (map item_entry batch)).
  by rewrite (image_messages_batch _ Hwf), (text_messages_batch _ Hwf).
Qed.

Lemma batch_gives_calls batch :
  Forall well_formed_item batch → batch ≠ [] →
  batch_images batch ≠ [] ∨ batch_texts batch ≠ [].
Proof.
  intros _ Hne. destruct batch as [|[c t|c u] batch]; [done|by right|by left].
Qed.

Lemma arrivals_arrive item ticks : arrivals (Arrive item :: ticks) = item :: arrivals ticks.
Proof. reflexivity. Qed.

Lemma arrivals_return chat ticks : arrivals (Return chat :: ticks) = arrivals ticks.
Proof. reflexivity. Qed.

Lemma returns_of_arrive chat item ticks :
  returns_of chat (Arrive item :: ticks) = returns_of chat ticks.
Proof. unfold returns_of. by rewrite filter_cons_False. Qed.

Lemma returns_of_return chat ticks :
  returns_of chat (Return chat :: ticks) = S (returns_of chat ticks).
Proof.
  unfold returns_of. rewrite filter_cons_True; [done|].
  cbn [is_return]. by apply bool_decide_eq_true_2.
Qed.

Lemma remaining_arrive chat item sv :
  remaining chat (process_messages item sv) = remaining chat sv.
Proof.
  rewrite process_messages_step. unfold remaining. cbn [user_timers].
  destruct (user_timers sv !! item_chat item) eqn:Hst; [done|].
  destruct (decide (item_chat item = chat)) as [<-|Hne].
  - by rewrite lookup_insert_eq, Hst.
  - by rewrite lookup_insert_ne.
Qed.

(** What the loop does while a task awaits its handler calls: the calls
    return in the order fixed when the window fired, whatever arrives
    meanwhile, and what arrives for the chat is appended to its pending
    list. *)
Lemma run_during_dispatch chat ticks sv :
  Forall (during_dispatch chat) ticks →
  core (run ticks sv)
  = foldl (λ k c, run_call c k) (core sv) (take (returns_of chat ticks) (remaining chat sv))
  ∧ default [] (user_messages (run ticks sv) !! chat)
    = default [] (user_messages sv !! chat) ++ map item_entry (batch_of chat (arrivals ticks))
  ∧ remaining chat (run ticks sv) = drop (returns_of chat ticks) (remaining chat sv).
Proof.
  intros Hticks. revert sv. induction Hticks as [|t ticks Ht _ IH]; intros sv.
  { cbn. by rewrite app_nil_r, take_0, drop_0. }
  cbn [run foldl]. fold (run ticks (tick t sv)).
  destruct (IH (tick t sv)) as (Hcore & Hpend & Hrem). rewrite Hcore, Hpend, Hrem.
  destruct t as [item|c|c]; cbn [during_dispatch] in Ht; [|done|subst c].
  - (* an item arrives *)
    rewrite arrivals_arrive, returns_of_arrive. cbn [tick].
    rewrite remaining_arrive, process_messages_step. cbn [core user_messages].
    split; [done|]. split; [|done].
    unfold batch_of. rewrite filter_cons. fold (batch_of chat (arrivals ticks)).
    destruct (decide (item_chat item = chat)) as [->|Hne].
    + rewrite lookup_insert_eq. cbn [default id map]. by rewrite <- app_assoc.
    + by rewrite lookup_insert_ne.
  - (* the awaited call returns *)
    rewrite arrivals_return, returns_of_return. cbn [tick].
    unfold process_user_messages_return, remaining.
    destruct (user_timers sv !! chat) as [[|[|call rest]]|] eqn:Hst;
      rewrite ?Hst, ?take_nil, ?drop_nil; try done.
    destruct rest as [|call' rest]; cbn [core user_messages user_timers].
    + rewrite lookup_delete_eq, take_nil, drop_nil. by destruct (returns_of chat ticks).
    + by rewrite lookup_insert_eq.
Qed.

(** C9 (what the code does).  A chat without a timer task receives a
    batch of events; its pending list may hold older entries.  The
    events are appended in arrival order and a sleeping task is started.
    When the sleep ends the pending list is emptied and the calls of the
    window are fixed: [handle_client_image] once per pending image, in
    order, then [handle_client_message] once with the pending texts
    joined by newlines, older entries first.  The timer stays registered
    until the last call has returned.  Events of the chat that arrive
    while the calls are awaited are appended without starting a task, and
    when the last call returns the timer is deleted: these events are
    then pending with no task, no handler call was made for them, and no
    step of the chat's task changes this; they are dispatched only with
    the window that a further event of the chat opens.  With no such late
    event the chat ends with nothing pending and no timer. *)
Theorem debounce_window_strands_late_events sv chat items mid :
  Forall well_formed_item items →
  batch_of chat items ≠ [] →
  user_timers sv !! chat = None →
  Forall (during_dispatch chat) mid →
  let old := default [] (user_messages sv !! chat) in
  let batch := batch_of chat items in
  let calls :=
    map (CallImage chat) (image_messages old ++ batch_images batch)
    ++ match text_messages old ++ batch_texts batch with
       | [] => []
       | texts => [CallMessage chat (join nl texts)]
       end in
  S (returns_of chat mid) = length calls →
  let waiting := run (map Arrive items) sv in
  let fired := tick (Fire chat) waiting in
  let finished := run (mid ++ [Return chat]) fired in
  (default [] (user_messages waiting !! chat) = old ++ map item_entry batch
   ∧ user_timers waiting !! chat = Some Sleeping)
  ∧ (user_messages fired !! chat = Some []
     ∧ user_timers fired !! chat = Some (Dispatching calls)
     ∧ core fired = core sv)
  ∧ (core finished = foldl (λ k c, run_call c k) (core sv) calls
     ∧ user_timers finished !! chat = None
     ∧ default [] (user_messages finished !! chat)
       = map item_entry (batch_of chat (arrivals mid)))
  ∧ (∀ t, t = Fire chat ∨ t = Return chat → tick t finished = finished).
Proof.
  intros Hwf Hne Hfree Hmid old batch calls Hlen waiting fired finished.
  pose proof (well_formed_batch chat _ Hwf) as Hwfb. fold batch in Hwfb, Hne.
  destruct (process_messages_fold chat items sv) as (Hcore & Hpend & Htimer).
  fold waiting in Hcore, Hpend, Htimer. fold old batch in Hpend.
  rewrite Hfree in Htimer. fold batch in Htimer.
  assert (user_timers waiting !! chat = Some Sleeping) as Hsleep.
  { rewrite Htimer. by destruct batch. }
  assert (calls_of chat (old ++ map item_entry batch) = calls) as Hcalls
    by apply (calls_of_batch _ _ _ Hwfb).
  assert (calls ≠ []) as Hsome.
  { subst calls. destruct (batch_gives_calls batch Hwfb Hne) as [Hi|Ht].
    - destruct (batch_images batch) as [|u us]; [done|].
      destruct (image_messages old); discriminate.
    - destruct (batch_texts batch) as [|t ts]; [done|].
      destruct (text_messages old); cbn [app];
        destruct (map _ (_ ++ _)); discriminate. }
  assert (fired = mkServer (core waiting) (<[chat := []]> (user_messages waiting))
                    (<[chat := Dispatching calls]> (user_timers waiting))) as Hfired.
  { subst fired. cbn [tick]. unfold process_user_messages_fire.
    rewrite Hsleep, Hpend.
    destruct (old ++ map item_entry batch) as [|e es] eqn:Hes.
    { apply app_eq_nil in Hes as [_ Hes]. by destruct batch. }
    rewrite Hcalls. by destruct calls. }
  clearbody waiting calls.
  split; [done|]. split.
  { rewrite Hfired. cbn [core user_messages user_timers].
    by rewrite !lookup_insert_eq. }
  assert (remaining chat fired = calls) as Hrem.
  { unfold remaining. rewrite Hfired. cbn [user_timers]. by rewrite lookup_insert_eq. }
  assert (default [] (user_messages fired !! chat) = []) as Hempty.
  { rewrite Hfired. cbn [user_messages]. by rewrite lookup_insert_eq. }
  assert (core fired = core sv) as Hcore' by (by rewrite Hfired).
  clearbody fired.
  subst finished. rewrite run_app.
  destruct (run_during_dispatch chat mid fired Hmid) as (Hc & Hp & Hr).
  rewrite Hrem, Hcore' in Hc. rewrite Hrem in Hr. rewrite Hempty in Hp. cbn [app] in Hp.
  set (sv3 := run mid fired) in *. clearbody sv3.
  assert (∃ c, drop (returns_of chat mid) calls = [c]) as [c Hlast].
  { destruct (drop (returns_of chat mid) calls) as [|c [|c' l]] eqn:Hd.
    - apply (f_equal length) in Hd. rewrite length_drop in Hd. cbn in Hd. lia.
    - by exists c.
    - apply (f_equal length) in Hd. rewrite length_drop in Hd. cbn in Hd. lia. }
  assert (user_timers sv3 !! chat = Some (Dispatching [c])) as Hstage.
  { unfold remaining in Hr. rewrite Hlast in Hr.
    destruct (user_timers sv3 !! chat) as [[|cs]|]; [done| |done]. by subst cs. }
  assert (run [Return chat] sv3
          = mkServer (run_call c (core sv3)) (user_messages sv3)
                     (delete chat (user_timers sv3))) as ->.
  { cbn [run foldl tick]. unfold process_user_messages_return. by rewrite Hstage. }
  cbn [core user_messages user_timers]. split; [split; [|split]|].
  - rewrite Hc. rewrite <- (take_drop (returns_of chat mid) calls) at 2.
    by rewrite Hlast, foldl_app.
  - apply lookup_delete_eq.
  - done.
  - intros t [-> | ->]; cbn [tick];
      unfold process_user_messages_fire, process_user_messages_return;
      cbn [user_timers]; by rewrite lookup_delete_eq.
Qed.

(* ===================================================================== *)
(** * Further properties *)
(* ===================================================================== *)

(** ** Cart: totals, uniqueness of names, removal *)

Lemma cart_total_from acc rows :
  foldl (λ a item, a + quantity item) acc rows = acc + cart_total rows.
Proof.
  unfold cart_total. revert acc. induction rows as [|r rows IH]; intros acc; cbn [foldl].
  - lia.
  - rewrite IH, (IH (0 + quantity r)). lia.
Qed.

Lemma cart_total_cons r rows : cart_total (r :: rows) = quantity r + cart_total rows.
Proof. unfold cart_total at 1. cbn [foldl]. rewrite cart_total_from. lia. Qed.

Lemma cart_total_app xs ys : cart_total (xs ++ ys) = cart_total xs + cart_total ys.
Proof.
  induction xs as [|r xs IH]; cbn [app]; [done|].
  rewrite !cart_total_cons, IH. lia.
Qed.

Lemma add_to_cart_loop_some rows item q rows' :
  add_to_cart_loop rows item q = Some rows' →
  cart_total rows' = cart_total rows + q
  ∧ cart_names rows' = cart_names rows
  ∧ plant_name item ∈ cart_names rows.
Proof.
  revert rows'. induction rows as [|r rows IH]; intros rows'; cbn [add_to_cart_loop]; [done|].
  case_bool_decide as Hn.
  - intros [= <-]. rewrite !cart_total_cons. cbn [quantity cart_names map plant].
    split; [lia|]. split; [done|]. rewrite <- Hn. apply list_elem_of_here.
  - destruct (add_to_cart_loop rows item q) as [rs|] eqn:Hl; [|done].
    cbn [fmap option_fmap option_map]. intros [= <-]. destruct (IH _ eq_refl) as (Ht & Hnames & Hin).
    rewrite !cart_total_cons, Ht. cbn [cart_names map]. fold (cart_names rs).
    fold (cart_names rows). rewrite Hnames. split; [lia|]. split; [done|].
    by apply list_elem_of_further.
Qed.

Lemma add_to_cart_loop_none rows item q :
  add_to_cart_loop rows item q = None → plant_name item ∉ cart_names rows.
Proof.
  induction rows as [|r rows IH]; cbn [add_to_cart_loop].
  - intros _. apply not_elem_of_nil.
  - case_bool_decide as Hn; [done|].
    destruct (add_to_cart_loop rows item q) eqn:Hl; [done|]. intros _.
    cbn [cart_names map]. apply not_elem_of_cons. split; [congruence|by apply IH].
Qed.

(** X1.  Whether it merges into a row or appends one, [add_to_cart] raises
    the number of plants that [get_cart_summary] prints in its header,
    the sum of the quantities, by exactly the quantity added. *)
Theorem add_to_cart_total c item q t :
  cart_total (cart (add_to_cart item q t c)) = cart_total (cart c) + q.
Proof.
  unfold add_to_cart. destruct (add_to_cart_loop (cart c) item q) as [rows|] eqn:Hl.
  - cbn [cart set_cart]. by destruct (add_to_cart_loop_some _ _ _ _ Hl) as (-> & _).
  - cbn [cart set_cart]. rewrite cart_total_app, cart_total_cons.
    change (cart_total []) with 0. cbn [quantity]. lia.
Qed.

Lemma add_to_cart_names_unique c item q t :
  NoDup (cart_names (cart c)) → NoDup (cart_names (cart (add_to_cart item q t c))).
Proof.
  intros Hnd. unfold add_to_cart.
  destruct (add_to_cart_loop (cart c) item q) as [rows|] eqn:Hl; cbn [cart set_cart].
  - by destruct (add_to_cart_loop_some _ _ _ _ Hl) as (_ & -> & _).
  - unfold cart_names. rewrite map_app. cbn [map plant].
    apply NoDup_app. split; [done|]. split.
    + intros x Hx Hin. apply list_elem_of_singleton in Hin as ->.
      by apply (add_to_cart_loop_none _ _ _ Hl).
    + apply NoDup_singleton.
Qed.

Lemma filter_names_unique (P : CartItem → Prop) `{∀ x, Decision (P x)} rows :
  NoDup (cart_names rows) → NoDup (cart_names (filter P rows)).
Proof.
  induction rows as [|r rows IH]; [done|].
  cbn [cart_names map]. rewrite NoDup_cons. intros [Hr Hnd].
  rewrite filter_cons. destruct (decide (P r)); [|by apply IH].
  cbn [cart_names map]. apply NoDup_cons. split; [|by apply IH].
  intros Hin. apply Hr. unfold cart_names in *.
  apply list_elem_of_fmap in Hin as (x & -> & Hx).
  apply list_elem_of_fmap. exists x. split; [done|].
  by apply list_elem_of_filter in Hx as [_ ?].
Qed.

Lemma change_state_cart new_state c :
  cart (change_state new_state c) = if bool_decide (new_state = COMPLETED) then [] else cart c.
Proof. unfold change_state. by repeat case_bool_decide. Qed.

(** X2.  Every cart that the methods of [ChatContext] can build from a new
    session ([add_to_cart], [remove_from_cart], [clear_cart],
    [change_state], [add_message], in any order and number) holds at most
    one row per name. *)
Theorem reachable_cart_names_unique t0 chat ops :
  NoDup (cart_names (cart (apply_ops ops (new_context t0 chat)))).
Proof.
  assert (∀ ops c, NoDup (cart_names (cart c)) →
                   NoDup (cart_names (cart (apply_ops ops c)))) as Hinv.
  { clear. intros ops. induction ops as [|op ops IH]; intros c Hc; [done|].
    cbn [apply_ops foldl]. apply IH. destruct op; cbn [apply_op].
    - by apply add_to_cart_names_unique.
    - unfold remove_from_cart. cbn [cart set_cart]. by apply filter_names_unique.
    - apply NoDup_nil_2.
    - rewrite change_state_cart. case_bool_decide; [apply NoDup_nil_2|done].
    - done. }
  apply Hinv. apply NoDup_nil_2.
Qed.

Lemma remove_from_cart_other nm c other :
  rows_named other (cart (remove_from_cart nm c))
  = if decide (other = Some nm) then [] else rows_named other (cart c).
Proof.
  unfold remove_from_cart, rows_named. cbn [cart set_cart].
  induction (cart c) as [|r rows IH]; [by case_decide|].
  rewrite !filter_cons.
  destruct (decide (plant_name (plant r) ≠ Some nm)) as [Hne|Heq].
  - rewrite filter_cons. destruct (decide (plant_name (plant r) = other)) as [<-|Ho].
    + rewrite decide_False by done. rewrite decide_False in IH by done. by rewrite IH.
    + done.
  - apply dec_stable in Heq. rewrite IH. case_decide as Ho.
    + done.
    + rewrite decide_False; [done|]. congruence.
Qed.

Lemma remove_from_cart_absent nm c :
  rows_named (Some nm) (cart c) = [] → cart (remove_from_cart nm c) = cart c.
Proof.
  unfold remove_from_cart, rows_named. cbn [cart set_cart].
  induction (cart c) as [|r rows IH]; [done|].
  rewrite !filter_cons. destruct (decide (plant_name (plant r) = Some nm)) as [Heq|Hne].
  - done.
  - intros Hrest. rewrite decide_True by done. by rewrite IH.
Qed.

(** X3.  [remove_from_cart(name)] leaves no row with that name and keeps
    the rows of every other name (also the rows without a name) as they
    were, in order; on a cart without such a row it changes nothing. *)
Theorem remove_from_cart_rows nm c :
  (∀ other,
      rows_named other (cart (remove_from_cart nm c))
      = if decide (other = Some nm) then [] else rows_named other (cart c))
  ∧ (rows_named (Some nm) (cart c) = [] → cart (remove_from_cart nm c) = cart c).
Proof.
  split; [intros other; apply remove_from_cart_other|apply remove_from_cart_absent].
Qed.

Lemma add_to_cart_loop_filter rows item q rows' (P : CartItem → Prop)
    `{∀ x, Decision (P x)} :
  (∀ r q', plant_name (plant r) = plant_name item → ¬ P (mkCartItem (plant r) q' (type r)) ∧ ¬ P r) →
  add_to_cart_loop rows item q = Some rows' →
  filter P rows' = filter P rows.
Proof.
  intros HP. revert rows'. induction rows as [|r rows IH]; intros rows'; cbn [add_to_cart_loop]; [done|].
  case_bool_decide as Hn.
  - intros [= <-]. rewrite !filter_cons.
    destruct (HP r (quantity r + q) Hn) as [H1 H2].
    by rewrite !decide_False by done.
  - destruct (add_to_cart_loop rows item q) as [rs|] eqn:Hl; [|done].
    cbn. intros [= <-]. rewrite !filter_cons. by rewrite (IH _ eq_refl).
Qed.

(** X4.  Removing a name right after adding an item of that name gives
    the cart that removing it from the original cart gives: in
    particular, on a cart without the item, add then remove restores the
    cart. *)
Theorem remove_after_add nm item q t c :
  plant_name item = Some nm →
  cart (remove_from_cart nm (add_to_cart item q t c)) = cart (remove_from_cart nm c)
  ∧ (rows_named (Some nm) (cart c) = [] →
     cart (remove_from_cart nm (add_to_cart item q t c)) = cart c).
Proof.
  intros Hname.
  assert (cart (remove_from_cart nm (add_to_cart item q t c))
          = cart (remove_from_cart nm c)) as Heq.
  { unfold remove_from_cart, add_to_cart. cbn [cart set_cart].
    destruct (add_to_cart_loop (cart c) item q) as [rows|] eqn:Hl; cbn [cart set_cart].
    - apply (add_to_cart_loop_filter _ item q); [|done].
      cbn [plant]. intros r q' Hr. split; intros Hc; apply Hc; congruence.
    - rewrite filter_app, filter_cons. cbn [plant].
      rewrite decide_False by (intros Hc; by apply Hc).
      by rewrite filter_nil, app_nil_r. }
  split; [done|]. intros Habs. rewrite Heq.
  by apply remove_from_cart_absent.
Qed.

(** X5.  When the cart already holds a row with the item's name,
    [add_to_cart] changes nothing but the quantity of the first such row:
    the catalog entry and the order type passed in the call are dropped,
    so adding a preorder of an item that is in the cart as an order
    leaves it an order. *)
Theorem add_to_cart_merge_keeps_type c pre row post item q t :
  cart c = pre ++ row :: post →
  rows_named (plant_name item) pre = [] →
  plant_name (plant row) = plant_name item →
  cart (add_to_cart item q t c)
  = pre ++ mkCartItem (plant row) (quantity row + q) (type row) :: post.
Proof.
  intros Hc Hpre Hrow. unfold add_to_cart.
  by rewrite Hc, (add_to_cart_loop_present pre row post item q Hpre Hrow).
Qed.

(** ** State machine and history, continued *)

(** X6.  [change_state] is idempotent: repeating a transition to the same
    target changes nothing more, from any session and for any target. *)
Theorem change_state_idempotent new_state c :
  change_state new_state (change_state new_state c) = change_state new_state c.
Proof.
  destruct c as [? ? ? ? st ? ? ? ? ? ? ? ? ? ? ? ? ?].
  destruct new_state, st; reflexivity.
Qed.

(** X7.  The three out-of-stock fields are cleared by [change_state]
    exactly when the session leaves [OUT_OF_STOCK] for another state;
    on every other transition they are kept.  No transition touches the
    history, and the session ends in the target state. *)
Theorem change_state_out_of_stock new_state c :
  (state c = OUT_OF_STOCK → new_state ≠ OUT_OF_STOCK →
     out_of_stock_plant (change_state new_state c) = None
     ∧ out_of_stock_plants (change_state new_state c) = None
     ∧ preorder_info (change_state new_state c) = None)
  ∧ (state c ≠ OUT_OF_STOCK ∨ new_state = OUT_OF_STOCK →
     out_of_stock_plant (change_state new_state c) = out_of_stock_plant c
     ∧ out_of_stock_plants (change_state new_state c) = out_of_stock_plants c
     ∧ preorder_info (change_state new_state c) = preorder_info c)
  ∧ messages (change_state new_state c) = messages c
  ∧ state (change_state new_state c) = new_state.
Proof.
  unfold change_state. split; [|split; [|split]].
  - intros Hs Hn.
    rewrite (bool_decide_eq_true_2 _ Hs), (bool_decide_eq_true_2 _ Hn). cbn [andb].
    by repeat case_match.
  - intros Hkeep.
    assert (bool_decide (state c = OUT_OF_STOCK) && bool_decide (new_state ≠ OUT_OF_STOCK)
            = false) as ->.
    { destruct Hkeep as [Hs| ->].
      - by rewrite (bool_decide_eq_false_2 _ Hs).
      - rewrite (bool_decide_eq_false_2 (OUT_OF_STOCK ≠ OUT_OF_STOCK)) by (intros Hc; by apply Hc).
        apply andb_false_r. }
    by repeat case_match.
  - by repeat case_match.
  - done.
Qed.

(** X8.  For [n >= 1], [get_last_n_messages(n)] returns a suffix of the
    history, of length [min(n, len(messages))]: the last [n] messages, or
    all of them when fewer are stored. *)
Theorem get_last_n_messages_suffix n c :
  (1 ≤ n)%nat →
  (∃ older, messages c = older ++ get_last_n_messages n c)
  ∧ length (get_last_n_messages n c) = (n `min` length (messages c))%nat.
Proof.
  intros Hn. unfold get_last_n_messages. case_bool_decide as Hlen.
  - split.
    + exists (take (length (messages c) - n) (messages c)). by rewrite take_drop.
    + rewrite length_drop. lia.
  - split; [by exists []|lia].
Qed.

(** X9.  [add_message(role, text)] appends exactly one message and leaves
    the earlier ones, the state and the cart as they were.  The new
    message carries the role; its content is the text when there is one,
    and for [text=None] it is the empty string for role ["tool"], [None]
    for role ["assistant"], and the key is deleted for any other role.
    The new message is the last one that [get_last_n_messages(n)] returns
    for any [n >= 1]. *)
Theorem add_message_appends rl text c :
  ∃ m, messages (add_message rl text c) = messages c ++ [m]
     ∧ role m = rl
     ∧ content m = match text with
                   | Some t => ContentStr t
                   | None => if bool_decide (rl = role_tool) then ContentStr []
                             else if bool_decide (rl = role_assistant) then ContentNone
                             else ContentMissing
                   end
     ∧ state (add_message rl text c) = state c
     ∧ cart (add_message rl text c) = cart c
     ∧ ∀ n, (1 ≤ n)%nat →
            last (get_last_n_messages n (add_message rl text c)) = Some m.
Proof.
  unfold add_message, add_message_full. eexists.
  split; [reflexivity|]. split; [reflexivity|]. split; [|split; [done|split; [done|]]].
  - cbn [content]. destruct text as [t|].
    + rewrite (bool_decide_eq_false_2 (Some t = None)) by done.
      by rewrite andb_false_r.
    + rewrite (bool_decide_eq_true_2 (None = None)) by done. rewrite andb_true_r.
      repeat case_bool_decide; done.
  - intros n Hn. unfold get_last_n_messages. cbn [messages set_messages].
    case_bool_decide as Hlen; [|apply last_snoc].
    rewrite length_app in *. cbn [length] in *.
    rewrite drop_app_le by lia. apply last_snoc.
Qed.

(** ** Pot links *)

Lemma min_by_ext key1 key2 best xs :
  (∀ x y, x ∈ best :: xs → y ∈ best :: xs → (key1 x <? key1 y) = (key2 x <? key2 y)) →
  min_by key1 best xs = min_by key2 best xs.
Proof.
  revert best. induction xs as [|x xs IH]; intros best H; [done|].
  cbn [min_by].
  rewrite (H x best) by (rewrite !elem_of_cons; auto).
  apply IH. intros a b Ha Hb. apply H.
  - apply elem_of_cons in Ha as [->|Ha]; [|rewrite !elem_of_cons; auto].
    destruct (key2 x <? key2 best); rewrite !elem_of_cons; auto.
  - apply elem_of_cons in Hb as [->|Hb]; [|rewrite !elem_of_cons; auto].
    destruct (key2 x <? key2 best); rewrite !elem_of_cons; auto.
Qed.

Lemma assoc_none_above d l :
  Forall (λ kv, (kv.1 < d)%N) l → assoc d l = None.
Proof.
  induction 1 as [|[k v] l Hk _ IH]; [done|]. cbn [assoc].
  cbn [fst] in Hk. destruct (N.eqb_spec d k) as [->|_]; [lia|done].
Qed.

Lemma pot_range_small d :
  (d < 54)%N →
  assoc (N.max 9 (N.min d 53)) PLANT_POT_SIZE_MAPPING = Some (pot_range d)
  ∧ (10 ≤ (pot_range d).1 < (pot_range d).2)%N
  ∧ ((pot_range d).2 ≤ 70)%N
  ∧ (d ≤ (pot_range d).2)%N.
Proof.
  intros Hd.
  assert (forallb (λ n,
            let d := N.of_nat n in
            bool_decide (assoc (N.max 9 (N.min d 53)) PLANT_POT_SIZE_MAPPING
                         = Some (pot_range d))
            && (10 <=? (pot_range d).1)%N && ((pot_range d).1 <? (pot_range d).2)%N
            && ((pot_range d).2 <=? 70)%N && (d <=? (pot_range d).2)%N)
          (seq 0 54) = true) as Hall by (vm_compute; reflexivity).
  rewrite forallb_forall in Hall.
  specialize (Hall (N.to_nat d)). cbv zeta in Hall. rewrite N2Nat.id in Hall.
  assert (In (N.to_nat d) (seq 0 54)) as Hin by (apply in_seq; lia).
  specialize (Hall Hin).
  rewrite !andb_true_iff in Hall. destruct Hall as ((((H1 & H2) & H3) & H4) & H5).
  apply bool_decide_eq_true_1 in H1.
  apply N.leb_le in H2, H4, H5. apply N.ltb_lt in H3. done.
Qed.

Lemma pot_range_large d : (54 ≤ d)%N → pot_range d = (60, 70)%N.
Proof.
  intros Hd. unfold pot_range.
  assert (Forall (λ kv : N * (N * N), (kv.1 ≤ 53)%N) PLANT_POT_SIZE_MAPPING) as Hkeys.
  { unfold PLANT_POT_SIZE_MAPPING. repeat (constructor; [cbn [fst]; lia|]). constructor. }
  rewrite assoc_none_above.
  2: { eapply Forall_impl; [exact Hkeys|]. cbn beta. intros kv Hk. lia. }
  rewrite (min_by_ext _ (λ x, - Z.of_N x)).
  - by vm_compute.
  - intros x y Hx Hy.
    assert (∀ k, k ∈ 9%N :: tail (map fst PLANT_POT_SIZE_MAPPING) → (k ≤ 53)%N) as Hle.
    { intros k Hk. change (9%N :: tail (map fst PLANT_POT_SIZE_MAPPING))
        with (map fst PLANT_POT_SIZE_MAPPING) in Hk.
      apply list_elem_of_fmap in Hk as (kv & -> & Hkv).
      by apply (proj1 (Forall_forall _ _) Hkeys). }
    apply Hle in Hx, Hy.
    destruct (Z.ltb_spec (Z.abs (Z.of_N x - Z.of_N d)) (Z.abs (Z.of_N y - Z.of_N d)));
      destruct (Z.ltb_spec (- Z.of_N x) (- Z.of_N y)); lia.
Qed.

(** X10.  For every diameter, [generate_pot_link] uses the range stored
    under the diameter clamped to the keys 9..53 of
    [PLANT_POT_SIZE_MAPPING] (the nearest key that [min] finds).  The
    range always lies within 10..70 with its lower end below its upper
    end, and its upper end is at least the diameter (at least 70 for a
    diameter beyond 70): the link never offers only pots narrower than
    the plant's. *)
Theorem pot_range_nearest_key d :
  assoc (N.max 9 (N.min d 53)) PLANT_POT_SIZE_MAPPING = Some (pot_range d)
  ∧ (10 ≤ (pot_range d).1 < (pot_range d).2)%N
  ∧ ((pot_range d).2 ≤ 70)%N
  ∧ (N.min d 70 ≤ (pot_range d).2)%N.
Proof.
  destruct (decide (d < 54)%N) as [Hlt|Hge].
  - destruct (pot_range_small d Hlt) as (H1 & H2 & H3 & H4).
    split; [done|]. split; [done|]. split; [done|]. lia.
  - rewrite (pot_range_large d) by lia.
    replace (N.max 9 (N.min d 53)) with 53%N by lia.
    split; [reflexivity|]. cbn [fst snd]. lia.
Qed.

(** ** Pot suggestions *)

Lemma match_slash_size_inv s g :
  match_slash_size s = Some g → number_in decimal_value g s.
Proof.
  unfold match_slash_size. intros H.
  destruct (plus_digits_inv _ _ _ _ _ H) as (ds & rest & -> & Hne & Hd & Hk).
  cbn [app] in Hk. unfold match_literal at 1 in Hk.
  destruct (is_prefix (py "/") rest); [|done].
  destruct (plus_digits_inv _ _ _ _ _ Hk) as (ds2 & rest2 & _ & _ & _ & Hk2).
  destruct (star_spaces_inv _ _ _ Hk2) as (s1 & s2 & -> & Hk3).
  unfold match_literal in Hk3. destruct (is_prefix (py "см") s2); [|done].
  injection Hk3 as <-.
  split; [done|]. split; [done|]. by exists [], rest.
Qed.

Lemma search_with_inv m s g :
  (∀ s' g', m s' = Some g' → number_in decimal_value g' s') →
  search_with m s = Some g → number_in decimal_value g s.
Proof.
  intros Hm. induction s as [|c s IH]; cbn [search_with].
  - destruct (m []) eqn:E; [|done]. intros [= ->]. by apply Hm.
  - destruct (m (c :: s)) eqn:E.
    + intros [= ->]. by apply Hm.
    + intros Hs. destruct (IH Hs) as (Hne & Hd & a & b & ->).
      split; [done|]. split; [done|]. by exists (c :: a), b.
Qed.

Lemma plant_patterns_capture m s g :
  m ∈ plant_patterns → m s = Some g → number_in decimal_value g s.
Proof.
  unfold plant_patterns. rewrite !elem_of_cons, elem_of_nil.
  intros [->|[->|[->|[]]]] Hm.
  - by apply match_slash_size_inv.
  - apply match_here_inv in Hm.
    by rewrite (eq_refl : has_group (lits (py "d") ++ [DigitsGroup; Spaces] ++ lits (py "см"))
                          = true) in Hm.
  - apply match_here_inv in Hm.
    by rewrite (eq_refl : has_group ([DigitsGroup; Spaces] ++ lits (py "см")) = true) in Hm.
Qed.

Lemma plant_diameter_loop_inv patterns name d :
  (∀ m, m ∈ patterns → m ∈ plant_patterns) →
  plant_diameter_loop patterns name = Some d →
  (5 ≤ d ≤ 60)%N
  ∧ ∃ g, number_in decimal_value g name ∧ int_of_digits decimal_value g = d.
Proof.
  induction patterns as [|p ps IH]; intros Hsub; cbn [plant_diameter_loop]; [done|].
  assert (∀ m, m ∈ ps → m ∈ plant_patterns) as Hps.
  { intros m Hm. apply Hsub. by apply list_elem_of_further. }
  destruct (search_with p name) as [g|] eqn:Hs; [|by apply IH].
  destruct ((5 <=? int_of_digits decimal_value g)%N
            && (int_of_digits decimal_value g <=? 60)%N) eqn:Hr; [|by apply IH].
  intros [= <-]. apply andb_true_iff in Hr as [H1 H2]. apply N.leb_le in H1, H2.
  split; [done|]. exists g. split; [|done].
  apply (search_with_inv p); [|done].
  intros s' g'. apply plant_patterns_capture, Hsub, list_elem_of_here.
Qed.

(** X11.  A diameter that [extract_plant_diameter] returns lies in 5..60
    and is the value of a non-empty run of decimal digits that occurs in
    the name; in particular it is never 0, so the test [if diameter:] of
    [check_and_send_pot_suggestion] is true whenever a diameter was
    found. *)
Theorem extract_plant_diameter_range name d :
  extract_plant_diameter name = Some d →
  (5 ≤ d ≤ 60)%N
  ∧ (d =? 0)%N = false
  ∧ ∃ g, number_in decimal_value g name ∧ int_of_digits decimal_value g = d.
Proof.
  intros H. apply plant_diameter_loop_inv in H; [|done].
  destruct H as (Hr & Hg). split; [done|]. split; [|done].
  apply N.eqb_neq. lia.
Qed.

Lemma lstrip_snoc_nonblank s c : is_space c = false → lstrip (s ++ [c]) ≠ [].
Proof.
  intros Hc. induction s as [|a s IH]; cbn [app lstrip].
  - by rewrite Hc.
  - by destruct (is_space a).
Qed.

Lemma strip_nonblank c s : is_space c = false → truthy (strip (c :: s)) = true.
Proof.
  intros Hc. unfold strip, rstrip. cbn [lstrip]. rewrite Hc. cbn [rev].
  pose proof (lstrip_snoc_nonblank (rev s) c Hc) as Hne.
  destruct (lstrip (rev s ++ [c])) as [|x l]; [done|].
  cbn [rev]. by destruct (rev l).
Qed.

Lemma pot_suggestion_text_starts p :
  ∃ rest, pot_suggestion_text p = 129716%N :: rest.
Proof.
  assert (∀ name tl, ∃ rest, pot_suggestion_head name ++ tl = 129716%N :: rest) as Hhead.
  { intros name tl. unfold pot_suggestion_head.
    assert (py "🪴 Кстати! Ваше растение " = 129716%N :: py " Кстати! Ваше растение ")
      as -> by (vm_compute; reflexivity).
    rewrite <- !app_comm_cons. by eexists. }
  unfold pot_suggestion_text.
  destruct (extract_plant_diameter _) as [d|]; [destruct (d =? 0)%N|]; apply Hhead.
Qed.

Lemma bind_send_message {B} chat m (f : unit → M B) w :
  (send_message chat m ≫= f) w
  = f tt (mkWorld (ctx w) (send_message_log chat m (log w))).
Proof. reflexivity. Qed.

Lemma pot_suggestions_run chat plants w :
  check_and_send_pot_suggestion chat plants w
  = (Ok tt, mkWorld (ctx w) (log w ++ pot_suggestions chat plants)).
Proof.
  unfold check_and_send_pot_suggestion, pot_suggestions.
  generalize (filter (λ p, in_technical_pot p = true) plants). intros tech.
  revert w. induction tech as [|p tech IH]; intros w; cbn [for_each map].
  - rewrite app_nil_r. by destruct w.
  - rewrite bind_send_message, IH. cbn [ctx log].
    destruct (pot_suggestion_text_starts p) as (rest & Htext).
    rewrite send_message_log_text.
    + by rewrite <- app_assoc.
    + rewrite Htext. by apply strip_nonblank.
Qed.

Lemma replies_app l1 l2 : replies (l1 ++ l2) = replies l1 ++ replies l2.
Proof. apply filter_app. Qed.

Lemma notifications_app l1 l2 :
  notifications (l1 ++ l2) = notifications l1 ++ notifications l2.
Proof. apply filter_app. Qed.

Lemma replies_pot_suggestions chat plants :
  replies (pot_suggestions chat plants) = pot_suggestions chat plants.
Proof.
  unfold pot_suggestions, replies.
  induction (filter _ plants) as [|p l IH]; [done|].
  cbn [map]. rewrite filter_cons_True by done. by rewrite IH.
Qed.

Lemma notifications_pot_suggestions chat plants :
  notifications (pot_suggestions chat plants) = [].
Proof.
  unfold pot_suggestions, notifications.
  induction (filter _ plants) as [|p l IH]; [done|].
  cbn [map]. by rewrite filter_cons_False by done.
Qed.

(** X12.  [check_and_send_pot_suggestion] posts one message to the chat
    for each selected plant whose ["Кашпо/Горшок"] entry mentions a
    technical pot, in the order of the selection, and nothing for the
    others; it notifies nobody, changes nothing in the session and does
    not raise. *)
Theorem check_and_send_pot_suggestion_posts chat plants w :
  ∃ w', check_and_send_pot_suggestion chat plants w = (Ok tt, w')
    ∧ ctx w' = ctx w
    ∧ notifications (log w') = notifications (log w)
    ∧ replies (log w')
      = replies (log w)
        ++ map (λ p, Posted chat (pot_suggestion_text p))
               (filter (λ p, in_technical_pot p = true) plants).
Proof.
  eexists. split; [apply pot_suggestions_run|]. cbn [ctx log].
  split; [done|].
  rewrite notifications_app, replies_app, notifications_pot_suggestions,
    replies_pot_suggestions, app_nil_r.
  done.
Qed.

(** ** The agent turn and its tools *)

Lemma change_state_state new_state c : state (change_state new_state c) = new_state.
Proof. done. Qed.

Lemma change_state_messages new_state c :
  messages (change_state new_state c) = messages c.
Proof. unfold change_state. by repeat case_match. Qed.

Lemma change_state_chat_id new_state c :
  chat_id (change_state new_state c) = chat_id c.
Proof. unfold change_state. by repeat case_match. Qed.

Lemma accessories_message_not_blank : truthy (strip accessories_message) = true.
Proof. by vm_compute. Qed.

(** X13.  The refinement of lines 592-596 touches the category
    ["office_plant"] only.  ["office_plant"] is kept exactly when the
    quantity request succeeds with a number above 1; a failed request
    counts as 1, and the category becomes ["none"]. *)
Theorem refine_office_plant_keeps user_message category :
  (category ≠ office_plant → refine_office_plant user_message category = category)
  ∧ (refine_office_plant user_message office_plant = office_plant
     ↔ ∃ q, quantity_completion user_message = Ok q ∧ 1 < q)
  ∧ (∀ e, quantity_completion user_message = Raise e →
          refine_office_plant user_message office_plant = none).
Proof.
  assert (none ≠ office_plant) as Hne by decide_closed.
  unfold refine_office_plant, extract_plant_quantity. split; [|split].
  - intros Hc. by rewrite (bool_decide_eq_false_2 _ Hc).
  - rewrite (bool_decide_eq_true_2 (office_plant = office_plant)) by done.
    destruct (quantity_completion user_message) as [q|e].
    + case_bool_decide as Hq; split.
      * intros Hc. by destruct Hne.
      * intros (q' & [= <-] & Hq'). lia.
      * intros _. exists q. split; [done|lia].
      * done.
    + rewrite (bool_decide_eq_true_2 (1 ≤ 1)) by lia. split.
      * intros Hc. by destruct Hne.
      * by intros (q' & [=] & _).
  - intros e He. rewrite He.
    rewrite (bool_decide_eq_true_2 (office_plant = office_plant)) by done.
    by rewrite (bool_decide_eq_true_2 (1 ≤ 1)) by lia.
Qed.

Lemma run_agent_turn_upsell_run w out w1 :
  Runner_run (get_last_n_messages 20 (ctx w)) w = (Ok out, w1) →
  state (ctx w1) = UPSELL →
  run_agent_turn w
  = (Ok (Some []),
     mkWorld (change_state COMPLETED (ctx w1))
             (log w1 ++ [Posted (chat_id (ctx w1)) accessories_message])).
Proof.
  intros Hrun Hs. unfold run_agent_turn. rewrite bind_get.
  rewrite (bind_ok _ _ _ _ _ Hrun). rewrite bind_get.
  rewrite (bool_decide_eq_true_2 _ Hs). unfold send_accessories_message.
  rewrite bind_send_message. cbn [ctx log]. rewrite bind_modify. cbn [ctx log].
  by rewrite (send_message_log_text _ _ _ accessories_message_not_blank).
Qed.

(** X14.  Lines 652-662, once they are reached: when the model turn
    leaves the session in [UPSELL] (a tool placed an order), the
    accessories message is posted, the session moves to [COMPLETED] with
    an empty cart, and the empty string is returned; the final answer of
    the model is dropped, it is neither returned nor stored in the
    history. *)
Theorem run_agent_turn_upsell w out w1 :
  Runner_run (get_last_n_messages 20 (ctx w)) w = (Ok out, w1) →
  state (ctx w1) = UPSELL →
  ∃ w', run_agent_turn w = (Ok (Some []), w')
    ∧ log w' = log w1 ++ [Posted (chat_id (ctx w1)) accessories_message]
    ∧ state (ctx w') = COMPLETED
    ∧ cart (ctx w') = []
    ∧ messages (ctx w') = messages (ctx w1).
Proof.
  intros Hrun Hs. eexists. split; [by apply (run_agent_turn_upsell_run w out w1)|].
  cbn [ctx log]. split; [done|]. split; [done|].
  split; [by rewrite change_state_cart|apply change_state_messages].
Qed.

(** X15.  Lines 652-667, once they are reached, in the other cases: when
    the model turn ends in a state other than [UPSELL], its final answer
    is returned, and stored in the history as an assistant message unless
    it is [None]; nothing is posted by these lines.  An exception of the
    model turn leaves [run_unified_agent] as it is, with the session as
    the turn left it. *)
Theorem run_agent_turn_answer w :
  (∀ out w1,
      Runner_run (get_last_n_messages 20 (ctx w)) w = (Ok out, w1) →
      state (ctx w1) ≠ UPSELL →
      run_agent_turn w
      = (Ok out,
         mkWorld (match out with
                  | Some o => add_message role_assistant (Some o) (ctx w1)
                  | None => ctx w1
                  end) (log w1)))
  ∧ (∀ e w1,
      Runner_run (get_last_n_messages 20 (ctx w)) w = (Raise e, w1) →
      run_agent_turn w = (Raise e, w1)).
Proof.
  split.
  - intros out w1 Hrun Hs. unfold run_agent_turn. rewrite bind_get.
    rewrite (bind_ok _ _ _ _ _ Hrun). rewrite bind_get.
    rewrite (bool_decide_eq_false_2 _ Hs).
    destruct out as [o|]; [|by destruct w1]. by rewrite bind_modify.
  - intros e w1 Hrun. unfold run_agent_turn. rewrite bind_get.
    by rewrite (bind_raise _ _ _ _ _ Hrun).
Qed.

Lemma checkout_group_run title is_preorder t group rows customer_info w :
  checkout_group title is_preorder t group rows customer_info (chat_id (ctx w)) w
  = (Ok tt,
     mkWorld (ctx w)
       (log w ++ checkout_group_log title is_preorder t group rows customer_info (ctx w))).
Proof.
  unfold checkout_group, checkout_group_log. destruct group as [|r group].
  - rewrite ret_run, app_nil_r. by destruct w.
  - rewrite bind_notify_seller.
    destruct (plants_of_type t rows) as [|p ps] eqn:Hp.
    + by rewrite ret_run.
    + rewrite pot_suggestions_run. cbn [ctx log]. by rewrite <- app_assoc.
Qed.

Lemma checkout_groups_cover rows :
  rows ≠ [] → order_rows rows ≠ [] ∨ preorder_rows rows ≠ [].
Proof.
  destruct rows as [|r rows]; [done|]. intros _.
  unfold order_rows, preorder_rows.
  destruct (decide (type r = type_preorder)) as [Hp|Hp].
  - right. by rewrite filter_cons_True.
  - left. by rewrite filter_cons_True.
Qed.

Lemma notifications_checkout_group title is_preorder t group rows customer_info c :
  notifications (checkout_group_log title is_preorder t group rows customer_info c)
  = match group with
    | [] => []
    | _ :: _ => [Notified (checkout_details title group customer_info) is_preorder (subject c)]
    end.
Proof.
  unfold checkout_group_log. destruct group; [done|].
  unfold notifications at 1. rewrite filter_cons_True by done.
  fold (notifications (pot_suggestions (chat_id c) (plants_of_type t rows))).
  by rewrite notifications_pot_suggestions.
Qed.

(** X16.  [checkout_cart] on an empty cart answers that there is nothing
    to order and does nothing else.  On a cart with rows it notifies the
    seller once for the rows that are not preorders, when there are any,
    and once for the preorders, when there are any (so once or twice),
    each time followed by the pot suggestions for the plants of that
    type; then the cart is emptied, the session moves to [UPSELL], and
    the success reply is returned. *)
Theorem tool_checkout_cart_run customer_info w :
  (cart (ctx w) = [] →
     tool_checkout_cart customer_info w = (Ok (py "Корзина пуста, нечего заказывать"), w))
  ∧ (cart (ctx w) ≠ [] →
     ∃ w', tool_checkout_cart customer_info w = (Ok checkout_success_json, w')
       ∧ cart (ctx w') = []
       ∧ state (ctx w') = UPSELL
       ∧ log w'
         = log w
           ++ checkout_group_log (py "ЗАКАЗ:") false order_type_order
                (order_rows (cart (ctx w))) (cart (ctx w)) customer_info (ctx w)
           ++ checkout_group_log (py "ПРЕДЗАКАЗ:") true type_preorder
                (preorder_rows (cart (ctx w))) (cart (ctx w)) customer_info (ctx w)
       ∧ (1 ≤ length (notifications (log w')) - length (notifications (log w)) ≤ 2)%nat).
Proof.
  unfold tool_checkout_cart. rewrite bind_get. split.
  - intros ->. by rewrite ret_run.
  - intros Hrows. destruct (cart (ctx w)) as [|r rows] eqn:Hcart; [done|].
    rewrite <- Hcart.
    rewrite (bind_ok _ _ _ _ _ (checkout_group_run _ _ _ _ _ _ w)).
    set (w1 := mkWorld (ctx w) _).
    rewrite (bind_ok _ _ _ _ _ (checkout_group_run _ _ _ _ _ _ w1)).
    rewrite !bind_modify, ret_run. subst w1. cbn [ctx log].
    eexists. split; [reflexivity|]. cbn [ctx log].
    split; [by rewrite change_state_cart|]. split; [done|].
    split; [by rewrite <- app_assoc|].
    rewrite <- app_assoc, !notifications_app, !notifications_checkout_group, !length_app.
    destruct (checkout_groups_cover (cart (ctx w))) as [Ho|Hp]; [by rewrite Hcart|..].
    + destruct (order_rows (cart (ctx w))); [done|].
      destruct (preorder_rows (cart (ctx w))); cbn [length]; lia.
    + destruct (preorder_rows (cart (ctx w))); [done|].
      destruct (order_rows (cart (ctx w))); cbn [length]; lia.
Qed.

(** X17.  The tool [remove_from_cart] looks for the row by a
    case-insensitive substring test but removes by exact name.  When
    some row's name contains the text and no row's name is equal to it,
    the tool reports the plant as removed, moves to [CART_MANAGEMENT],
    and the cart is what it was. *)
Theorem tool_remove_from_cart_keeps_partial_match nm w :
  found_in_cart nm (cart (ctx w)) = true →
  rows_named (Some nm) (cart (ctx w)) = [] →
  ∃ w', tool_remove_from_cart nm w
        = (Ok (py "✅ Растение '" ++ nm ++ py "' удалено из корзины"), w')
    ∧ cart (ctx w') = cart (ctx w)
    ∧ state (ctx w') = CART_MANAGEMENT
    ∧ log w' = log w.
Proof.
  intros Hfound Habsent. unfold tool_remove_from_cart.
  rewrite bind_get, Hfound. cbn [negb]. rewrite !bind_modify, ret_run. cbn [ctx log].
  eexists. split; [reflexivity|]. cbn [ctx log].
  split; [|done]. rewrite change_state_cart.
  rewrite (bool_decide_eq_false_2 (CART_MANAGEMENT = COMPLETED)) by done.
  by apply remove_from_cart_absent.
Qed.

(** X18.  The tool [remove_from_cart], in general: when no row's name
    contains the text, nothing changes; otherwise exactly the rows whose
    name is equal to the text are gone and the session is in
    [CART_MANAGEMENT].  Nothing leaves the process in either case. *)
Theorem tool_remove_from_cart_run nm w :
  ∃ reply w', tool_remove_from_cart nm w = (Ok reply, w')
    ∧ log w' = log w
    ∧ (found_in_cart nm (cart (ctx w)) = false → w' = w)
    ∧ (found_in_cart nm (cart (ctx w)) = true →
         state (ctx w') = CART_MANAGEMENT
         ∧ ∀ other, rows_named other (cart (ctx w'))
                    = if decide (other = Some nm) then []
                      else rows_named other (cart (ctx w))).
Proof.
  unfold tool_remove_from_cart. rewrite bind_get.
  destruct (found_in_cart nm (cart (ctx w))); cbn [negb].
  - rewrite !bind_modify, ret_run. cbn [ctx log].
    eexists _, _. split; [reflexivity|]. cbn [ctx log].
    split; [done|]. split; [done|]. intros _. split; [done|].
    intros other. rewrite change_state_cart.
    rewrite (bool_decide_eq_false_2 (CART_MANAGEMENT = COMPLETED)) by done.
    apply remove_from_cart_other.
  - rewrite ret_run. eexists _, _. split; [reflexivity|]. by repeat split.
Qed.

(** X19.  The tool [add_to_cart]: when the catalog search finds nothing
    the session is left as it was; otherwise the first hit is added with
    [ChatContext.add_to_cart], so the number of plants in the cart grows
    by the quantity, and the session moves to [CART_MANAGEMENT].  Nothing
    leaves the process. *)
Theorem tool_add_to_cart_run catalog plant_query qty order_type w :
  ∃ reply w', tool_add_to_cart catalog plant_query qty order_type w = (Ok reply, w')
    ∧ log w' = log w
    ∧ match catalog plant_query with
      | [] => w' = w ∧ reply = py "Растение не найдено в каталоге"
      | selected_plant :: _ =>
          cart (ctx w') = cart (add_to_cart selected_plant qty order_type (ctx w))
          ∧ cart_total (cart (ctx w')) = cart_total (cart (ctx w)) + qty
          ∧ state (ctx w') = CART_MANAGEMENT
      end.
Proof.
  unfold tool_add_to_cart. destruct (catalog plant_query) as [|p ps].
  - rewrite ret_run. by eexists _, _.
  - rewrite !bind_modify, ret_run. cbn [ctx log].
    eexists _, _. split; [reflexivity|]. cbn [ctx log]. split; [done|].
    rewrite change_state_cart.
    rewrite (bool_decide_eq_false_2 (CART_MANAGEMENT = COMPLETED)) by done.
    split; [done|]. split; [|done].
    unfold add_to_cart. destruct (add_to_cart_loop (cart (ctx w)) p qty) as [rows|] eqn:Hl.
    + cbn [cart set_cart]. by destruct (add_to_cart_loop_some _ _ _ _ Hl) as (-> & _).
    + cbn [cart set_cart]. rewrite cart_total_app, cart_total_cons.
      change (cart_total []) with 0. cbn [quantity]. lia.
Qed.

Lemma order_tool_run catalog delivered is_preorder plant_query qty customer_info w :
  order_tool catalog delivered is_preorder plant_query qty customer_info w
  = (Ok (seller_result_json delivered is_preorder),
     mkWorld (change_state UPSELL (ctx w))
       (log w
        ++ Notified (order_details_text
                       (if is_preorder then py "ПРЕДЗАКАЗ: " else py "Заказ: ")
                       plant_query qty customer_info)
                    is_preorder (subject (ctx w))
        :: pot_suggestions (chat_id (ctx w)) (catalog plant_query))).
Proof.
  unfold order_tool. rewrite bind_notify_seller, bind_get. cbn [ctx log].
  destruct (catalog plant_query) as [|p ps] eqn:Hc.
  - by rewrite bind_ret, bind_modify, ret_run.
  - rewrite (bind_ok _ _ _ _ _ (pot_suggestions_run _ _ _)).
    rewrite bind_modify, ret_run. cbn [ctx log]. by rewrite <- app_assoc.
Qed.

(** X20.  The tools [order] and [preorder] call [notify_seller] once and
    move the session to [UPSELL] whether or not the notification was
    delivered; the cart is left as it was, and the reply is the status
    that [notify_seller] returned. *)
Theorem order_tool_always_upsell catalog delivered is_preorder plant_query qty
    customer_info w :
  ∃ w', order_tool catalog delivered is_preorder plant_query qty customer_info w
        = (Ok (seller_result_json delivered is_preorder), w')
    ∧ state (ctx w') = UPSELL
    ∧ cart (ctx w') = cart (ctx w)
    ∧ notifications (log w')
      = notifications (log w)
        ++ [Notified (order_details_text
                        (if is_preorder then py "ПРЕДЗАКАЗ: " else py "Заказ: ")
                        plant_query qty customer_info)
                     is_preorder (subject (ctx w))]
    ∧ replies (log w')
      = replies (log w) ++ pot_suggestions (chat_id (ctx w)) (catalog plant_query).
Proof.
  eexists. split; [apply order_tool_run|]. cbn [ctx log].
  split; [done|]. split.
  { rewrite change_state_cart. by rewrite (bool_decide_eq_false_2 (UPSELL = COMPLETED)). }
  rewrite notifications_app, replies_app.
  unfold notifications at 2, replies at 2.
  rewrite filter_cons_True, filter_cons_False by done.
  fold (notifications (pot_suggestions (chat_id (ctx w)) (catalog plant_query))).
  fold (replies (pot_suggestions (chat_id (ctx w)) (catalog plant_query))).
  by rewrite notifications_pot_suggestions, replies_pot_suggestions.
Qed.

(** X21.  A model turn that calls the tool [order] or [preorder] and then
    answers ends, in lines 652-662, with the accessories message, which
    opens with the words that the order is placed, posted to the user,
    the session [COMPLETED] and the cart emptied; this is so also when
    the notification of the seller failed, and whatever the model
    answered after the tool call is dropped. *)
Theorem order_turn_is_always_confirmed catalog delivered is_preorder plant_query qty
    customer_info answer w :
  Runner_run (get_last_n_messages 20 (ctx w)) w
  = (order_tool catalog delivered is_preorder plant_query qty customer_info;;
     mret answer) w →
  ∃ w', run_agent_turn w = (Ok (Some []), w')
    ∧ state (ctx w') = COMPLETED
    ∧ cart (ctx w') = []
    ∧ last (replies (log w')) = Some (Posted (chat_id (ctx w)) accessories_message)
    ∧ messages (ctx w') = messages (ctx w).
Proof.
  intros Hrun.
  rewrite (bind_ok _ _ _ _ _ (order_tool_run _ _ _ _ _ _ w)), ret_run in Hrun.
  eexists. split.
  { apply (run_agent_turn_upsell_run w _ _ Hrun). done. }
  cbn [ctx log]. split; [done|]. split; [by rewrite change_state_cart|].
  split.
  - rewrite replies_app. unfold replies at 2. rewrite filter_cons_True by done.
    rewrite filter_nil, change_state_chat_id. by rewrite last_snoc.
  - by rewrite !change_state_messages.
Qed.

(** ** Handlers, continued *)

Lemma new_context_not_expired chat : is_expired now (new_context now chat) = false.
Proof.
  unfold is_expired, timedelta_days. cbn [created_at new_context].
  apply bool_decide_eq_false_2. lia.
Qed.

Lemma fetch_or_create_other chat cs other :
  other ≠ chat → fetch_or_create chat cs !! other = cs !! other.
Proof.
  intros Hne. unfold fetch_or_create.
  destruct (cs !! chat) as [c|]; [destruct (is_expired now c)|];
    by rewrite ?lookup_insert_ne.
Qed.

Lemma fetch_or_create_fresh chat cs :
  ∃ c, fetch_or_create chat cs !! chat = Some c ∧ is_expired now c = false.
Proof.
  unfold fetch_or_create. destruct (cs !! chat) as [c|] eqn:Hc.
  - destruct (is_expired now c) eqn:He.
    + exists (new_context now chat). rewrite lookup_insert_eq.
      split; [done|apply new_context_not_expired].
    + by exists c.
  - exists (new_context now chat). rewrite lookup_insert_eq.
    split; [done|apply new_context_not_expired].
Qed.

Lemma empty_message_text_not_blank : truthy (strip empty_message_text) = true.
Proof. by vm_compute. Qed.

Lemma handle_client_message_effect chat message_text k :
  outbox (handle_client_message chat message_text k)
  = outbox k ++ [Posted chat (if truthy_opt message_text
                              then processing_error_text else empty_message_text)]
  ∧ (∃ c, chat_contexts (handle_client_message chat message_text k) !! chat = Some c
          ∧ is_expired now c = false)
  ∧ (∀ other, other ≠ chat →
       chat_contexts (handle_client_message chat message_text k) !! other
       = chat_contexts k !! other).
Proof.
  destruct message_text as [text|]; [destruct text as [|ch text]|].
  - unfold handle_client_message. cbn [is_reset_command truthy andb negb truthy_opt].
    destruct (fetch_or_create_fresh chat (chat_contexts k)) as (c & Hc & He).
    rewrite Hc. cbn [outbox chat_contexts].
    rewrite (send_message_log_text _ _ _ empty_message_text_not_blank).
    split; [done|]. split; [by exists c|].
    intros other Hne. by apply fetch_or_create_other.
  - rewrite handle_client_message_error by done. cbn [outbox chat_contexts truthy_opt truthy].
    split; [done|]. split; [apply fetch_or_create_fresh|].
    intros other Hne. rewrite fetch_or_create_other by done.
    destruct (is_reset_command _); by rewrite ?lookup_insert_ne.
  - unfold handle_client_message. cbn [is_reset_command truthy_opt].
    destruct (fetch_or_create_fresh chat (chat_contexts k)) as (c & Hc & He).
    rewrite Hc. cbn [outbox chat_contexts].
    rewrite (send_message_log_text _ _ _ empty_message_text_not_blank).
    split; [done|]. split; [by exists c|].
    intros other Hne. by apply fetch_or_create_other.
Qed.

(** X22.  Every call of [handle_client_message], whatever the text and
    the stored sessions, posts exactly one message, to the chat of the
    call, and notifies nobody: the message is the apology for an empty
    message when the text is [None] or empty, and the generic error text
    otherwise.  Afterwards the chat has a session that has not expired,
    and the sessions of all other chats are as they were. *)
Theorem handle_client_message_frame chat message_text k :
  replies (outbox (handle_client_message chat message_text k))
  = replies (outbox k)
    ++ [Posted chat (if truthy_opt message_text
                     then processing_error_text else empty_message_text)]
  ∧ notifications (outbox (handle_client_message chat message_text k))
    = notifications (outbox k)
  ∧ (∃ c, chat_contexts (handle_client_message chat message_text k) !! chat = Some c
          ∧ is_expired now c = false)
  ∧ (∀ other, other ≠ chat →
       chat_contexts (handle_client_message chat message_text k) !! other
       = chat_contexts k !! other).
Proof.
  destruct (handle_client_message_effect chat message_text k) as (Hout & Hlive & Hother).
  rewrite Hout, replies_app, notifications_app.
  unfold replies at 2, notifications at 2.
  rewrite filter_cons_True, filter_cons_False, !filter_nil, app_nil_r by done.
  done.
Qed.

(** X23.  The reset command (a text that is ["/start"] once stripped and
    lowered) replaces the session of the chat by a new one, whatever the
    old session held and whatever its state, [MANAGER_CALLED] included;
    the other sessions stay. *)
Theorem start_command_resets chat text k :
  is_reset_command (Some text) = true →
  chat_contexts (handle_client_message chat (Some text) k)
  = <[chat := new_context now chat]> (chat_contexts k).
Proof.
  intros Hreset. pose proof Hreset as Hcmd.
  unfold is_reset_command in Hcmd. apply andb_true_iff in Hcmd as [Ht _].
  rewrite (handle_client_message_error _ _ _ Ht), Hreset. cbn [chat_contexts].
  apply (fetch_or_create_live _ _ (new_context now chat)).
  - apply lookup_insert_eq.
  - apply new_context_not_expired.
Qed.

Lemma photo_texts_not_blank :
  truthy (strip photo_missing_text) = true
  ∧ truthy (strip photo_error_text) = true
  ∧ truthy (strip photo_agent_error_text) = true.
Proof. by vm_compute. Qed.

(** X24.  [handle_client_image] posts exactly one message to the chat of
    the call, whatever the state of the session, [MANAGER_CALLED]
    included (the early replies of lines 188-219 are fixed non-blank
    texts).  When the image was fetched and analysed, the message is the
    photo error text of line 247, because [run_unified_agent] raises; the
    session is not changed by the turn.  The sessions of all other chats
    are as they were. *)
Theorem handle_client_image_posts_one chat image_url k :
  (∀ text, image_analysis image_url = EarlyReply text → truthy (strip text) = true) →
  (∃ text, outbox (handle_client_image chat image_url k)
           = outbox k ++ [Posted chat text]
           ∧ (truthy image_url = true →
              ∀ m, image_analysis image_url = Analysed m → text = photo_agent_error_text))
  ∧ chat_contexts (handle_client_image chat image_url k)
    = fetch_or_create chat (chat_contexts k)
  ∧ (∀ other, other ≠ chat →
       chat_contexts (handle_client_image chat image_url k) !! other
       = chat_contexts k !! other).
Proof.
  intros Hearly. destruct photo_texts_not_blank as (Hmissing & Herror & Hagent).
  assert (chat_contexts (handle_client_image chat image_url k)
          = fetch_or_create chat (chat_contexts k)) as Hcs.
  { unfold handle_client_image.
    destruct (fetch_or_create_fresh chat (chat_contexts k)) as (c & Hc & _).
    rewrite Hc. destruct (truthy image_url); cbn [negb]; [|done].
    destruct (image_analysis image_url); [done| |done].
    rewrite run_unified_agent_raises. cbn [chat_contexts ctx].
    by apply insert_id. }
  split; [|split; [done|]].
  - unfold handle_client_image.
    destruct (fetch_or_create_fresh chat (chat_contexts k)) as (c & Hc & _).
    rewrite Hc. destruct (truthy image_url); cbn [negb].
    + destruct (image_analysis image_url) as [text|m|] eqn:Ha.
      * exists text. cbn [outbox].
        rewrite (send_message_log_text _ _ _ (Hearly text eq_refl)).
        split; [reflexivity|]. intros _ m Hm. discriminate Hm.
      * exists photo_agent_error_text. rewrite run_unified_agent_raises.
        cbn [outbox log]. rewrite (send_message_log_text _ _ _ Hagent).
        split; [reflexivity|]. intros _ m' _. reflexivity.
      * exists photo_error_text. cbn [outbox].
        rewrite (send_message_log_text _ _ _ Herror).
        split; [reflexivity|]. intros _ m Hm. discriminate Hm.
    + exists photo_missing_text. cbn [outbox].
      rewrite (send_message_log_text _ _ _ Hmissing).
      split; [reflexivity|]. intros Hf. discriminate Hf.
  - intros other Hne. rewrite Hcs. by apply fetch_or_create_other.
Qed.

(** ** Windows of different chats *)

Lemma send_message_log_only chat m l :
  ∃ new, send_message_log chat m l = l ++ new
         ∧ Forall (λ e, ∃ t, e = Posted chat t) new.
Proof.
  unfold send_message_log. destruct (negb _ || negb _).
  - exists []. by rewrite app_nil_r.
  - eexists [_]. split; [done|]. repeat constructor. by eexists.
Qed.

Lemma handle_client_image_only chat image_url k :
  (∃ new, outbox (handle_client_image chat image_url k) = outbox k ++ new
          ∧ Forall (λ e, ∃ t, e = Posted chat t) new)
  ∧ (∀ other, other ≠ chat →
       chat_contexts (handle_client_image chat image_url k) !! other
       = chat_contexts k !! other).
Proof.
  unfold handle_client_image.
  destruct (fetch_or_create_fresh chat (chat_contexts k)) as (c & Hc & _).
  rewrite Hc.
  assert (∀ m, (∃ new, outbox (mkCore (fetch_or_create chat (chat_contexts k))
                                      (send_message_log chat m (outbox k)))
                       = outbox k ++ new
                       ∧ Forall (λ e, ∃ t, e = Posted chat t) new)
               ∧ (∀ other, other ≠ chat →
                    chat_contexts (mkCore (fetch_or_create chat (chat_contexts k))
                                          (send_message_log chat m (outbox k))) !! other
                    = chat_contexts k !! other)) as Hsend.
  { intros m. split; [apply send_message_log_only|].
    intros other Hne. by apply fetch_or_create_other. }
  destruct (truthy image_url); cbn [negb]; [|apply Hsend].
  destruct (image_analysis image_url); [apply Hsend| |apply Hsend].
  rewrite run_unified_agent_raises. cbn [ctx log]. rewrite (insert_id _ _ _ Hc).
  apply Hsend.
Qed.

Lemma run_call_only chat c k :
  call_chat c = chat →
  (∃ new, outbox (run_call c k) = outbox k ++ new
          ∧ Forall (λ e, ∃ t, e = Posted chat t) new)
  ∧ (∀ other, other ≠ chat →
       chat_contexts (run_call c k) !! other = chat_contexts k !! other).
Proof.
  intros <-. destruct c as [ch u|ch t]; cbn [run_call call_chat].
  - apply handle_client_image_only.
  - destruct (handle_client_message_effect ch (Some t) k) as (Ho & _ & Hoth).
    split; [|done]. eexists [_]. split; [exact Ho|].
    repeat constructor. by eexists.
Qed.

Lemma own_calls_tick t sv : own_calls sv → own_calls (tick t sv).
Proof.
  intros Hown chat calls. destruct t as [item|c|c]; cbn [tick].
  - rewrite process_messages_step. cbn [user_timers].
    destruct (user_timers sv !! item_chat item) eqn:Hst; [apply Hown|].
    destruct (decide (chat = item_chat item)) as [->|Hne].
    + by rewrite lookup_insert_eq.
    + rewrite lookup_insert_ne by done. apply Hown.
  - unfold process_user_messages_fire.
    destruct (user_timers sv !! c) as [[|cs]|] eqn:Hst; [|apply Hown..].
    assert (∀ um, user_timers (mkServer (core sv) um (delete c (user_timers sv))) !! chat
                  = Some (Dispatching calls) →
                  Forall (λ x, call_chat x = chat) calls) as Hdel.
    { intros um. cbn [user_timers]. destruct (decide (chat = c)) as [->|Hne].
      - by rewrite lookup_delete_eq.
      - rewrite lookup_delete_ne by done. apply Hown. }
    destruct (default [] (user_messages sv !! c)) as [|e es]; [apply Hdel|].
    destruct (calls_of c (e :: es)) as [|call rest] eqn:Hcalls; [apply Hdel|].
    cbn [user_timers]. destruct (decide (chat = c)) as [->|Hne].
    + rewrite lookup_insert_eq. intros [= <-]. rewrite <- Hcalls.
      unfold calls_of. apply Forall_app. split.
      * apply Forall_forall. intros x Hx.
        apply list_elem_of_fmap in Hx as (u & -> & _). done.
      * destruct (text_messages (e :: es)); by repeat constructor.
    + rewrite lookup_insert_ne by done. apply Hown.
  - unfold process_user_messages_return.
    destruct (user_timers sv !! c) as [[|[|call rest]]|] eqn:Hst; [apply Hown..| |apply Hown].
    pose proof (Hown c _ Hst) as Hc. apply Forall_cons in Hc as [_ Hrest].
    destruct rest as [|call' rest]; cbn [user_timers];
      destruct (decide (chat = c)) as [->|Hne].
    + by rewrite lookup_delete_eq.
    + rewrite lookup_delete_ne by done. apply Hown.
    + rewrite lookup_insert_eq. by intros [= <-].
    + rewrite lookup_insert_ne by done. apply Hown.
Qed.

Lemma own_calls_run ticks sv : own_calls sv → own_calls (run ticks sv).
Proof.
  revert sv. induction ticks as [|t ticks IH]; intros sv Hown; [done|].
  cbn [run foldl]. apply IH. by apply own_calls_tick.
Qed.

(** X29.  In every state that the server reaches from one without timer
    tasks, a step of the task of a chat (the end of its sleep, or the
    return of a handler call it awaited) sends nothing but messages to
    that chat, and leaves the sessions, the pending lists and the timers
    of all other chats as they were. *)
Theorem window_touches_own_chat_only ticks k um chat t :
  t = Fire chat ∨ t = Return chat →
  (∃ new, outbox (core (tick t (run ticks (mkServer k um ∅))))
          = outbox (core (run ticks (mkServer k um ∅))) ++ new
          ∧ Forall (λ e, ∃ text, e = Posted chat text) new)
  ∧ (∀ other, other ≠ chat →
       chat_contexts (core (tick t (run ticks (mkServer k um ∅)))) !! other
       = chat_contexts (core (run ticks (mkServer k um ∅))) !! other
       ∧ user_messages (tick t (run ticks (mkServer k um ∅))) !! other
         = user_messages (run ticks (mkServer k um ∅)) !! other
       ∧ user_timers (tick t (run ticks (mkServer k um ∅))) !! other
         = user_timers (run ticks (mkServer k um ∅)) !! other).
Proof.
  intros Ht.
  assert (own_calls (run ticks (mkServer k um ∅))) as Hown.
  { apply own_calls_run. intros c calls. cbn [user_timers]. by rewrite lookup_empty. }
  set (sv := run ticks (mkServer k um ∅)) in *. clearbody sv.
  assert (∀ sv', core sv' = core sv →
            (∀ other, other ≠ chat →
               user_messages sv' !! other = user_messages sv !! other
               ∧ user_timers sv' !! other = user_timers sv !! other) →
            (∃ new, outbox (core sv') = outbox (core sv) ++ new
                    ∧ Forall (λ e, ∃ text, e = Posted chat text) new)
            ∧ (∀ other, other ≠ chat →
                 chat_contexts (core sv') !! other = chat_contexts (core sv) !! other
                 ∧ user_messages sv' !! other = user_messages sv !! other
                 ∧ user_timers sv' !! other = user_timers sv !! other)) as Hquiet.
  { intros sv' -> Hrest. split; [exists []; by rewrite app_nil_r|].
    intros other Hne. split; [done|]. by apply Hrest. }
  destruct Ht as [-> | ->]; cbn [tick].
  - unfold process_user_messages_fire.
    destruct (user_timers sv !! chat) as [[|cs]|] eqn:Hst;
      [|by apply Hquiet..].
    destruct (default [] (user_messages sv !! chat)) as [|e es].
    { apply Hquiet; [done|]. intros other Hne. cbn [user_messages user_timers].
      by rewrite lookup_delete_ne. }
    destruct (calls_of chat (e :: es)); (apply Hquiet; [done|]);
      intros other Hne; cbn [user_messages user_timers];
      by rewrite lookup_insert_ne, ?lookup_delete_ne, ?lookup_insert_ne.
  - unfold process_user_messages_return.
    destruct (user_timers sv !! chat) as [[|[|c rest]]|] eqn:Hst;
      [by apply Hquiet..| |by apply Hquiet].
    pose proof (Hown chat _ Hst) as Hc. apply Forall_cons in Hc as [Hc _].
    destruct (run_call_only chat c (core sv) Hc) as (Hout & Hother).
    destruct rest as [|c' rest]; cbn [core user_messages user_timers].
    + split; [exact Hout|]. intros other Hne.
      split; [by apply Hother|]. split; [done|]. by rewrite lookup_delete_ne.
    + split; [exact Hout|]. intros other Hne.
      split; [by apply Hother|]. split; [done|]. by rewrite lookup_insert_ne.
Qed.

(** ** The expiry sweep *)

Lemma lookup_foldr_delete {A} (m : gmap Z A) ks k :
  foldr delete m ks !! k = if decide (k ∈ ks) then None else m !! k.
Proof.
  induction ks as [|k' ks IH]; cbn [foldr].
  - by rewrite decide_False by apply not_elem_of_nil.
  - destruct (decide (k = k')) as [->|Hne].
    + rewrite lookup_delete_eq. rewrite decide_True; [done|apply list_elem_of_here].
    + rewrite lookup_delete_ne by done. rewrite IH.
      destruct (decide (k ∈ ks)) as [Hin|Hnin].
      * rewrite decide_True; [done|by apply list_elem_of_further].
      * rewrite decide_False; [done|].
        intros Hc. apply elem_of_cons in Hc as [?|?]; done.
Qed.

Lemma cleanup_expired_contexts_lookup cs chat :
  cleanup_expired_contexts cs !! chat
  = match cs !! chat with
    | Some c => if is_expired now c then None else Some c
    | None => None
    end.
Proof.
  unfold cleanup_expired_contexts. rewrite lookup_foldr_delete.
  destruct (cs !! chat) as [c|] eqn:Hc.
  - destruct (is_expired now c) eqn:He.
    + rewrite decide_True; [done|].
      apply list_elem_of_bind. exists (chat, c). cbn [fst snd]. rewrite He.
      split; [apply list_elem_of_here|by apply elem_of_map_to_list].
    + rewrite decide_False; [done|].
      intros Hin. apply list_elem_of_bind in Hin as ([k' c'] & Hin & Hkv).
      apply elem_of_map_to_list in Hkv. cbn [fst snd] in Hin.
      destruct (is_expired now c') eqn:He'; [|by apply not_elem_of_nil in Hin].
      apply list_elem_of_singleton in Hin as ->. congruence.
  - by case_decide.
Qed.

(** X25.  [cleanup_expired_contexts] deletes exactly the sessions that
    have expired: afterwards a chat has a session if and only if it had
    one that has not expired, and that session is unchanged.  A second
    sweep at the same time removes nothing more. *)
Theorem cleanup_expired_contexts_keeps_live cs :
  (∀ chat c, cleanup_expired_contexts cs !! chat = Some c
             ↔ cs !! chat = Some c ∧ is_expired now c = false)
  ∧ cleanup_expired_contexts (cleanup_expired_contexts cs) = cleanup_expired_contexts cs.
Proof.
  split.
  - intros chat c. rewrite cleanup_expired_contexts_lookup.
    destruct (cs !! chat) as [c'|]; [|by split; [|intros []]].
    destruct (is_expired now c') eqn:He; split.
    + done.
    + intros [[= ->] He']. congruence.
    + by intros [= ->].
    + by intros [[= ->] _].
  - apply map_eq. intros chat. rewrite !cleanup_expired_contexts_lookup.
    destruct (cs !! chat) as [c|]; [|done].
    destruct (is_expired now c) eqn:He; [done|]. by rewrite He.
Qed.

(** ** The socket callback *)

Lemma hand_over_lookup chat d cs :
  ∃ c, hand_over chat d cs !! chat = Some c
    ∧ state c = MANAGER_CALLED
    ∧ dialog_id c = d
    ∧ cart c = cart (default (new_context now chat) (cs !! chat))
    ∧ messages c = messages (default (new_context now chat) (cs !! chat)).
Proof.
  unfold hand_over. destruct (cs !! chat) as [c|] eqn:Hc; cbn [default].
  - rewrite Hc. eexists. rewrite lookup_insert_eq. split; [done|].
    split; [done|]. split; [by unfold change_state; repeat case_match|].
    rewrite change_state_cart, change_state_messages.
    by rewrite (bool_decide_eq_false_2 (MANAGER_CALLED = COMPLETED)).
  - rewrite lookup_insert_eq. eexists. rewrite lookup_insert_eq. split; [done|].
    split; [done|]. split; [by unfold change_state; repeat case_match|].
    rewrite change_state_cart, change_state_messages.
    by rewrite (bool_decide_eq_false_2 (MANAGER_CALLED = COMPLETED)).
Qed.

Lemma hand_over_other chat d cs other :
  other ≠ chat → hand_over chat d cs !! other = cs !! other.
Proof.
  intros Hne. unfold hand_over. destruct (cs !! chat) as [c|] eqn:Hc.
  - rewrite Hc. by rewrite lookup_insert_ne.
  - rewrite lookup_insert_eq. by rewrite !lookup_insert_ne.
Qed.

(** X26.  An event from a manager or a CRM user, or from a customer whose
    dialog is assigned to a manager, in one of the two target channels,
    hands the chat over: nothing is put on the queue, the session of the
    chat (created when missing) is in [MANAGER_CALLED] with the dialog id
    of the event, its cart and history are kept, and the other sessions
    are as they were. *)
Theorem on_message_hands_over dialog_assigned m cs chat :
  event_type m = py "message_new" →
  in_chat_id m = Some chat → chat ≠ 0 →
  in_channel_id m = Some 18 ∨ in_channel_id m = Some 13 →
  sender_type m ∈ [py "manager"; py "user"]
  ∨ (sender_type m = py "customer" ∧ dialog_assigned (in_dialog_id m) = true) →
  (on_message dialog_assigned m cs).2 = None
  ∧ (∃ c, (on_message dialog_assigned m cs).1 !! chat = Some c
          ∧ state c = MANAGER_CALLED
          ∧ dialog_id c = in_dialog_id m
          ∧ cart c = cart (default (new_context now chat) (cs !! chat))
          ∧ messages c = messages (default (new_context now chat) (cs !! chat)))
  ∧ (∀ other, other ≠ chat →
       (on_message dialog_assigned m cs).1 !! other = cs !! other).
Proof.
  intros Hev Hchat Hnz Hchan Hsender.
  assert (on_message dialog_assigned m cs = (hand_over chat (in_dialog_id m) cs, None)) as ->.
  { unfold on_message. rewrite Hev, Hchat.
    rewrite (bool_decide_eq_true_2 (py "message_new" = py "message_new")) by done.
    rewrite (bool_decide_eq_false_2 (chat = 0)) by done. cbn [negb].
    assert (match in_channel_id m with
            | Some ch => bool_decide (ch = 18) || bool_decide (ch = 13)
            | None => false
            end = true) as ->.
    { destruct Hchan as [-> | ->]; done. }
    cbn [negb]. destruct Hsender as [Hs|[Hs Ha]].
    - assert (sender_type m ≠ py "customer") as Hnc.
      { intros Hc. rewrite Hc in Hs. revert Hs. decide_closed. }
      by rewrite (bool_decide_eq_false_2 _ Hnc), (bool_decide_eq_true_2 _ Hs).
    - by rewrite (bool_decide_eq_true_2 _ Hs), Ha. }
  cbn [fst snd]. split; [done|]. split; [apply hand_over_lookup|].
  intros other Hne. by apply hand_over_other.
Qed.

(** X27.  Whatever [on_message] puts on the queue is a customer's event
    of its own chat in a target channel whose dialog is not assigned: a
    text that is not blank or an image URL that is not empty.  The
    session of the chat then exists and carries the dialog id of the
    event, with its state, cart and history as they were (those of a new
    session when there was none). *)
Theorem on_message_enqueues_well_formed dialog_assigned m cs cs' item :
  on_message dialog_assigned m cs = (cs', Some item) →
  well_formed_item item
  ∧ in_chat_id m = Some (item_chat item)
  ∧ sender_type m = py "customer"
  ∧ dialog_assigned (in_dialog_id m) = false
  ∧ ∃ c, cs' !! item_chat item = Some c
       ∧ dialog_id c = in_dialog_id m
       ∧ state c = state (default (new_context now (item_chat item)) (cs !! item_chat item))
       ∧ cart c = cart (default (new_context now (item_chat item)) (cs !! item_chat item))
       ∧ messages c
         = messages (default (new_context now (item_chat item)) (cs !! item_chat item)).
Proof.
  unfold on_message.
  destruct (negb (bool_decide (event_type m = py "message_new"))); [done|].
  destruct (in_chat_id m) as [chat|]; [|done].
  destruct (bool_decide (chat = 0)); [done|].
  destruct (negb _); [done|].
  case_bool_decide as Hs.
  2: { by destruct (bool_decide (sender_type m ∈ _)). }
  destruct (dialog_assigned (in_dialog_id m)) eqn:Ha; [done|].
  set (cs1 := match cs !! chat with
              | None => <[chat := new_context now chat]> cs
              | Some _ => cs
              end).
  assert (cs1 !! chat = Some (default (new_context now chat) (cs !! chat))) as Hc1.
  { subst cs1. destruct (cs !! chat) as [c|] eqn:Hc; [done|]. apply lookup_insert_eq. }
  rewrite Hc1.
  set (cs2 := <[chat := _]> cs1).
  assert (∀ it, (cs2, Some it) = (cs', Some item) → item_chat it = chat →
                well_formed_item it →
                well_formed_item item
                ∧ Some chat = Some (item_chat item)
                ∧ py "customer" = py "customer"
                ∧ false = false
                ∧ ∃ c, cs' !! item_chat item = Some c
                     ∧ dialog_id c = in_dialog_id m
                     ∧ state c = state (default (new_context now (item_chat item))
                                                (cs !! item_chat item))
                     ∧ cart c = cart (default (new_context now (item_chat item))
                                              (cs !! item_chat item))
                     ∧ messages c = messages (default (new_context now (item_chat item))
                                                      (cs !! item_chat item))) as Hdone.
  { intros it [= <- <-] Hchat Hwf. rewrite Hchat. split; [done|]. do 3 (split; [done|]).
    eexists. subst cs2. rewrite lookup_insert_eq. by split. }
  rewrite Hs.
  destruct (bool_decide (incoming_type m = py "text")).
  - destruct (in_text m) as [t|]; [|done].
    destruct (truthy t && truthy (strip t)) eqn:Ht; [|done].
    intros H. apply (Hdone _ H); [done|].
    apply andb_true_iff in Ht as [_ Ht]. exact Ht.
  - destruct (bool_decide (incoming_type m = py "image")); [|done].
    destruct (in_preview_url m) as [u|]; [|done].
    destruct (truthy u) eqn:Hu; [|done].
    intros H. by apply (Hdone _ H).
Qed.

(** ** telegrambot.py: choose_manager *)

Lemma min_by_key_spec {A} (key : A → Z) best xs :
  let r := min_by_key key best xs in
  (r = best ∧ Forall (λ x, key best ≤ key x) xs)
  ∨ (∃ pre post, xs = pre ++ r :: post
                 ∧ key r < key best
                 ∧ Forall (λ x, key r < key x) pre
                 ∧ Forall (λ x, key r ≤ key x) post).
Proof.
  revert best. induction xs as [|x xs IH]; intros best; cbn [min_by_key].
  - left. by split.
  - destruct (Z.ltb_spec (key x) (key best)) as [Hlt|Hge].
    + destruct (IH x) as [[Hr Hall]|(pre & post & Hxs & Hk & Hpre & Hpost)].
      * right. exists [], xs. cbn zeta in *. rewrite Hr.
        split; [done|]. split; [done|]. split; [constructor|done].
      * right. exists (x :: pre), post. cbn zeta in *.
        split; [by rewrite Hxs at 1|]. split; [lia|].
        split; [by constructor|done].
    + destruct (IH best) as [[Hr Hall]|(pre & post & Hxs & Hk & Hpre & Hpost)].
      * left. cbn zeta in *. split; [done|]. by constructor.
      * right. exists (x :: pre), post. cbn zeta in *.
        split; [by rewrite Hxs at 1|]. split; [done|].
        split; [constructor; [lia|done]|done].
Qed.

(** X28.  [choose_manager] returns [None] exactly for an empty list.
    Otherwise it returns a manager of the list whose [activeDialogs]
    (0 when the key is missing) is the least, and among several such the
    one listed first: everyone listed before has strictly more active
    dialogs, everyone after at least as many. *)
Theorem choose_manager_least_loaded managers :
  match choose_manager managers with
  | None => managers = []
  | Some r =>
      ∃ pre post, managers = pre ++ r :: post
                  ∧ Forall (λ u, active_dialogs r < active_dialogs u) pre
                  ∧ Forall (λ u, active_dialogs r ≤ active_dialogs u) post
  end.
Proof.
  destruct managers as [|u rest]; cbn [choose_manager]; [done|].
  destruct (min_by_key_spec active_dialogs u rest)
    as [[Hr Hall]|(pre & post & Hxs & Hk & Hpre & Hpost)]; cbn zeta in *.
  - exists [], rest. rewrite Hr. split; [done|]. split; [constructor|done].
  - exists (u :: pre), post. split; [by rewrite Hxs at 1|].
    split; [constructor; [done|done]|done].
Qed.

End Bot.

(* ===================================================================== *)
(** * Concrete runs *)
(* ===================================================================== *)

(** ** Strings and patterns *)

Example strip_example : strip (py "  /start ") = py "/start".
Proof. reflexivity. Qed.

Example str_of_N_example : str_of_N 70 = py "70" ∧ str_of_N 0 = py "0" ∧ str_of_N 105 = py "105".
Proof. by vm_compute. Qed.

Example extract_20_cm :
  extract_pot_size ascii_lower ascii_decimal_value (py "нужно кашпо 20 см") = Some 20%N.
Proof. by vm_compute. Qed.

Example extract_d15 :
  extract_pot_size ascii_lower ascii_decimal_value (py "кашпо D15") = Some 15%N.
Proof. by vm_compute. Qed.

Example extract_diameter_25 :
  extract_pot_size ascii_lower ascii_decimal_value (py "диаметр 25") = Some 25%N.
Proof. by vm_compute. Qed.

Example extract_size_80 :
  extract_pot_size ascii_lower ascii_decimal_value (py "размер 80") = None.
Proof. by vm_compute. Qed.

(** The first match of a pattern decides for that pattern: a first
    number out of range hides a later one in range. *)
Example extract_first_match_only :
  extract_pot_size ascii_lower ascii_decimal_value (py "5 см или 20 см") = None.
Proof. by vm_compute. Qed.

Example pot_link_20 :
  generate_pot_link 20
  = py "https://tropichouse.ru/catalog/gorshki_i_kashpo/filter/diameter-from-21-to-25/apply/".
Proof. by vm_compute. Qed.

(** 70 is not a key of the table; the nearest key is 53. *)
Example pot_link_70 :
  generate_pot_link 70
  = py "https://tropichouse.ru/catalog/gorshki_i_kashpo/filter/diameter-from-60-to-70/apply/".
Proof. by vm_compute. Qed.

(** ** Cart *)

(** C2 as stated fails on a cart that already holds the item: five ficus
    plants in the cart, then [add(ficus, 1)] and [add(ficus, 2)], leave one
    row with quantity 8, not 3. *)
Lemma add_twice_present_counterexample :
  rows_named (plant_name ficus)
    (cart (add_twice ficus 1 2 order_type_order order_type_order session_with_ficus))
  = [mkCartItem ficus 8 order_type_order]
  ∧ ¬ ∃ row,
        rows_named (plant_name ficus)
          (cart (add_twice ficus 1 2 order_type_order order_type_order session_with_ficus))
        = [row]
        ∧ quantity row = 1 + 2.
Proof.
  assert (rows_named (plant_name ficus)
            (cart (add_twice ficus 1 2 order_type_order order_type_order session_with_ficus))
          = [mkCartItem ficus 8 order_type_order]) as Hrows.
  { rewrite (add_twice_present session_with_ficus [] (mkCartItem ficus 5 order_type_order) []
               ficus 1 2 order_type_order order_type_order eq_refl eq_refl eq_refl).
    cbn [app plant quantity type]. unfold rows_named. rewrite filter_cons.
    by rewrite decide_True by done. }
  split; [done|]. rewrite Hrows. intros (row & [= <-] & Hq). cbn in Hq. lia.
Qed.

Lemma add_twice_absent_witness :
  rows_named (plant_name ficus) (cart fresh_session) = []
  ∧ cart (add_twice ficus 1 2 order_type_order order_type_order fresh_session)
    = [mkCartItem ficus 3 order_type_order].
Proof.
  split; [reflexivity|].
  exact (proj1 (add_twice_absent fresh_session ficus 1 2
                  order_type_order order_type_order eq_refl)).
Defined.

(** ** State machine *)

Lemma change_state_search_preferences_witness :
  cart (change_state PLANT_SEARCH session_with_preferences)
  = [mkCartItem ficus 1 order_type_order]
  ∧ desired_size (change_state PLANT_SEARCH session_with_preferences) = None
  ∧ desired_location (change_state PLANT_SEARCH session_with_preferences) = None.
Proof.
  destruct (change_state_search_preferences session_with_preferences PLANT_SEARCH
              (or_intror eq_refl)) as (Hcart & Hclear & _).
  split; [exact Hcart|]. apply Hclear.
  apply (bool_decide_unpack _). vm_compute. exact I.
Defined.

(** ** Escalation *)

Example silent_escalation_example :
  call_request ∈ [order_question; call_request]
  ∧ route_category ascii_lower ascii_decimal_value nobody_online 12 silent_runner
      call_me call_request fresh_world
    = (Ok (Some []),
       mkWorld (change_state MANAGER_CALLED
                  (set_subject (py "Пользователь просит позвонить") fresh_session))
               [Notified (py "Пользователь просит позвонить: Перезвоните мне, пожалуйста")
                         false (Some (py "Пользователь просит позвонить"))]).
Proof.
  assert (call_request ∈ [order_question; call_request]) as Hin.
  { apply (bool_decide_unpack _). vm_compute. exact I. }
  split; [exact Hin|].
  destruct (silent_escalation ascii_lower ascii_decimal_value nobody_online 12
              silent_runner call_me call_request fresh_world Hin)
    as (prefix & Hp & Hrun & _).
  assert (DETAILS_PREFIX !! call_request = Some (py "Пользователь просит позвонить"))
    as Hp' by (vm_compute; reflexivity).
  rewrite Hp' in Hp. injection Hp as <-.
  rewrite Hrun. vm_compute. reflexivity.
Qed.

(** 20:00, the staff query fails: the after-hours text, a notification,
    the state still [START]. *)
Example deflected_escalation_example :
  py "reclamation" ∈ deflected_categories
  ∧ ∃ c',
      route_category ascii_lower ascii_decimal_value staff_query_fails 20 silent_runner
        broken_plant_complaint (py "reclamation") fresh_world
      = (Ok (Some after_hours_message),
         mkWorld c' [Notified (py "Рекламация: Растение пришло сломанным")
                              false (Some (py "Рекламация"))])
      ∧ state c' = START.
Proof.
  assert (py "reclamation" ∈ deflected_categories) as Hin.
  { apply (bool_decide_unpack _). vm_compute. exact I. }
  split; [exact Hin|].
  destruct (deflected_escalation ascii_lower ascii_decimal_value staff_query_fails 20
              silent_runner broken_plant_complaint (py "reclamation") fresh_world Hin)
    as (prefix & reply & Hp & _ & Hlate & _).
  assert (DETAILS_PREFIX !! py "reclamation" = Some (py "Рекламация"))
    as Hp' by (vm_compute; reflexivity).
  rewrite Hp' in Hp. injection Hp as <-.
  destruct Hlate as (Hrun & Hstate & _); [lia|vm_compute; reflexivity|].
  eexists. split; [|exact Hstate].
  rewrite Hrun. vm_compute. reflexivity.
Qed.

(** ** Classification *)

Lemma classify_intent_range_witness :
  returned (classify_intent ascii_lower llm_offline review_request_text fresh_world)
  = Some review_ignore
  ∧ review_ignore ∈ category_keys ++ [none; review_ignore]
  ∧ category_of_response ascii_lower (py " Pot_Request ") = none.
Proof.
  destruct (classify_intent_range ascii_lower llm_offline quantity_offline)
    as (Hmap & _ & _ & _ & Hret).
  split; [reflexivity|]. split.
  - exact (proj1 (Hret review_request_text fresh_world review_ignore eq_refl)).
  - apply (proj1 (proj2 (Hmap (py " Pot_Request ")))).
    apply (bool_decide_unpack _). vm_compute. exact I.
Defined.

(** ** The turn as written *)

(** A greeting sent to a chat whose session is in [MANAGER_CALLED]: the
    session stays as it is and the error text is posted. *)
Lemma manager_called_turn_posts_error_witness :
  chat_contexts escalated_core !! 42 = Some escalated_session
  ∧ state escalated_session = MANAGER_CALLED
  ∧ handle_client_message ascii_lower ascii_decimal_value llm_offline quantity_offline
      nobody_online 12 silent_runner 1000 42 (Some greeting) escalated_core
    = mkCore (chat_contexts escalated_core) [Posted 42 processing_error_text].
Proof.
  assert (chat_contexts escalated_core !! 42 = Some escalated_session) as Hc
    by reflexivity.
  split; [exact Hc|]. split; [reflexivity|].
  refine (proj1 (manager_called_turn_posts_error ascii_lower ascii_decimal_value
                   llm_offline quantity_offline nobody_online 12 silent_runner
                   1000 42 greeting escalated_core escalated_session
                   Hc eq_refl eq_refl eq_refl _)).
  apply (bool_decide_unpack _). vm_compute. exact I.
Defined.

(** "Call me back", labelled ["call_request"] by the model, sent to a
    fresh session at noon: the error text, no notification. *)
Lemma silent_category_turn_posts_error_witness :
  model_category ascii_lower (llm_says (py "call_request")) call_me = Some call_request
  ∧ notifications
      (outbox (handle_client_message ascii_lower ascii_decimal_value
                 (llm_says (py "call_request")) quantity_offline nobody_online 12
                 silent_runner 1000 42 (Some call_me) fresh_core))
    = []
  ∧ replies
      (outbox (handle_client_message ascii_lower ascii_decimal_value
                 (llm_says (py "call_request")) quantity_offline nobody_online 12
                 silent_runner 1000 42 (Some call_me) fresh_core))
    = [Posted 42 processing_error_text].
Proof.
  assert (model_category ascii_lower (llm_says (py "call_request")) call_me
          = Some call_request) as Hm by (vm_compute; reflexivity).
  assert (call_request ∈ [order_question; call_request]) as Hin.
  { apply (bool_decide_unpack _). vm_compute. exact I. }
  assert (ascii_lower (strip call_me) ∉ [py "/start"]) as Hcmd.
  { apply (bool_decide_unpack _). vm_compute. exact I. }
  split; [exact Hm|].
  exact (proj2 (silent_category_turn_posts_error ascii_lower ascii_decimal_value
                  (llm_says (py "call_request")) quantity_offline nobody_online 12
                  silent_runner 1000 42 call_me fresh_core fresh_session call_request
                  Hm Hin eq_refl eq_refl eq_refl Hcmd)).
Defined.

(** A complaint, labelled ["reclamation"], sent at 20:00 while the staff
    query fails: the error text, no notification. *)
Lemma deflected_category_turn_posts_error_witness :
  model_category ascii_lower (llm_says (py "reclamation")) broken_plant_complaint
  = Some (py "reclamation")
  ∧ notifications
      (outbox (handle_client_message ascii_lower ascii_decimal_value
                 (llm_says (py "reclamation")) quantity_offline staff_query_fails 20
                 silent_runner 1000 42 (Some broken_plant_complaint) fresh_core))
    = []
  ∧ replies
      (outbox (handle_client_message ascii_lower ascii_decimal_value
                 (llm_says (py "reclamation")) quantity_offline staff_query_fails 20
                 silent_runner 1000 42 (Some broken_plant_complaint) fresh_core))
    = [Posted 42 processing_error_text].
Proof.
  assert (model_category ascii_lower (llm_says (py "reclamation")) broken_plant_complaint
          = Some (py "reclamation")) as Hm by (vm_compute; reflexivity).
  assert (py "reclamation" ∈ deflected_categories) as Hin.
  { apply (bool_decide_unpack _). vm_compute. exact I. }
  assert (ascii_lower (strip broken_plant_complaint) ∉ [py "/start"]) as Hcmd.
  { apply (bool_decide_unpack _). vm_compute. exact I. }
  split; [exact Hm|].
  exact (proj2 (proj1 (deflected_category_turn_posts_error ascii_lower ascii_decimal_value
                  (llm_says (py "reclamation")) quantity_offline staff_query_fails 20
                  silent_runner 1000 42 broken_plant_complaint fresh_core fresh_session
                  (py "reclamation") Hm Hin eq_refl eq_refl eq_refl Hcmd))).
Defined.

(** A question about 20 cm pots, labelled ["pot_request"]: the error
    text, and the label itself would be turned into ["none"]. *)
Lemma pot_request_turn_posts_error_witness :
  llm_says (py "pot_request") pot_question = Ok (py "pot_request")
  ∧ replies
      (outbox (handle_client_message ascii_lower ascii_decimal_value
                 (llm_says (py "pot_request")) quantity_offline nobody_online 12
                 silent_runner 1000 42 (Some pot_question) fresh_core))
    = [Posted 42 processing_error_text]
  ∧ category_of_response ascii_lower (py "pot_request") = none.
Proof.
  assert (ascii_lower (strip (py "pot_request")) = pot_request) as Hpot
    by (vm_compute; reflexivity).
  assert (ascii_lower (strip pot_question) ∉ [py "/start"]) as Hcmd.
  { apply (bool_decide_unpack _). vm_compute. exact I. }
  destruct (pot_request_turn_posts_error ascii_lower ascii_decimal_value
              (llm_says (py "pot_request")) quantity_offline nobody_online 12
              silent_runner 1000 42 pot_question fresh_core fresh_session
              (py "pot_request") eq_refl Hpot eq_refl eq_refl eq_refl Hcmd)
    as ((_ & _ & Hr) & Hnone).
  split; [reflexivity|]. split; [exact Hr|exact Hnone].
Defined.

(** ** Debounce *)

Example three_texts_pending :
  user_messages (run ascii_lower ascii_decimal_value llm_offline quantity_offline nobody_online 12
       silent_runner 1000 no_image_analysis
       (map Arrive three_texts) idle_server) !! 42
  = Some [ (Some (py "Добрый день"), None); (Some (py "нужен фикус"), None);
           (Some (py "в офис"), None) ].
Proof. reflexivity. Qed.

(** Three texts in one window: when the sleep ends, one call of
    [handle_client_message] is due, with the three texts separated by
    the code point 10. *)
Example three_texts_one_turn :
  user_timers (run ascii_lower ascii_decimal_value llm_offline quantity_offline nobody_online 12
       silent_runner 1000 no_image_analysis
       (map Arrive three_texts ++ [Fire 42]) idle_server) !! 42
  = Some (Dispatching
            [CallMessage 42 (py "Добрый день" ++ [10%N] ++ py "нужен фикус"
                             ++ [10%N] ++ py "в офис")]).
Proof. by vm_compute. Qed.

(** A photo between two texts: the photo is dispatched first, then the
    two texts as one turn. *)
Example photo_before_texts :
  user_timers
    (run ascii_lower ascii_decimal_value llm_offline quantity_offline nobody_online 12
       silent_runner 1000 no_image_analysis
       [Arrive (TextItem 42 (py "Что это?")); Arrive (ImageItem 42 photo_url);
          Arrive (TextItem 42 (py "Можно купить?")); Fire 42] idle_server) !! 42
  = Some (Dispatching
            [CallImage 42 photo_url;
             CallMessage 42 (py "Что это?" ++ [10%N] ++ py "Можно купить?")]).
Proof. by vm_compute. Qed.

(** Two texts in one window and a third while the turn is awaited: the
    turn is made of the first two, and the third is left pending with no
    timer when the turn has returned. *)
Lemma debounce_window_strands_late_events_witness :
  user_timers (run ascii_lower ascii_decimal_value llm_offline quantity_offline nobody_online 12
       silent_runner 1000 no_image_analysis
       (map Arrive two_texts ++ [Fire 42]) idle_server) !! 42
  = Some (Dispatching
            [CallMessage 42 (py "Добрый день" ++ [10%N] ++ py "нужен фикус")])
  ∧ user_timers
      (run ascii_lower ascii_decimal_value llm_offline quantity_offline nobody_online 12
       silent_runner 1000 no_image_analysis
       (map Arrive two_texts ++ [Fire 42; Arrive late_text; Return 42]) idle_server)
      !! 42
    = None
  ∧ user_messages
      (run ascii_lower ascii_decimal_value llm_offline quantity_offline nobody_online 12
       silent_runner 1000 no_image_analysis
       (map Arrive two_texts ++ [Fire 42; Arrive late_text; Return 42]) idle_server)
      !! 42
    = Some [(Some (py "в офис"), None)].
Proof.
  assert (Forall well_formed_item two_texts) as Hwf by (repeat constructor).
  assert (batch_of 42 two_texts ≠ []) as Hne by discriminate.
  assert (user_timers idle_server !! (42 : Z) = None) as Hfree by reflexivity.
  assert (Forall (during_dispatch 42) [Arrive late_text]) as Hmid
    by (repeat constructor).
  destruct (debounce_window_strands_late_events ascii_lower ascii_decimal_value
              llm_offline quantity_offline nobody_online 12 silent_runner 1000
              no_image_analysis idle_server 42 two_texts [Arrive late_text]
              Hwf Hne Hfree Hmid eq_refl)
    as (_ & (_ & Hstage & _) & (_ & Htimer & _) & _).
  assert (map (CallImage 42)
            (image_messages (default [] (user_messages idle_server !! 42))
             ++ batch_images (batch_of 42 two_texts))
          ++ match text_messages (default [] (user_messages idle_server !! 42))
                   ++ batch_texts (batch_of 42 two_texts) with
             | [] => []
             | texts => [CallMessage 42 (join nl texts)]
             end
          = [CallMessage 42 (py "Добрый день" ++ [10%N] ++ py "нужен фикус")]) as Hcalls
    by (vm_compute; reflexivity).
  split; [|split].
  - rewrite run_app, <- Hcalls. exact Hstage.
  - rewrite run_app. exact Htimer.
  - vm_compute. reflexivity.
Defined.

(** The stranded text is dispatched only with the window that the next
    event opens, in front of that event's text. *)
Example stranded_text_joins_next_window :
  user_timers
    (run ascii_lower ascii_decimal_value llm_offline quantity_offline nobody_online 12
       silent_runner 1000 no_image_analysis
       (map Arrive two_texts
          ++ [Fire 42; Arrive late_text; Return 42;
              Arrive (TextItem 42 (py "Алло?")); Fire 42]) idle_server) !! 42
  = Some (Dispatching [CallMessage 42 (py "в офис" ++ [10%N] ++ py "Алло?")]).
Proof. by vm_compute. Qed.

(* ===================================================================== *)
(** * Concrete runs of the further properties *)
(* ===================================================================== *)

(** ** Cart *)

(** Removing a plant that is not in the cart leaves the five ficus
    plants. *)
Lemma remove_from_cart_rows_witness :
  rows_named (Some (py "Монстера")) (cart session_with_ficus) = []
  ∧ cart (remove_from_cart (py "Монстера") session_with_ficus) = cart session_with_ficus.
Proof.
  assert (rows_named (Some (py "Монстера")) (cart session_with_ficus) = []) as Habs
    by (vm_compute; reflexivity).
  split; [exact Habs|].
  exact (proj2 (remove_from_cart_rows (py "Монстера") session_with_ficus) Habs).
Defined.

Lemma remove_after_add_witness :
  plant_name ficus = Some ficus_name
  ∧ cart (remove_from_cart ficus_name (add_to_cart ficus 2 order_type_order fresh_session))
    = cart fresh_session.
Proof.
  assert (plant_name ficus = Some ficus_name) as Hname by (vm_compute; reflexivity).
  split; [exact Hname|].
  apply (proj2 (remove_after_add ficus_name ficus 2 order_type_order fresh_session Hname)).
  reflexivity.
Defined.

(** A preorder of a plant that is in the cart as an order: one row, six
    plants, still an order. *)
Lemma add_to_cart_merge_keeps_type_witness :
  cart (add_to_cart ficus 1 type_preorder session_with_ficus)
  = [mkCartItem ficus 6 order_type_order].
Proof.
  exact (add_to_cart_merge_keeps_type session_with_ficus []
           (mkCartItem ficus 5 order_type_order) [] ficus 1 type_preorder
           eq_refl eq_refl eq_refl).
Defined.

(** ** State machine and history *)

Lemma change_state_out_of_stock_witness :
  state session_out_of_stock = OUT_OF_STOCK
  ∧ out_of_stock_plant (change_state PLANT_SEARCH session_out_of_stock) = None
  ∧ out_of_stock_plant (change_state OUT_OF_STOCK session_out_of_stock) = Some monstera.
Proof.
  split; [reflexivity|]. split.
  - apply (proj1 (change_state_out_of_stock PLANT_SEARCH session_out_of_stock));
      [reflexivity|discriminate].
  - apply (proj1 (proj2 (change_state_out_of_stock OUT_OF_STOCK session_out_of_stock))).
    right. reflexivity.
Defined.

Lemma get_last_n_messages_suffix_witness :
  (1 ≤ 2)%nat
  ∧ length (get_last_n_messages 2 session_with_history) = 2%nat.
Proof.
  assert (1 ≤ 2)%nat as Hn by lia.
  split; [exact Hn|].
  exact (proj2 (get_last_n_messages_suffix 2 session_with_history Hn)).
Defined.

(** A tool message without text gets the empty string as content, and is
    the last of the last five messages. *)
Lemma add_message_appends_witness :
  (1 ≤ 5)%nat
  ∧ ∃ m, last (get_last_n_messages 5 (add_message role_tool None session_with_history))
         = Some m
       ∧ content m = ContentStr [].
Proof.
  assert (1 ≤ 5)%nat as Hn by lia.
  split; [exact Hn|].
  destruct (add_message_appends role_tool None session_with_history)
    as (m & _ & _ & Hc & _ & _ & Hlast).
  exists m. split; [exact (Hlast 5%nat Hn)|exact Hc].
Defined.

(** ** Pot suggestions *)

Lemma extract_plant_diameter_range_witness :
  extract_plant_diameter ascii_decimal_value ficus_name = Some 21%N
  ∧ (5 ≤ 21 ≤ 60)%N.
Proof.
  assert (extract_plant_diameter ascii_decimal_value ficus_name = Some 21%N) as Hd
    by (vm_compute; reflexivity).
  split; [exact Hd|].
  exact (proj1 (extract_plant_diameter_range ascii_decimal_value ficus_name 21 Hd)).
Defined.

(** ** The agent turn and its tools *)

(** With the quantity model offline an office request is handled as
    ["none"]; another category is left alone. *)
Lemma refine_office_plant_keeps_witness :
  refine_office_plant quantity_offline greeting office_plant = none
  ∧ refine_office_plant quantity_offline greeting call_request = call_request.
Proof.
  destruct (refine_office_plant_keeps quantity_offline greeting call_request)
    as (Hother & _ & Hfail).
  split.
  - exact (Hfail (ExternalError "offline") eq_refl).
  - apply Hother. apply (bool_decide_unpack _). vm_compute. exact I.
Defined.

Lemma run_agent_turn_upsell_witness :
  ordering_runner (get_last_n_messages 20 (ctx fresh_world)) fresh_world
  = (Ok (Some (py "Заказ принят")), mkWorld (change_state UPSELL fresh_session) [])
  ∧ ∃ w', run_agent_turn ordering_runner fresh_world = (Ok (Some []), w')
        ∧ log w' = [Posted 42 accessories_message]
        ∧ state (ctx w') = COMPLETED
        ∧ cart (ctx w') = []
        ∧ messages (ctx w') = [].
Proof.
  split; [reflexivity|].
  exact (run_agent_turn_upsell ordering_runner fresh_world (Some (py "Заказ принят"))
           (mkWorld (change_state UPSELL fresh_session) []) eq_refl eq_refl).
Defined.

Lemma run_agent_turn_answer_witness :
  run_agent_turn answering_runner fresh_world
  = (Ok (Some (py "Здравствуйте!")),
     mkWorld (add_message role_assistant (Some (py "Здравствуйте!")) fresh_session) [])
  ∧ run_agent_turn failing_runner fresh_world
    = (Raise (ExternalError "model unavailable"), fresh_world).
Proof.
  split.
  - apply (proj1 (run_agent_turn_answer answering_runner fresh_world)
             (Some (py "Здравствуйте!")) fresh_world eq_refl).
    discriminate.
  - exact (proj2 (run_agent_turn_answer failing_runner fresh_world)
             (ExternalError "model unavailable") fresh_world eq_refl).
Defined.

(** A cart with an order and a preorder: the cart is emptied and the
    session moves to [UPSELL]; an empty cart: nothing happens. *)
Lemma tool_checkout_cart_run_witness :
  cart (ctx (mkWorld session_with_two_rows [])) ≠ []
  ∧ (∃ w', tool_checkout_cart ascii_decimal_value None (mkWorld session_with_two_rows [])
           = (Ok checkout_success_json, w')
         ∧ cart (ctx w') = []
         ∧ state (ctx w') = UPSELL)
  ∧ tool_checkout_cart ascii_decimal_value None fresh_world
    = (Ok (py "Корзина пуста, нечего заказывать"), fresh_world).
Proof.
  assert (cart (ctx (mkWorld session_with_two_rows [])) ≠ []) as Hne by discriminate.
  split; [exact Hne|]. split.
  - destruct (proj2 (tool_checkout_cart_run ascii_decimal_value None
                       (mkWorld session_with_two_rows [])) Hne)
      as (w' & Hrun & Hcart & Hstate & _).
    exists w'. split; [exact Hrun|]. split; [exact Hcart|exact Hstate].
  - exact (proj1 (tool_checkout_cart_run ascii_decimal_value None fresh_world) eq_refl).
Defined.

(** Asked to remove "Фикус" from a cart that holds "Фикус Лирата 21/110
    см", the tool reports the removal and the cart keeps its row. *)
Lemma tool_remove_from_cart_keeps_partial_match_witness :
  found_in_cart ascii_lower (py "Фикус") (cart session_with_ficus) = true
  ∧ rows_named (Some (py "Фикус")) (cart session_with_ficus) = []
  ∧ ∃ w', tool_remove_from_cart ascii_lower (py "Фикус") (mkWorld session_with_ficus [])
          = (Ok (py "✅ Растение '" ++ py "Фикус" ++ py "' удалено из корзины"), w')
        ∧ cart (ctx w') = [mkCartItem ficus 5 order_type_order].
Proof.
  assert (found_in_cart ascii_lower (py "Фикус") (cart session_with_ficus) = true)
    as Hfound by (vm_compute; reflexivity).
  assert (rows_named (Some (py "Фикус")) (cart session_with_ficus) = [])
    as Habs by (vm_compute; reflexivity).
  split; [exact Hfound|]. split; [exact Habs|].
  destruct (tool_remove_from_cart_keeps_partial_match ascii_lower (py "Фикус")
              (mkWorld session_with_ficus []) Hfound Habs)
    as (w' & Hrun & Hcart & _).
  exists w'. split; [exact Hrun|exact Hcart].
Defined.

Lemma tool_remove_from_cart_run_witness :
  found_in_cart ascii_lower (py "Монстера") (cart session_with_ficus) = false
  ∧ ∃ reply, tool_remove_from_cart ascii_lower (py "Монстера")
               (mkWorld session_with_ficus [])
             = (Ok reply, mkWorld session_with_ficus []).
Proof.
  assert (found_in_cart ascii_lower (py "Монстера") (cart session_with_ficus) = false)
    as Hnot by (vm_compute; reflexivity).
  split; [exact Hnot|].
  destruct (tool_remove_from_cart_run ascii_lower (py "Монстера")
              (mkWorld session_with_ficus []))
    as (reply & w' & Hrun & _ & Hsame & _).
  exists reply. rewrite Hrun. rewrite (Hsame Hnot). reflexivity.
Defined.

(** The notification of the seller fails during the tool [order]; the
    turn still posts the accessories message, which says that the order
    is placed, and completes the dialog. *)
Lemma order_turn_is_always_confirmed_witness :
  ∃ w', run_agent_turn (failed_order_runner ascii_decimal_value) fresh_world
        = (Ok (Some []), w')
      ∧ state (ctx w') = COMPLETED
      ∧ cart (ctx w') = []
      ∧ last (replies (log w')) = Some (Posted 42 accessories_message)
      ∧ messages (ctx w') = [].
Proof.
  exact (order_turn_is_always_confirmed ascii_decimal_value
           (failed_order_runner ascii_decimal_value) catalog_with_ficus false false
           (py "Фикус Лирата") 1 None (Some (py "Не получилось оформить заказ"))
           fresh_world eq_refl).
Defined.

(** ** Handlers *)

(** A message without text for a chat handed over to a manager: the
    apology is posted, and no session appears for another chat. *)
Lemma handle_client_message_frame_witness :
  (7 : Z) ≠ 42
  ∧ replies (outbox (handle_client_message ascii_lower ascii_decimal_value llm_offline
                       quantity_offline nobody_online 12 silent_runner 1000 42 None
                       escalated_core))
    = [Posted 42 empty_message_text]
  ∧ chat_contexts (handle_client_message ascii_lower ascii_decimal_value llm_offline
                     quantity_offline nobody_online 12 silent_runner 1000 42 None
                     escalated_core) !! 7
    = None.
Proof.
  assert ((7 : Z) ≠ 42) as Hne by discriminate.
  destruct (handle_client_message_frame ascii_lower ascii_decimal_value llm_offline
              quantity_offline nobody_online 12 silent_runner 1000 42 None escalated_core)
    as (Hr & _ & _ & Hother).
  split; [exact Hne|]. split.
  - rewrite Hr. reflexivity.
  - rewrite (Hother 7 Hne). reflexivity.
Defined.

(** [" /START "] sent to a chat handed over to a manager: the session is
    new again. *)
Lemma start_command_resets_witness :
  is_reset_command ascii_lower (Some start_command) = true
  ∧ chat_contexts (handle_client_message ascii_lower ascii_decimal_value llm_offline
                     quantity_offline nobody_online 12 silent_runner 1000 42
                     (Some start_command) escalated_core)
    = <[42 := new_context 1000 42]> (chat_contexts escalated_core).
Proof.
  assert (is_reset_command ascii_lower (Some start_command) = true) as Hreset
    by (vm_compute; reflexivity).
  split; [exact Hreset|].
  exact (start_command_resets ascii_lower ascii_decimal_value llm_offline
           quantity_offline nobody_online 12 silent_runner 1000 42 start_command
           escalated_core Hreset).
Defined.

(** A photo of a plant sent to a chat handed over to a manager: the photo
    error text is posted. *)
Lemma handle_client_image_posts_one_witness :
  truthy photo_url = true
  ∧ plant_photo_analysis photo_url
    = Analysed (py "Пользователь прислал фото растения: Фикус. ")
  ∧ outbox (handle_client_image ascii_lower ascii_decimal_value llm_offline
              quantity_offline nobody_online 12 silent_runner 1000 plant_photo_analysis
              42 photo_url escalated_core)
    = [Posted 42 photo_agent_error_text].
Proof.
  assert (∀ text, plant_photo_analysis photo_url = EarlyReply text →
                  truthy (strip text) = true) as Hearly.
  { intros text H. discriminate H. }
  split; [reflexivity|]. split; [reflexivity|].
  destruct (proj1 (handle_client_image_posts_one ascii_lower ascii_decimal_value
                     llm_offline quantity_offline nobody_online 12 silent_runner 1000
                     plant_photo_analysis 42 photo_url escalated_core Hearly))
    as (text & Hout & Htext).
  rewrite Hout.
  rewrite (Htext eq_refl (py "Пользователь прислал фото растения: Фикус. ") eq_refl).
  reflexivity.
Defined.

(** A session created at time 0 is kept by a sweep at time 1000. *)
Lemma cleanup_expired_contexts_keeps_live_witness :
  chat_contexts fresh_core !! 42 = Some fresh_session
  ∧ is_expired 1000 fresh_session = false
  ∧ cleanup_expired_contexts 1000 (chat_contexts fresh_core) !! 42 = Some fresh_session.
Proof.
  split; [reflexivity|]. split; [reflexivity|].
  apply (proj1 (cleanup_expired_contexts_keeps_live 1000 (chat_contexts fresh_core))).
  split; reflexivity.
Defined.

(** ** The socket callback *)

(** A manager writes in chat 42: nothing is queued and the session is in
    [MANAGER_CALLED]. *)
Lemma on_message_hands_over_witness :
  sender_type manager_event ∈ [py "manager"; py "user"]
  ∧ (on_message ascii_lower 1000 nobody_assigned manager_event (chat_contexts fresh_core)).2
    = None
  ∧ ∃ c, (on_message ascii_lower 1000 nobody_assigned manager_event
            (chat_contexts fresh_core)).1 !! 42 = Some c
       ∧ state c = MANAGER_CALLED.
Proof.
  assert (sender_type manager_event ∈ [py "manager"; py "user"]) as Hs.
  { apply (bool_decide_unpack _). vm_compute. exact I. }
  assert ((42 : Z) ≠ 0) as Hnz by discriminate.
  destruct (on_message_hands_over ascii_lower 1000 nobody_assigned manager_event
              (chat_contexts fresh_core) 42 eq_refl eq_refl Hnz
              (or_introl eq_refl) (or_introl Hs))
    as (Hq & (c & Hc & Hstate & _) & _).
  split; [exact Hs|]. split; [exact Hq|]. exists c. split; [exact Hc|exact Hstate].
Defined.

(** A customer's question in chat 42: it is queued as it came, and the
    new session stays in [START]. *)
Lemma on_message_enqueues_well_formed_witness :
  (on_message ascii_lower 1000 nobody_assigned customer_event ∅).2
  = Some (TextItem 42 (py "Есть ли у вас монстера?"))
  ∧ well_formed_item (TextItem 42 (py "Есть ли у вас монстера?"))
  ∧ ∃ c, (on_message ascii_lower 1000 nobody_assigned customer_event ∅).1 !! 42 = Some c
       ∧ dialog_id c = Some 7.
Proof.
  assert (on_message ascii_lower 1000 nobody_assigned customer_event ∅
          = ((on_message ascii_lower 1000 nobody_assigned customer_event ∅).1,
             Some (TextItem 42 (py "Есть ли у вас монстера?")))) as Hrun
    by (vm_compute; reflexivity).
  destruct (on_message_enqueues_well_formed ascii_lower 1000 nobody_assigned
              customer_event ∅ _ _ Hrun)
    as (Hwf & _ & _ & _ & c & Hc & Hd & _).
  split; [by rewrite Hrun|]. split; [exact Hwf|].
  exists c. split; [exact Hc|exact Hd].
Defined.

(** ** Windows of different chats *)

(** The turn of chat 42 returns: no session appears for chat 7. *)
Lemma window_touches_own_chat_only_witness :
  (7 : Z) ≠ 42
  ∧ chat_contexts
      (core (tick ascii_lower ascii_decimal_value llm_offline quantity_offline
               nobody_online 12 silent_runner 1000 no_image_analysis (Return 42)
               (run ascii_lower ascii_decimal_value llm_offline quantity_offline
                  nobody_online 12 silent_runner 1000 no_image_analysis
                  (map Arrive three_texts ++ [Fire 42]) (mkServer (mkCore ∅ []) ∅ ∅))))
      !! 7
    = None.
Proof.
  assert ((7 : Z) ≠ 42) as Hne by discriminate.
  destruct (window_touches_own_chat_only ascii_lower ascii_decimal_value llm_offline
              quantity_offline nobody_online 12 silent_runner 1000 no_image_analysis
              (map Arrive three_texts ++ [Fire 42]) (mkCore ∅ []) ∅ 42 (Return 42)
              (or_intror eq_refl))
    as (_ & Hother).
  split; [exact Hne|].
  rewrite (proj1 (Hother 7 Hne)). vm_compute. reflexivity.
Defined.
